(* ===== verification/_CoqProject ===== *)
-Q . S2P
Prelude.v
PyValue.v
Unicode.v
Utf8.v
JsonEncode.v
AsciiEscape.v
JsonDecode.v
JsonRoundTrip.v
DecodeWf.v
Reencode.v
PushApi.v
Handler.v
HttpPost.v
HandlerSpec.v
Platform.v
Retry.v
