(* ===== verification/Prelude.v ===== *)
(** * A verification development of the sendmessage WebSocket handler

    The repository is one AWS Lambda handler,
    [src/lambdas/sendmessage/sendmessage.py], function [lambda_handler]
    (lines 5-21).  It reads [event["requestContext"]] three times for the
    domain name, the stage and the connection id, builds the endpoint URL
    with an f-string (line 8), creates an [apigatewaymanagementapi] client
    for it (line 9), parses [event.get("body", "{}")] with [json.loads]
    (lines 12-13), reads [body.get("message", ...)] with the empty string
    as default (line 14), serialises [{"message": message}] with
    [json.dumps], encodes the text with [str.encode("utf-8")] and posts the
    bytes to the connection with [post_to_connection] (lines 16-19); it
    returns [{'statusCode': 200}] (line 21).  Every step can raise, and
    nothing is caught.

    The handler is short, but its behaviour is the behaviour of the library
    calls it composes, so the development models those calls as the
    handler uses them (CPython 3.11 with the [_json] C accelerator that
    [json] loads by default; the decoder and encoder were checked against
    CPython on a set of sample texts while they were written) and the
    platform service as an interface.

    ** Files, in dependency order

    - [Prelude] (this file): the [result] type of computations that raise,
      a state-and-exception monad [stexn] for the one effectful call, their
      notations in [py_scope] ([let?], [let!]), the [py_simpl] rewrite
      database, the tactics the components share ([py_inv], [py_simp],
      [ztest]), code-point literals [cps], and integer lemmas.
    - [PyValue]: Python values as the handler sees them ([pyval]: [None],
      [bool], [int] as [Z], [float] kept as its decimal lexeme, [str] as a
      list of code points, [list], [dict] as an insertion-ordered
      association list), the exceptions ([exn]), [v[k]] ([getitem]),
      [dict.get] ([dict_get]), [d[k] = v] ([dict_setitem]), [str()] for the
      f-string ([py_str]), [int.__repr__] with the 4300-digit limit
      ([int_repr]), and the well-formedness predicate [wf_val].
    - [Unicode]: [str.encode("utf-8")] ([encode_utf8], strict: a surrogate
      raises [UnicodeEncodeError]), hexadecimal digits and surrogate pairs,
      and the [printable] hint database.
    - [Utf8]: the strict UTF-8 decoder a receiving client applies to the
      payload ([utf8_decode], from the spec's "UTF-8 JSON bytes"), and
      what [encode_utf8] guarantees: bytes, decodable, failing only on a
      surrogate.
    - [JsonEncode]: [json.dumps] with its default arguments ([dumps],
      [encode_obj]: [ensure_ascii], separators [", "] and [": "],
      [allow_nan], the C encoder's recursion check).
    - [AsciiEscape]: the encoder's string escaping, the C
      [ascii_escape_unicode] (Module [CEscape]: a size pass that can raise
      [OverflowError], then writes into a buffer of that size through an
      explicit write index), which writes [encode_basestring_ascii].
    - [JsonDecode]: [json.loads] ([loads], [loads_str], [decode],
      [raw_decode], [scan_once], [scanstring], [match_number], the member
      loops [array_loop] and [object_loop]) with the C scanner's error
      messages and positions, the BOM check, the [str] type check, the
      integer digit limit and the recursion check.
    - [JsonRoundTrip]: [json.loads] inverts [json.dumps], and rejects
      trailing data at its position.
    - [DecodeWf]: what [json.loads] returns is well formed.
    - [Reencode]: what [json.loads] returns, [json.dumps] can write (the
      digit limits agree, and the recursion budgets are monotone).
    - [PushApi]: the push-delivery capability as a typeclass ([PushApi]:
      [make_client] for line 9, [post_to_connection] for lines 16-19), the
      laws the handler's theorems use ([PushApiLaws]: a post to an open
      connection appends the bytes to its deliveries and to no other's; a
      post to a connection that is not open raises and changes nothing),
      and a reference model of API Gateway ([Gateway]: botocore's endpoint
      host check, a registry [gmap] of open connections per endpoint with
      their deliveries, [GoneException]) that satisfies the laws
      ([GatewayLaws]).
    - [Handler]: [lambda_handler], statement by statement, over any
      instance of [PushApi]; the pure steps are lifted into [stexn], the
      post is the only step that reads or changes the platform state;
      [prepare] is lines 6-17 alone, and [lambda_handler_prepare] shows
      the handler is [prepare] followed by one post.
    - [HttpPost]: what [post_to_connection] sends: botocore's request
      ([post_request]: the connection id through [percent_encode], the
      path [/@connections/{id}] joined to the endpoint by [_urljoin] with
      [urlsplit] and [urlunsplit]), the management API's routing of it
      ([route], [gw_serve], from the spec), and the gateway
      [HttpGateway] whose posts go through both.
    - [HandlerSpec]: the handler's properties, each with a witness at the
      spec's example event against [Gateway].
    - [Platform]: the handler inside the platform: the [$connect] and
      [$disconnect] routes (not in [src/], modelled from the spec as
      [gw_connect] and [gw_disconnect]) and handler invocations are the
      steps [pstep] of a transition system over the registry, and
      [reachable] is its closure from the empty registry.
    - [Retry]: botocore's default ("legacy") retries of the post: the
      loop of [Endpoint._send_request] ([send_from], [send_request]) with
      the [_retry.json] checker ([retryable], [needs_retry]: socket
      errors, 429, 5xx and the throttling codes, at most [max_attempts] =
      5 attempts) and [delay_exponential]; the network's behaviour on
      each attempt is a list of [fault]s carried in the state ([net]),
      and [RetryGateway] is the client whose post retries.

    ** What the theorems show

    The handler (C1-C5, C20-C28): on a well-formed event with an open
    connection it returns 200 after appending exactly the JSON bytes of
    [{"message": message}] to that connection and nothing anywhere else
    (C1), and the receiver, reading those bytes as UTF-8 and then as
    JSON, gets the message back (C2); against the reference gateway,
    every normal run delivers exactly one payload (C3) and every failing
    run leaves the registry unchanged (C4); once the body parses as an
    object nothing can fail before the post (C5); the defaults for a
    missing body and a missing message (C20, C21); every error path, with
    what it raises: malformed JSON, a body that is not an object or not a
    [str], a gone connection, a missing connection id, an empty domain
    name (C22-C26, C28); the payload for a message of any type (C27).

    The platform (C6-C9): in every reachable registry every delivered
    payload is an envelope's JSON text (C6, by induction on the steps);
    invocations that post to different connections commute (C7); after a
    disconnect the handler raises [GoneException] for that connection
    (C8); two invocations from one connection deliver in the order they
    run (C9).

    The HTTP layer (C10-C14): the handler run over [HttpGateway] is the
    handler run over [Gateway] (C10), because the request botocore sends
    reaches the registry entry [gw_post] updates (C11): it is a [POST] to
    [https://{domainName}/{stage}/@connections/{id}] (C12), and the id is
    quoted into RFC 3986's normal form, which decodes back to its bytes
    and to nothing else (C13); with an empty stage the request misses the
    client's endpoint (C14).

    The retries (C15-C19): a post to an open connection delivers the
    payload between zero and five times, at least once when it returns
    (C15), so the handler returns 200 whenever the network carries one
    of the first five requests after retried faults (C16); a lost
    response makes the connection receive the payload twice (C17); one
    call sends between one and five requests and sleeps less than 15
    times [random.random()] seconds (C18); over a network that carries
    every request the retrying post is [http_post] (C19).

    The library models (C29-C36): [json.loads] inverts [json.dumps] (C29)
    and reports trailing data at its position (C30); the encoder's output
    is printable ASCII, so the UTF-8 encoding is the identity on it (C31);
    UTF-8 encoding is inverted by the strict decoder (C32) and fails
    exactly at the first surrogate (C33); the C string escaper stays
    inside the buffer it allocates and fills it exactly with the escaped
    text (C34); the scanner always terminates (C35); [json.loads] returns
    well-formed values (C36).

    ** Bounds and fuel

    Python's recursion budget for the C scanner and the C encoder depends
    on the interpreter's stack at the call, so it is a parameter ([depth];
    the witnesses use 10 or 100).  The member loops of the scanner run on
    a fuel of one more than the length of their input, which is proved
    never to run out ([scan_once_facts]).  The integer digit limit is
    CPython 3.11's default, 4300.  [PY_SSIZE_T_MAX] is [2^63 - 1] (a
    64-bit build); the C escaper's [OverflowError] needs a string of more
    than [(2^63 - 3) / 12] characters, so [JsonEncode] treats escaping as
    total, and C34 states the size bound under which that is exact.
    The retry loop has no fuel: [send_from] is defined with Equations by
    well-founded recursion on [max_attempts - attempts], and the
    obligation that this decreases is discharged by the attempt check of
    [needs_retry] ([MaxAttemptsDecorator]) alone, so the bound of five
    attempts in C15 and C18 is the one botocore's checker imposes.

    ** Not modelled

    The binary64 value of a float (a float is its lexeme, and [repr] of a
    finite float is a parameter [float_repr], assumed to write a JSON
    number lexeme where the round trip needs it); [str()] of a list or dict
    in the f-string (a parameter); botocore's request signing and the TLS
    connection (the request and its retries are modelled, and what the
    network does to each attempt is an input); the random base of the
    retry delay (the model keeps its power of two) and the [RetryAttempts]
    entry of the response metadata, which the handler ignores; botocore's
    IPv6 endpoint check ([is_valid_ipv6_endpoint_url]), which a host
    [https://{domainName}/...] only meets with a bracketed domain name;
    the Lambda runtime and the WebSocket transport that deliver the event
    (the event is an input; the [context] argument is unused), beyond the
    registry updates of [Platform]; the authorisation of [$connect];
    [MemoryError] from [PyUnicode_New]; the pure-Python escaper
    [py_encode_basestring_ascii], which runs only without the [_json]
    accelerator; the unused [import urllib]; the Terraform
    configuration.  Lines 1-4 (the imports
    and a blank line) have no behaviour of their own to model. *)

From Stdlib Require Export ZArith Ascii String.
From stdpp Require Export base list sets.

Declare Scope py_scope.
Delimit Scope py_scope with py.
Open Scope py_scope.

(** ** Exceptions as values *)

(** A computation that returns an [A] or raises an exception of type [E]. *)
Inductive result (E A : Type) : Type :=
| Ok (a : A)
| Err (e : E).
Arguments Ok {E A} a.
Arguments Err {E A} e.

Definition res_bind {E A B} (c : result E A) (k : A -> result E B) : result E B :=
  match c with
  | Ok a => k a
  | Err e => Err e
  end.

Definition res_map {E A B} (f : A -> B) (c : result E A) : result E B :=
  res_bind c (fun a => Ok (f a)).

Notation "'let?' x ':=' c 'in' k" := (res_bind c (fun x => k))
  (at level 10, x name, c at level 100, k at level 200) : py_scope.
Notation "'let?' ' p ':=' c 'in' k" := (res_bind c (fun x => match x with p => k end))
  (at level 10, p pattern, c at level 100, k at level 200) : py_scope.

(** ** State and exceptions: the platform state threaded through a call *)

Definition stexn (S E A : Type) : Type := S -> result E A * S.

Definition st_ret {S E A} (a : A) : stexn S E A := fun s => (Ok a, s).
Definition st_lift {S E A} (c : result E A) : stexn S E A := fun s => (c, s).
Definition st_bind {S E A B} (c : stexn S E A) (k : A -> stexn S E B) : stexn S E B :=
  fun s => match c s with
           | (Ok a, s') => k a s'
           | (Err e, s') => (Err e, s')
           end.

Notation "'let!' x ':=' c 'in' k" := (st_bind c (fun x => k))
  (at level 10, x name, c at level 100, k at level 200) : py_scope.

(** ** Code points *)

(** A Python [str] is a sequence of code points; [cps] turns an ASCII
    literal of the source into one. *)
Definition cps (s : string) : list Z :=
  map (fun a => Z.of_nat (nat_of_ascii a)) (list_ascii_of_string s).
Arguments cps : simpl never.

(** ** Rewrite database and tactics *)

Create Rewrite HintDb py_simpl.

Lemma res_bind_Ok {E A B} (a : A) (k : A -> result E B) : res_bind (Ok a) k = k a.
Proof. reflexivity. Qed.

Lemma res_bind_Err {E A B} (e : E) (k : A -> result E B) : res_bind (Err e) k = Err e.
Proof. reflexivity. Qed.

Lemma st_bind_lift_Ok {S E A B} (a : A) (k : A -> stexn S E B) s :
  st_bind (st_lift (Ok a)) k s = k a s.
Proof. reflexivity. Qed.

Lemma st_bind_lift_Err {S E A B} (e : E) (k : A -> stexn S E B) s :
  st_bind (st_lift (Err e)) k s = (Err e, s).
Proof. reflexivity. Qed.

#[export] Hint Rewrite @res_bind_Ok @res_bind_Err @st_bind_lift_Ok @st_bind_lift_Err : py_simpl.

Lemma res_bind_Ok_inv {E A B} (c : result E A) (k : A -> result E B) b :
  res_bind c k = Ok b -> exists a, c = Ok a /\ k a = Ok b.
Proof. destruct c; simpl; [eauto | discriminate]. Qed.

Lemma res_bind_Err_inv {E A B} (c : result E A) (k : A -> result E B) e :
  res_bind c k = Err e -> c = Err e \/ exists a, c = Ok a /\ k a = Err e.
Proof. destruct c as [a|e0]; simpl; [eauto | intros [= ->]; auto]. Qed.

Lemma res_map_Ok_inv {E A B} (f : A -> B) (c : result E A) b :
  res_map f c = Ok b -> exists a, c = Ok a /\ b = f a.
Proof. destruct c; simpl; [intros [= <-]; eauto | discriminate]. Qed.

Lemma cps_app s1 s2 : cps (s1 ++ s2) = cps s1 ++ cps s2.
Proof.
  unfold cps. induction s1 as [|a s1 IH]; simpl; [reflexivity|].
  f_equal. exact IH.
Qed.

(** [py_inv] splits a hypothesis [res_bind c k = Ok b] into its steps. *)
Ltac py_inv :=
  repeat match goal with
  | H : res_bind _ _ = Ok _ |- _ =>
      apply res_bind_Ok_inv in H; destruct H as (? & ? & H)
  | H : res_map _ _ = Ok _ |- _ =>
      apply res_map_Ok_inv in H; destruct H as (? & ? & H)
  | H : Ok _ = Ok _ |- _ => injection H as H
  end.

(** [py_simp] evaluates the binds whose scrutinee is known. *)
Ltac py_simp := autorewrite with py_simpl in *.

(** [ztest] decides every integer comparison of the goal, closing the
    branches that contradict the context. *)
Ltac ztest := repeat match goal with
  | |- context [(?a =? ?b)%Z] => destruct (Z.eqb_spec a b); try lia
  | |- context [(?a <=? ?b)%Z] => destruct (Z.leb_spec a b); try lia
  | |- context [(?a <? ?b)%Z] => destruct (Z.ltb_spec a b); try lia
  end.

(** ** Integer lemmas shared by the components *)

Section ZLemmas.
Local Open Scope Z_scope.

(** Or-ing a value below [2^k] into a value shifted by [k] is addition. *)
Lemma lor_shiftl_small (a b k : Z) :
(0 <= k)%Z -> (0 <= b < 2 ^ k)%Z -> Z.lor (Z.shiftl a k) b = (Z.shiftl a k + b)%Z.
Proof.
intros Hk Hb. rewrite <- Z.add_lor_land.
enough (Z.land (Z.shiftl a k) b = 0%Z) by lia.
apply Z.bits_inj'. intros i Hi. rewrite Z.land_spec, Z.bits_0.
destruct (Z.lt_ge_cases i k).
- rewrite Z.shiftl_spec_low by lia. reflexivity.
- destruct (Z.eq_dec b 0) as [->|Hb0]; [rewrite Z.bits_0; apply Bool.andb_false_r|].
  rewrite (Z.bits_above_log2 b i); [apply Bool.andb_false_r | lia |].
  assert (Z.log2 b < k)%Z by (apply Z.log2_lt_pow2; lia). lia.
Qed.

(** [Z.land x (2^k - 1)] of a non-negative value below [2^k] is the value. *)
Lemma land_ones_small (x k : Z) : (0 <= k)%Z -> (0 <= x < 2 ^ k)%Z -> Z.land x (Z.ones k) = x.
Proof. intros Hk Hx. rewrite Z.land_ones by lia. apply Z.mod_small. lia. Qed.

End ZLemmas.

(** ** Induction on the length of a list *)

Lemma list_length_ind {A} (P : list A -> Prop) :
  (forall l, (forall l', length l' < length l -> P l') -> P l) -> forall l, P l.
Proof.
  intros H l. remember (length l) as n eqn:E. revert l E.
  induction (lt_wf n) as [n _ IH]. intros l ->. apply H.
  intros l' Hl'. apply (IH (length l')); auto.
Qed.
