(* ===== verification/PyValue.v ===== *)
(** * Python values, exceptions and the dict operations of the handler

    The handler manipulates the Lambda [event] (a [dict] decoded from the
    invocation's JSON), the parsed [body], and the [{"message": message}]
    literal.  This file gives those values a type ([pyval]), the
    exceptions Python raises on them ([exn]), and the operations the
    handler applies: [v[k]] with a [str] key ([getitem], lines 6, 7, 11),
    [v.get(k, default)] ([dict_get], lines 12 and 14), insertion into a
    dict as [dict(pairs)] and the C scanner do it ([dict_setitem]), [str()]
    as the f-string of line 8 uses it ([py_str]), and [int.__repr__] with
    CPython 3.11's digit limit ([int_repr]). *)

From S2P Require Import Prelude.

Local Open Scope Z_scope.

(** ** Values *)

(** A Python float as [json] produces it: the three constants, or a finite
    value kept as its decimal lexeme (the binary64 rounding is not
    modelled). *)
Inductive pyfloat : Type :=
| FNaN
| FInf
| FNegInf
| FFinite (lexeme : list Z).

(** [str] is a list of code points; a [dict] is its list of items in
    insertion order, with [str] keys (the only keys JSON produces and the
    only key the handler writes). *)
#[warnings="-register-all"]
Inductive pyval : Type :=
| PNone
| PBool (b : bool)
| PInt (z : Z)
| PFloat (f : pyfloat)
| PStr (s : list Z)
| PList (l : list pyval)
| PDict (d : list (list Z * pyval)).

(** Induction on values with hypotheses for the elements of lists and the
    values of dicts. *)
Section pyval_ind.
Variable P : pyval -> Prop.
Hypothesis HNone : P PNone.
Hypothesis HBool : forall b, P (PBool b).
Hypothesis HInt : forall z, P (PInt z).
Hypothesis HFloat : forall f, P (PFloat f).
Hypothesis HStr : forall s, P (PStr s).
Hypothesis HList : forall l, Forall P l -> P (PList l).
Hypothesis HDict : forall d, Forall (fun kv => P kv.2) d -> P (PDict d).

Fixpoint pyval_ind' (v : pyval) : P v :=
  match v with
  | PNone => HNone
  | PBool b => HBool b
  | PInt z => HInt z
  | PFloat f => HFloat f
  | PStr s => HStr s
  | PList l => HList l
      ((fix go (l : list pyval) : Forall P l :=
          match l with
          | [] => List.Forall_nil _
          | x :: l' => List.Forall_cons _ x l' (pyval_ind' x) (go l')
          end) l)
  | PDict d => HDict d
      ((fix go (d : list (list Z * pyval)) : Forall (fun kv => P kv.2) d :=
          match d with
          | [] => List.Forall_nil _
          | kv :: d' => List.Forall_cons _ kv d' (pyval_ind' kv.2) (go d')
          end) d)
  end.
End pyval_ind.

Inductive pytype : Type := TNone | TBool | TInt | TFloat | TStr | TList | TDict.

Definition type_of (v : pyval) : pytype :=
  match v with
  | PNone => TNone | PBool _ => TBool | PInt _ => TInt | PFloat _ => TFloat
  | PStr _ => TStr | PList _ => TList | PDict _ => TDict
  end.

(** ** Exceptions *)

(** The messages of [json.JSONDecodeError] raised by the C scanner. *)
Inductive json_msg : Type :=
| ExpectingValue
| ExtraData
| UnexpectedBOM
| UnterminatedString
| InvalidControlCharacter
| InvalidEscape
| InvalidUXXXXEscape
| ExpectingPropertyName
| ExpectingColon
| ExpectingComma.

Inductive type_error : Type :=
| NotSubscriptable (t : pytype)       (** ['NoneType' object is not subscriptable] *)
| IndicesMustBeIntegers (t : pytype)  (** [list indices must be integers or slices, not str] *)
| JsonInputType (t : pytype).         (** [the JSON object must be str, bytes or bytearray, not ...] *)

Inductive value_error : Type :=
| IntToStrLimit                       (** [int.__repr__] of more than 4300 digits *)
| StrToIntLimit (digits : nat)        (** [int(s)] of more than 4300 digits *)
| InvalidEndpoint (url : list Z).     (** botocore's endpoint check *)

Inductive exn : Type :=
| KeyError (key : list Z)
| TypeError (m : type_error)
| AttributeError (t : pytype) (attr : list Z)
| JSONDecodeError (m : json_msg) (pos : nat)
| ValueError (m : value_error)
| RecursionError
| UnicodeEncodeError (pos : nat)
| ClientError (code : list Z)
| EndpointConnectionError (url : list Z)
| ReadTimeoutError (url : list Z)
| ParamValidationError (param : list Z)
| OverflowError (m : list Z).

Abbreviation pyres := (result exn).

(** ** Dicts *)

Fixpoint dict_lookup (d : list (list Z * pyval)) (k : list Z) : option pyval :=
  match d with
  | [] => None
  | (k', v) :: d' => if decide (k' = k) then Some v else dict_lookup d' k
  end.

(** [d[k] = v]: an existing key keeps its position and takes the new
    value; a new key is appended. *)
Fixpoint dict_setitem (d : list (list Z * pyval)) (k : list Z) (v : pyval)
    : list (list Z * pyval) :=
  match d with
  | [] => [(k, v)]
  | (k', v') :: d' => if decide (k' = k) then (k', v) :: d' else (k', v') :: dict_setitem d' k v
  end.

(** [v[k]] for a [str] key [k]. *)
Definition getitem (v : pyval) (k : list Z) : pyres pyval :=
  match v with
  | PDict d =>
      match dict_lookup d k with
      | Some x => Ok x
      | None => Err (KeyError k)
      end
  | PList _ | PStr _ => Err (TypeError (IndicesMustBeIntegers (type_of v)))
  | _ => Err (TypeError (NotSubscriptable (type_of v)))
  end.

(** [v.get(k, default)]: only [dict] has the method. *)
Definition dict_get (v : pyval) (k : list Z) (default : pyval) : pyres pyval :=
  match v with
  | PDict d =>
      match dict_lookup d k with
      | Some x => Ok x
      | None => Ok default
      end
  | _ => Err (AttributeError (type_of v) (cps "get"))
  end.

(** ** Integers and their decimal text *)

(** CPython 3.11's [sys.int_info.default_max_str_digits]. *)
Definition int_max_str_digits : nat := 4300.

Fixpoint uint_cps (u : Decimal.uint) : list Z :=
  match u with
  | Decimal.Nil => []
  | Decimal.D0 u => 48 :: uint_cps u | Decimal.D1 u => 49 :: uint_cps u
  | Decimal.D2 u => 50 :: uint_cps u | Decimal.D3 u => 51 :: uint_cps u
  | Decimal.D4 u => 52 :: uint_cps u | Decimal.D5 u => 53 :: uint_cps u
  | Decimal.D6 u => 54 :: uint_cps u | Decimal.D7 u => 55 :: uint_cps u
  | Decimal.D8 u => 56 :: uint_cps u | Decimal.D9 u => 57 :: uint_cps u
  end.

(** The digits of [|z|] and the sign, as [int.__repr__] prints them. *)
Definition z_digits (z : Z) : list Z :=
  match Z.to_int z with Decimal.Pos u | Decimal.Neg u => uint_cps u end.

Definition z_text (z : Z) : list Z :=
  if (z <? 0)%Z then 45 :: z_digits z else z_digits z.

(** [int.__repr__] (and [str] of an int): refuses more than 4300 digits. *)
Definition int_repr (z : Z) : pyres (list Z) :=
  if Nat.ltb int_max_str_digits (length (z_digits z))
  then Err (ValueError IntToStrLimit)
  else Ok (z_text z).

(** ** [str()] of a value, as the f-string of line 8 formats it *)

Section Str.
(** [repr] of a finite float, and [str] of a list or dict, are outside
    the model. *)
Variable float_repr : list Z -> list Z.
Variable repr_container : pyval -> list Z.

Definition float_str (f : pyfloat) : list Z :=
  match f with
  | FNaN => cps "nan"
  | FInf => cps "inf"
  | FNegInf => cps "-inf"
  | FFinite lx => float_repr lx
  end.

Definition py_str (v : pyval) : pyres (list Z) :=
  match v with
  | PStr s => Ok s
  | PNone => Ok (cps "None")
  | PBool true => Ok (cps "True")
  | PBool false => Ok (cps "False")
  | PInt z => int_repr z
  | PFloat f => Ok (float_str f)
  | PList _ | PDict _ => Ok (repr_container v)
  end.
End Str.

(** ** Well-formed values *)

Definition valid_cp (c : Z) : bool := (0 <=? c)%Z && (c <=? 0x10FFFF)%Z.

Definition valid_str (s : list Z) : bool := forallb valid_cp s.

(** What a value decoded from JSON satisfies: valid code points, and each
    dict's keys pairwise distinct. *)
Fixpoint wf_val (v : pyval) : bool :=
  match v with
  | PStr s => valid_str s
  | PList l => forallb wf_val l
  | PDict d =>
      bool_decide (NoDup d.*1) && forallb (fun kv => valid_str kv.1 && wf_val kv.2) d
  | PNone | PBool _ | PInt _ | PFloat _ => true
  end.

(** ** Lemmas: dict insertion and lookup *)

Lemma dict_lookup_setitem_ne d k k2 v :
  k <> k2 -> dict_lookup (dict_setitem d k v) k2 = dict_lookup d k2.
Proof.
  intros Hne. induction d as [|[k' v'] d IH]; simpl; [by case_decide|].
  repeat (case_decide; simpl); subst; congruence.
Qed.

Lemma dict_setitem_keys d k v :
  (dict_setitem d k v).*1 = if decide (k ∈ d.*1) then d.*1 else d.*1 ++ [k].
Proof.
  induction d as [|[k' v'] d IH]; cbn [dict_setitem].
  - case_decide as H; [by apply not_elem_of_nil in H | done].
  - rewrite !fmap_cons. cbn [fst]. destruct (decide (k' = k)) as [E1|E1].
    + subst k'. rewrite decide_True by set_solver. done.
    + rewrite fmap_cons, IH. cbn [fst]. repeat case_decide; set_solver.
Qed.

(** Insertion keeps the keys of a dict pairwise distinct. *)
Lemma dict_setitem_nodup d k v : NoDup d.*1 -> NoDup (dict_setitem d k v).*1.
Proof.
  intros Hnd. rewrite dict_setitem_keys. case_decide as E; [done|].
  apply NoDup_app; split; [done|]. split; [set_solver | apply NoDup_singleton].
Qed.

(** Inserting a key that is not there appends it. *)
Lemma dict_setitem_fresh d k v : k ∉ d.*1 -> dict_setitem d k v = d ++ [(k, v)].
Proof.
  induction d as [|[k' v'] d IH]; simpl; [done|]. intros Hk.
  rewrite decide_False by set_solver. f_equal. apply IH. set_solver.
Qed.

Lemma dict_lookup_In d k v : dict_lookup d k = Some v -> (k, v) ∈ d.
Proof.
  induction d as [|[k' v'] d IH]; simpl; [discriminate|].
  case_decide; [intros [= ->]; subst; set_solver|].
  intros Hl. apply IH in Hl. set_solver.
Qed.
