(* ===== verification/Unicode.v ===== *)
(** * Code points, UTF-8 and hexadecimal digits

    [str.encode("utf-8")] of line 17 ([encode_utf8], strict error
    handler: a surrogate code point raises [UnicodeEncodeError] at its
    index), the four-digit lowercase hexadecimal text that [json.dumps]
    writes in [\uXXXX] escapes ([hex4]), the hexadecimal digits the C
    scanner accepts ([hex_val]) and the surrogate-pair arithmetic both
    sides share. *)

From S2P Require Import Prelude PyValue.

Local Open Scope Z_scope.

Definition is_surrogate (c : Z) : bool := (0xD800 <=? c) && (c <=? 0xDFFF).
Definition is_high_surrogate (c : Z) : bool := (0xD800 <=? c) && (c <=? 0xDBFF).
Definition is_low_surrogate (c : Z) : bool := (0xDC00 <=? c) && (c <=? 0xDFFF).

(** The UTF-8 bytes of one code point. *)
Definition utf8_char (c : Z) : list Z :=
  if c <? 0x80 then [c]
  else if c <? 0x800 then
    [Z.lor 0xC0 (Z.shiftr c 6); Z.lor 0x80 (Z.land c 0x3F)]
  else if c <? 0x10000 then
    [Z.lor 0xE0 (Z.shiftr c 12); Z.lor 0x80 (Z.land (Z.shiftr c 6) 0x3F);
     Z.lor 0x80 (Z.land c 0x3F)]
  else
    [Z.lor 0xF0 (Z.shiftr c 18); Z.lor 0x80 (Z.land (Z.shiftr c 12) 0x3F);
     Z.lor 0x80 (Z.land (Z.shiftr c 6) 0x3F); Z.lor 0x80 (Z.land c 0x3F)].

(** [s.encode("utf-8")], reading [s] from index [i]. *)
Fixpoint encode_utf8_from (i : nat) (s : list Z) : pyres (list Z) :=
  match s with
  | [] => Ok []
  | c :: s' =>
      if is_surrogate c then Err (UnicodeEncodeError i)
      else let? r := encode_utf8_from (S i) s' in Ok (utf8_char c ++ r)
  end.

Definition encode_utf8 (s : list Z) : pyres (list Z) := encode_utf8_from 0 s.

(** ** Hexadecimal digits *)

(** ["0123456789abcdef"][d], as [Py_hexdigits] and [format(n, "04x")]. *)
Definition hex_digit (d : Z) : Z := if d <? 10 then 48 + d else 87 + d.

(** The four lowercase hex digits of [n] (for [0 <= n < 0x10000]). *)
Definition hex4 (n : Z) : list Z :=
  [hex_digit (Z.land (Z.shiftr n 12) 15); hex_digit (Z.land (Z.shiftr n 8) 15);
   hex_digit (Z.land (Z.shiftr n 4) 15); hex_digit (Z.land n 15)].

(** A hex digit as the C scanner reads it, either case. *)
Definition hex_val (c : Z) : option Z :=
  if (48 <=? c) && (c <=? 57) then Some (c - 48)
  else if (97 <=? c) && (c <=? 102) then Some (c - 87)
  else if (65 <=? c) && (c <=? 70) then Some (c - 55)
  else None.

(** Four hex digits, most significant first. *)
Definition hex4_val (a b c d : Z) : option Z :=
  match hex_val a, hex_val b, hex_val c, hex_val d with
  | Some x, Some y, Some z, Some w => Some (x * 4096 + y * 256 + z * 16 + w)
  | _, _, _, _ => None
  end.

(** [Py_UNICODE_JOIN_SURROGATES]. *)
Definition join_surrogates (hi lo : Z) : Z :=
  0x10000 + Z.lor (Z.shiftl (hi - 0xD800) 10) (lo - 0xDC00).

(** The surrogate pair [json.dumps] writes for [c >= 0x10000]. *)
Definition high_surrogate (c : Z) : Z := Z.lor 0xD800 (Z.land (Z.shiftr (c - 0x10000) 10) 0x3FF).
Definition low_surrogate (c : Z) : Z := Z.lor 0xDC00 (Z.land (c - 0x10000) 0x3FF).

(** ** Lemmas *)

Lemma hex_val_hex_digit d : 0 <= d < 16 -> hex_val (hex_digit d) = Some d.
Proof.
  intros Hd. unfold hex_val, hex_digit.
  destruct (Z.ltb_spec d 10);
    repeat match goal with |- context [?a <=? ?b] => destruct (Z.leb_spec a b) end;
    simpl; f_equal; lia.
Qed.

Lemma hex_digit_range d :
  0 <= d < 16 -> (48 <= hex_digit d <= 57 \/ 97 <= hex_digit d <= 102).
Proof. intros Hd. unfold hex_digit. destruct (Z.ltb_spec d 10); lia. Qed.

Lemma land15_range x : 0 <= Z.land x 15 < 16.
Proof. change 15 with (Z.ones 4). rewrite Z.land_ones by lia. apply Z.mod_pos_bound. lia. Qed.

(** The four lowercase hex digits [json.dumps] writes for a code unit
    below [0x10000] read back, as the decoder reads [\uXXXX], as the same
    number. *)
Lemma hex4_val_hex4 n :
  0 <= n < 0x10000 ->
  match hex4 n with [a; b; c; d] => hex4_val a b c d = Some n | _ => False end.
Proof.
  intros Hn. unfold hex4, hex4_val.
  rewrite !hex_val_hex_digit by apply land15_range. f_equal.
  change 15 with (Z.ones 4). rewrite !Z.land_ones, !Z.shiftr_div_pow2 by lia.
  rewrite (Z.mod_small (n / 2 ^ 12)) by (split; [apply Z.div_pos | apply Z.div_lt_upper_bound]; lia).
  Z.div_mod_to_equations. lia.
Qed.

(** A code point from [0x10000] to [0x10FFFF] splits, as [json.dumps]
    writes it, into a high and a low surrogate that the decoder's
    [Py_UNICODE_JOIN_SURROGATES] joins back into the same code point. *)
Lemma surrogates_of_astral c :
  0x10000 <= c <= 0x10FFFF ->
  is_high_surrogate (high_surrogate c) = true /\ is_low_surrogate (low_surrogate c) = true /\
  join_surrogates (high_surrogate c) (low_surrogate c) = c.
Proof.
  intros Hc. unfold high_surrogate, low_surrogate, join_surrogates,
    is_high_surrogate, is_low_surrogate.
  change 0x3FF with (Z.ones 10). rewrite !Z.land_ones, Z.shiftr_div_pow2 by lia.
  rewrite (Z.mod_small ((c - 0x10000) / 2 ^ 10)) by
    (split; [apply Z.div_pos | apply Z.div_lt_upper_bound]; lia).
  change 0xD800 with (Z.shiftl 54 10). change 0xDC00 with (Z.shiftl 55 10).
  pose proof (Z.mod_pos_bound (c - 65536) (2 ^ 10)) as Hlo.
  assert (0 <= (c - 65536) / 2 ^ 10 < 2 ^ 10) as Hhi
    by (split; [apply Z.div_pos | apply Z.div_lt_upper_bound]; lia).
  rewrite (lor_shiftl_small 54), (lor_shiftl_small 55) by lia.
  replace (Z.shiftl 54 10 + (c - 65536) / 2 ^ 10 - Z.shiftl 54 10) with ((c - 65536) / 2 ^ 10) by lia.
  replace (Z.shiftl 55 10 + (c - 65536) mod 2 ^ 10 - Z.shiftl 55 10) with ((c - 65536) mod 2 ^ 10) by lia.
  rewrite lor_shiftl_small by lia. rewrite !Z.shiftl_mul_pow2 by lia.
  Z.div_mod_to_equations. repeat split; try (apply andb_true_intro; split; apply Z.leb_le); lia.
Qed.

(** [s.encode("utf-8")] of an ASCII string is its code points as bytes. *)
Lemma encode_utf8_ascii i s :
  Forall (fun c => 0 <= c < 128) s -> encode_utf8_from i s = Ok s.
Proof.
  intros Hs. revert i. induction Hs as [|c s Hc Hs IH]; intros i; [reflexivity|].
  simpl. unfold is_surrogate.
  destruct (Z.leb_spec 0xD800 c); [lia|]. simpl. rewrite IH. simpl.
  unfold utf8_char. destruct (Z.ltb_spec c 0x80); [reflexivity | lia].
Qed.

(** ** Printable ASCII *)

(** The code points [json.dumps] leaves unescaped: [' ' .. '~']. *)
Definition printable (c : Z) : Prop := 32 <= c <= 126.

#[export] Instance printable_dec c : Decision (printable c).
Proof. unfold printable. apply _. Defined.

Lemma hex_digit_printable d : 0 <= d < 16 -> printable (hex_digit d).
Proof. intros Hd. unfold printable. destruct (hex_digit_range d Hd); lia. Qed.

Lemma hex4_printable n : Forall printable (hex4 n).
Proof. unfold hex4. repeat constructor; apply hex_digit_printable, land15_range. Qed.

Lemma printable_ascii c : printable c -> 0 <= c < 128.
Proof. unfold printable. lia. Qed.

Lemma Forall_printable_check l :
  forallb (fun c => bool_decide (printable c)) l = true -> Forall printable l.
Proof.
  intros H. apply List.Forall_forall. intros c Hc.
  apply forallb_forall with (x := c) in H; [|exact Hc]. by apply bool_decide_eq_true in H.
Qed.

Create HintDb printable discriminated.
#[export] Hint Extern 1 (Forall printable (cps _)) =>
  (apply Forall_printable_check; vm_compute; reflexivity) : printable.
#[export] Hint Resolve hex4_printable : printable.
#[export] Hint Resolve Forall_app_2 List.Forall_cons List.Forall_nil : printable.
#[export] Hint Extern 1 (printable _) => (unfold printable; lia) : printable.

(** Split a [Forall printable] goal over [++] and [::] and close the parts. *)
Ltac split_printable :=
  repeat (rewrite Forall_app || rewrite Forall_cons || split);
  first [lia | eauto with printable].
