(* ===== verification/Utf8.v ===== *)
(** * The payload as UTF-8 bytes

    Line 17 turns the JSON text into bytes with [.encode("utf-8")]
    ([Unicode.encode_utf8]); the receiving client reads the WebSocket text
    frame back as UTF-8 (spec, section 6: "UTF-8 JSON bytes").
    [utf8_decode] is that reading, the strict decoder of RFC 3629 (no
    overlong forms, no surrogates, nothing above [0x10FFFF]).

    The results: the receiver decodes the bytes [encode_utf8] returns back
    to the text (so the encoding is the unique UTF-8 form); and the
    strict error handler raises [UnicodeEncodeError] at the index of the
    first surrogate. *)

From S2P Require Import Prelude PyValue Unicode.

Local Open Scope Z_scope.

(** [0x80 .. 0xBF]. *)
Definition is_cont (b : Z) : bool := (0x80 <=? b) && (b <=? 0xBF).

(** The strict UTF-8 decoder: [None] for an invalid sequence. *)
Fixpoint utf8_decode (bs : list Z) : option (list Z) :=
  match bs with
  | [] => Some []
  | b0 :: r =>
      if (0 <=? b0) && (b0 <? 0x80) then
        option_map (cons b0) (utf8_decode r)
      else if (0xC2 <=? b0) && (b0 <=? 0xDF) then
        match r with
        | b1 :: r' =>
            if is_cont b1 then
              option_map (cons (Z.shiftl (Z.land b0 0x1F) 6 + Z.land b1 0x3F)) (utf8_decode r')
            else None
        | _ => None
        end
      else if (0xE0 <=? b0) && (b0 <=? 0xEF) then
        match r with
        | b1 :: b2 :: r' =>
            let c := Z.shiftl (Z.land b0 0x0F) 12 + Z.shiftl (Z.land b1 0x3F) 6 + Z.land b2 0x3F in
            if is_cont b1 && is_cont b2 && (0x800 <=? c) && negb (is_surrogate c) then
              option_map (cons c) (utf8_decode r')
            else None
        | _ => None
        end
      else if (0xF0 <=? b0) && (b0 <=? 0xF4) then
        match r with
        | b1 :: b2 :: b3 :: r' =>
            let c := Z.shiftl (Z.land b0 0x07) 18 + Z.shiftl (Z.land b1 0x3F) 12 +
                     Z.shiftl (Z.land b2 0x3F) 6 + Z.land b3 0x3F in
            if is_cont b1 && is_cont b2 && is_cont b3 && (0x10000 <=? c) && (c <=? 0x10FFFF) then
              option_map (cons c) (utf8_decode r')
            else None
        | _ => None
        end
      else None
  end.

(** A byte: the elements of a [bytes] object. *)
Definition is_byte (b : Z) : Prop := 0 <= b < 256.

(** ** Bit arithmetic *)

(** Or-ing a small value into a constant whose low [k] bits are clear is
    addition. *)
Lemma lor_add (hi x k : Z) :
  0 <= k -> 0 <= x < 2 ^ k -> hi mod 2 ^ k = 0 -> Z.lor hi x = hi + x.
Proof.
  intros Hk Hx Hhi.
  assert (hi = Z.shiftl (hi / 2 ^ k) k) as E.
  { rewrite Z.shiftl_mul_pow2 by lia. pose proof (Z.div_mod hi (2 ^ k)). lia. }
  rewrite E, lor_shiftl_small by lia. reflexivity.
Qed.

(** The low [k] bits and the bits from [k] on, as division. *)
Lemma land_mod (x k : Z) : 0 <= k -> Z.land x (Z.ones k) = x mod 2 ^ k.
Proof. intros Hk. by apply Z.land_ones. Qed.

(** Rewrite masks, shifts and or-ed constants to arithmetic. *)
Ltac bits_to_arith :=
  repeat match goal with
  | |- context [Z.land ?x (Z.ones ?k)] => rewrite (land_mod x k) by lia
  | |- context [Z.land ?x 0x3F] => change (Z.land x 0x3F) with (Z.land x (Z.ones 6))
  | |- context [Z.land ?x 0x1F] => change (Z.land x 0x1F) with (Z.land x (Z.ones 5))
  | |- context [Z.land ?x 0x0F] => change (Z.land x 0x0F) with (Z.land x (Z.ones 4))
  | |- context [Z.land ?x 0x07] => change (Z.land x 0x07) with (Z.land x (Z.ones 3))
  | |- context [Z.shiftr ?x ?k] => rewrite (Z.shiftr_div_pow2 x k) by lia
  | |- context [Z.shiftl ?x ?k] => rewrite (Z.shiftl_mul_pow2 x k) by lia
  | |- context [2 ^ ?k] =>
      let v := eval vm_compute in (2 ^ k) in change (2 ^ k) with v
  end.

(** ** One code point *)

(** The bytes of [utf8_char c] as arithmetic on [c]. *)
Lemma utf8_char_arith c :
  0 <= c <= 0x10FFFF ->
  utf8_char c =
    if c <? 0x80 then [c]
    else if c <? 0x800 then [0xC0 + c / 64; 0x80 + c mod 64]
    else if c <? 0x10000 then [0xE0 + c / 4096; 0x80 + (c / 64) mod 64; 0x80 + c mod 64]
    else [0xF0 + c / 262144; 0x80 + (c / 4096) mod 64; 0x80 + (c / 64) mod 64; 0x80 + c mod 64].
Proof.
  intros Hc. unfold utf8_char. bits_to_arith.
  rewrite !(lor_add 0x80 _ 6) by (lia || reflexivity || (apply Z.mod_pos_bound; lia)).
  ztest; rewrite ?(lor_add 0xC0 _ 5), ?(lor_add 0xE0 _ 4), ?(lor_add 0xF0 _ 3), ?Z.div_div by
    (lia || reflexivity || (split; [apply Z.div_pos | apply Z.div_lt_upper_bound]; lia));
    reflexivity.
Qed.

(** A mask of the low [k] bits of a constant with those bits clear plus a
    small value gives the value. *)
Lemma land_add_low (hi x k : Z) :
  0 <= k -> 0 <= x < 2 ^ k -> hi mod 2 ^ k = 0 -> Z.land (hi + x) (Z.ones k) = x.
Proof.
  intros Hk Hx Hhi. rewrite Z.land_ones by lia.
  rewrite Z.add_mod, Hhi by lia. rewrite Z.add_0_l, !Z.mod_mod by lia. by apply Z.mod_small.
Qed.

Lemma is_cont_add (x : Z) : 0 <= x < 64 -> is_cont (0x80 + x) = true.
Proof. intros Hx. unfold is_cont. ztest. Qed.

(** Rewrite the decoder's masks of [lead + digit] to the digit. *)
Local Ltac low_bits :=
  repeat match goal with
  | |- context [Z.land (?hi + ?x) 0x3F] =>
      change (Z.land (hi + x) 0x3F) with (Z.land (hi + x) (Z.ones 6));
      rewrite (land_add_low hi x 6) by (lia || reflexivity)
  | |- context [Z.land (?hi + ?x) 0x1F] =>
      change (Z.land (hi + x) 0x1F) with (Z.land (hi + x) (Z.ones 5));
      rewrite (land_add_low hi x 5) by (lia || reflexivity)
  | |- context [Z.land (?hi + ?x) 0x0F] =>
      change (Z.land (hi + x) 0x0F) with (Z.land (hi + x) (Z.ones 4));
      rewrite (land_add_low hi x 4) by (lia || reflexivity)
  | |- context [Z.land (?hi + ?x) 0x07] =>
      change (Z.land (hi + x) 0x07) with (Z.land (hi + x) (Z.ones 3));
      rewrite (land_add_low hi x 3) by (lia || reflexivity)
  | |- context [is_cont (0x80 + ?x)] => rewrite (is_cont_add x) by lia
  | |- context [Z.shiftl ?x ?k] => rewrite (Z.shiftl_mul_pow2 x k) by lia
  end.

(** Decide a closed boolean test on integers. *)
Local Ltac decide_bool :=
  repeat match goal with
  | |- context [(?a =? ?b)%Z] => destruct (Z.eqb_spec a b); try lia
  | |- context [(?a <=? ?b)%Z] => destruct (Z.leb_spec a b); try lia
  | |- context [(?a <? ?b)%Z] => destruct (Z.ltb_spec a b); try lia
  end; reflexivity.

(** Take the branch of the outermost [if] while its test can be decided,
    so that the tests of the branches not taken are never looked at. *)
Local Ltac if_outer :=
  repeat (match goal with
  | |- context [if ?b then _ else _] =>
      first [replace b with true by decide_bool | replace b with false by decide_bool]
  end; cbn beta iota).

Lemma utf8_decode_2 d1 d0 r :
  2 <= d1 < 32 -> 0 <= d0 < 64 ->
  utf8_decode ([0xC0 + d1; 0x80 + d0] ++ r) = option_map (cons (d1 * 64 + d0)) (utf8_decode r).
Proof.
  intros H1 H0. cbn [app utf8_decode]. if_outer. low_bits. if_outer. do 2 f_equal.
Qed.

Lemma utf8_decode_3 d2 d1 d0 r :
  0 <= d2 < 16 -> 0 <= d1 < 64 -> 0 <= d0 < 64 ->
  let c := d2 * 4096 + d1 * 64 + d0 in
  0x800 <= c -> is_surrogate c = false ->
  utf8_decode ([0xE0 + d2; 0x80 + d1; 0x80 + d0] ++ r) = option_map (cons c) (utf8_decode r).
Proof.
  intros H2 H1 H0 c Hc Hs. subst c. cbn [app utf8_decode]. if_outer. low_bits.
  replace (d2 * 2 ^ 12 + d1 * 2 ^ 6 + d0) with (d2 * 4096 + d1 * 64 + d0) by lia.
  rewrite Hs. if_outer. reflexivity.
Qed.

Lemma utf8_decode_4 d3 d2 d1 d0 r :
  0 <= d3 < 8 -> 0 <= d2 < 64 -> 0 <= d1 < 64 -> 0 <= d0 < 64 ->
  let c := d3 * 262144 + d2 * 4096 + d1 * 64 + d0 in
  0x10000 <= c <= 0x10FFFF ->
  utf8_decode ([0xF0 + d3; 0x80 + d2; 0x80 + d1; 0x80 + d0] ++ r) =
    option_map (cons c) (utf8_decode r).
Proof.
  intros H3 H2 H1 H0 c Hc. subst c. cbn [app utf8_decode]. if_outer. low_bits.
  replace (d3 * 2 ^ 18 + d2 * 2 ^ 12 + d1 * 2 ^ 6 + d0)
    with (d3 * 262144 + d2 * 4096 + d1 * 64 + d0) by lia.
  if_outer. reflexivity.
Qed.

(** The base-64 digits of a code point. *)
Lemma digits64 c :
  0 <= c ->
  c = c / 262144 * 262144 + (c / 4096) mod 64 * 4096 + (c / 64) mod 64 * 64 + c mod 64 /\
  c = c / 4096 * 4096 + (c / 64) mod 64 * 64 + c mod 64 /\
  c = c / 64 * 64 + c mod 64.
Proof.
  intros Hc.
  pose proof (Z.div_mod c 64). pose proof (Z.div_mod (c / 64) 64).
  pose proof (Z.div_mod (c / 64 / 64) 64). rewrite !Z.div_div in * by lia.
  change (64 * 64) with 4096 in *. change (4096 * 64) with 262144 in *. lia.
Qed.

(** The strict decoder reads back the bytes of one scalar value. *)
Lemma utf8_decode_char c r :
  valid_cp c = true -> is_surrogate c = false ->
  utf8_decode (utf8_char c ++ r) = option_map (cons c) (utf8_decode r).
Proof.
  unfold valid_cp. intros Hc Hs. revert Hc. ztest; intros Hc; try discriminate.
  rewrite utf8_char_arith by lia. destruct (digits64 c) as (E4 & E3 & E2); [lia|].
  pose proof (Z.mod_pos_bound c 64). pose proof (Z.mod_pos_bound (c / 64) 64).
  pose proof (Z.mod_pos_bound (c / 4096) 64).
  assert (0 <= c / 262144) by (apply Z.div_pos; lia).
  ztest.
  - cbn [app utf8_decode]. ztest. done.
  - rewrite utf8_decode_2 by lia. by rewrite <- E2.
  - rewrite utf8_decode_3; rewrite <- ?E3; auto; lia.
  - rewrite utf8_decode_4; rewrite <- ?E4; auto; lia.
Qed.

Lemma utf8_char_bytes c : valid_cp c = true -> Forall is_byte (utf8_char c).
Proof.
  unfold valid_cp, is_byte. intros Hc. revert Hc. ztest; intros Hc; try discriminate.
  rewrite utf8_char_arith by lia.
  pose proof (Z.mod_pos_bound c 64). pose proof (Z.mod_pos_bound (c / 64) 64).
  pose proof (Z.mod_pos_bound (c / 4096) 64).
  assert (0 <= c / 64 < 32 \/ 2048 <= c) by (Z.div_mod_to_equations; lia).
  assert (0 <= c / 4096 < 16 \/ 65536 <= c) by (Z.div_mod_to_equations; lia).
  assert (0 <= c / 262144 < 16) by (Z.div_mod_to_equations; lia).
  ztest; repeat constructor; lia.
Qed.

Lemma encode_utf8_from_app i s1 s2 :
  encode_utf8_from i (s1 ++ s2) =
    let? b1 := encode_utf8_from i s1 in
    let? b2 := encode_utf8_from (i + length s1) s2 in Ok (b1 ++ b2).
Proof.
  revert i. induction s1 as [|c s1 IH]; intros i; simpl.
  - rewrite Nat.add_0_r. by destruct (encode_utf8_from i s2).
  - destruct (is_surrogate c); [done|]. rewrite IH, Nat.add_succ_r.
    destruct (encode_utf8_from (S i) s1); [|done]. simpl.
    destruct (encode_utf8_from _ s2); [|done]. simpl. by rewrite app_assoc.
Qed.

(** The encoding of a string from any index decodes back to it. *)
Lemma utf8_decode_encode_from i s bs :
  valid_str s = true -> encode_utf8_from i s = Ok bs -> utf8_decode bs = Some s.
Proof.
  revert i bs. induction s as [|c s IH]; intros i bs Hv; simpl; [intros [= <-]; reflexivity|].
  apply andb_prop in Hv as [Hc Hs].
  destruct (is_surrogate c) eqn:Hsur; [discriminate|].
  destruct (encode_utf8_from (S i) s) as [b|] eqn:E; [|discriminate]. intros [= <-].
  rewrite utf8_decode_char by done. by rewrite (IH _ _ Hs E).
Qed.

(** C32: the receiver reads the payload back: the strict UTF-8 decoder maps
    the bytes of [s.encode("utf-8")] to [s]. *)
Theorem utf8_decode_encode s bs :
  valid_str s = true -> encode_utf8 s = Ok bs -> utf8_decode bs = Some s.
Proof. apply utf8_decode_encode_from. Qed.

(** C33: the strict error handler: [s.encode("utf-8")] raises exactly when
    [s] holds a surrogate, and the [UnicodeEncodeError] names the index of
    the first one. *)
Theorem encode_utf8_error i s e :
  encode_utf8_from i s = Err e <->
  exists p c q, s = p ++ c :: q /\ forallb (fun x => negb (is_surrogate x)) p = true /\
    is_surrogate c = true /\ e = UnicodeEncodeError (i + length p).
Proof.
  split.
  - revert i. induction s as [|c s IH]; intros i; simpl; [discriminate|].
    destruct (is_surrogate c) eqn:Hc.
    + intros [= <-]. exists [], c, s. rewrite Nat.add_0_r. auto.
    + destruct (encode_utf8_from (S i) s) as [b|e'] eqn:E; [discriminate|]. intros [= ->].
      destruct (IH (S i) E) as (p & c' & q & -> & Hp & Hc' & ->).
      exists (c :: p), c', q. simpl. rewrite Hc, Nat.add_succ_r. auto.
  - intros (p & c & q & -> & Hp & Hc & ->). rewrite encode_utf8_from_app.
    assert (exists b, encode_utf8_from i p = Ok b) as [b ->].
    { clear Hc. revert i. induction p as [|x p IH]; intros i; simpl; [eauto|].
      apply andb_prop in Hp as [Hx Hp]. apply negb_true_iff in Hx. rewrite Hx.
      destruct (IH Hp (S i)) as [b ->]. eauto. }
    simpl. by rewrite Hc.
Qed.

(** ASCII bytes decode to the same code points. *)
Lemma utf8_decode_ascii s : Forall (fun c => 0 <= c < 128) s -> utf8_decode s = Some s.
Proof.
  induction 1 as [|c s Hc _ IH]; [reflexivity|]. cbn [utf8_decode].
  destruct (Z.leb_spec 0 c); [|lia]. destruct (Z.ltb_spec c 0x80); [|lia]. cbn. by rewrite IH.
Qed.

(** A Unicode scalar value: a code point that is not a surrogate. *)
Definition is_scalar (c : Z) : bool := valid_cp c && negb (is_surrogate c).

(** A string of scalar values encodes, to bytes that decode back to it. *)
Lemma encode_utf8_scalars i s :
  forallb is_scalar s = true ->
  exists bs, encode_utf8_from i s = Ok bs /\ Forall is_byte bs /\ utf8_decode bs = Some s.
Proof.
  revert i. induction s as [|c s IH]; intros i Hs; [by exists []|].
  cbn [forallb] in Hs. apply andb_prop in Hs as [Hc Hs]. unfold is_scalar in Hc.
  apply andb_prop in Hc as [Hv Hsur%negb_true_iff].
  destruct (IH (S i) Hs) as (bs & E & Hb & Hd).
  exists (utf8_char c ++ bs). cbn [encode_utf8_from]. rewrite Hsur, E. split_and!; [done| |].
  - apply Forall_app_2; [by apply utf8_char_bytes | done].
  - by rewrite utf8_decode_char, Hd.
Qed.

(** ** Witnesses *)

(** ["hé€😀"]: one code point of each length. *)
Definition utf8_sample : list Z := [0x68; 0xE9; 0x20AC; 0x1F600].

Definition utf8_sample_bytes : list Z :=
  [0x68; 0xC3; 0xA9; 0xE2; 0x82; 0xAC; 0xF0; 0x9F; 0x98; 0x80].

Lemma utf8_decode_encode_witness : utf8_decode utf8_sample_bytes = Some utf8_sample.
Proof. apply utf8_decode_encode; vm_compute; reflexivity. Defined.

(** A lone high surrogate at index 1. *)
Lemma encode_utf8_error_witness :
  encode_utf8 [0x61; 0xD83D; 0x62] = Err (UnicodeEncodeError 1).
Proof.
  apply (proj2 (encode_utf8_error 0 _ _)). exists [0x61], 0xD83D, [0x62].
  split_and!; reflexivity.
Defined.
