(* ===== verification/JsonEncode.v ===== *)
(** * [json.dumps] with its default arguments

    Line 17 calls [json.dumps({"message": message})] with no keyword
    argument, so [dumps] takes the cached encoder: [ensure_ascii=True],
    separators [", "] and [": "], [allow_nan=True], no sorting, no
    indentation.  With [indent=None] the C encoder ([c_make_encoder],
    [encoder_listencode_obj]) does the work; its string escaping is
    [ascii_escape_unicode] ([AsciiEscape]).

    [encode_obj] follows [encoder_listencode_obj]: the constants, strings,
    ints through [int.__repr__] (so the 4300-digit limit applies), floats
    through [floatstr], and lists and dicts behind
    [_Py_EnterRecursiveCall], whose budget is the argument [depth]. *)

From S2P Require Import Prelude PyValue Unicode.

Local Open Scope Z_scope.

Section Encode.
(** [float.__repr__] of a finite float (shortest round-trip text). *)
Variable float_repr : list Z -> list Z.

(** One code point of [ESCAPE_ASCII.sub(replace, s)]. *)
Definition escape_char (c : Z) : list Z :=
  if c =? 92 then [92; 92]                          (* backslash *)
  else if c =? 34 then [92; 34]                     (* double quote *)
  else if (32 <=? c) && (c <=? 126) then [c]        (* printable ASCII *)
  else if c =? 8 then [92; 98]                      (* backspace *)
  else if c =? 12 then [92; 102]                    (* form feed *)
  else if c =? 10 then [92; 110]                    (* newline *)
  else if c =? 13 then [92; 114]                    (* carriage return *)
  else if c =? 9 then [92; 116]                     (* tab *)
  else if c <? 0x10000 then 92 :: 117 :: hex4 c     (* four hex digits *)
  else 92 :: 117 :: hex4 (high_surrogate c) ++ 92 :: 117 :: hex4 (low_surrogate c).

(** [encode_basestring_ascii(s)]. *)
Definition encode_basestring_ascii (s : list Z) : list Z :=
  34 :: flat_map escape_char s ++ [34].

(** [floatstr] with [allow_nan=True]. *)
Definition floatstr (f : pyfloat) : list Z :=
  match f with
  | FNaN => cps "NaN"
  | FInf => cps "Infinity"
  | FNegInf => cps "-Infinity"
  | FFinite lx => float_repr lx
  end.

(** [", "] and [": "]. *)
Definition item_separator : list Z := [44; 32].
Definition key_separator : list Z := [58; 32].

(** The items of a non-empty list after the first: each is preceded by
    the item separator; the first error stops the loop. *)
Fixpoint encode_items (enc : pyval -> pyres (list Z)) (l : list pyval) : pyres (list Z) :=
    match l with
    | [] => Ok []
    | y :: l' =>
        let? ty := enc y in
        let? tr := encode_items enc l' in
        Ok (item_separator ++ ty ++ tr)
    end.

(** The same for the items of a dict: separator, key, [": "], value. *)
Fixpoint encode_dict_items (enc : pyval -> pyres (list Z)) (kvs : list (list Z * pyval))
    : pyres (list Z) :=
    match kvs with
    | [] => Ok []
    | (k, y) :: kvs' =>
        let? ty := enc y in
        let? tr := encode_dict_items enc kvs' in
        Ok (item_separator ++ encode_basestring_ascii k ++ key_separator ++ ty ++ tr)
    end.

(** [encoder_listencode_obj] with [depth] levels of recursion left. *)
Fixpoint encode_obj (depth : nat) (v : pyval) {struct v} : pyres (list Z) :=
  match v with
  | PNone => Ok (cps "null")
  | PBool true => Ok (cps "true")
  | PBool false => Ok (cps "false")
  | PStr s => Ok (encode_basestring_ascii s)
  | PInt z => int_repr z
  | PFloat f => Ok (floatstr f)
  | PList l =>
      match depth with
      | O => Err RecursionError
      | S d =>
          match l with
          | [] => Ok (cps "[]")
          | x :: l' =>
              let? first := encode_obj d x in
              let? rest := encode_items (encode_obj d) l' in
              Ok ([91] ++ first ++ rest ++ [93])
          end
      end
  | PDict kvs =>
      match depth with
      | O => Err RecursionError
      | S d =>
          match kvs with
          | [] => Ok (cps "{}")
          | (k, x) :: kvs' =>
              let? first := encode_obj d x in
              let? rest := encode_dict_items (encode_obj d) kvs' in
              Ok ([123] ++ encode_basestring_ascii k ++ key_separator ++ first ++ rest ++ [125])
          end
      end
  end.

(** [json.dumps(o)] = [JSONEncoder.encode(o)]: a [str] is escaped
    directly, anything else goes through the C encoder. *)
Definition dumps (depth : nat) (v : pyval) : pyres (list Z) :=
  match v with
  | PStr s => Ok (encode_basestring_ascii s)
  | _ => encode_obj depth v
  end.
End Encode.

(** ** Lemmas *)

Lemma uint_cps_printable u : Forall printable (uint_cps u).
Proof. induction u; simpl; auto with printable. Qed.

Lemma int_repr_printable z t : int_repr z = Ok t -> Forall printable t.
Proof.
  unfold int_repr, z_text, z_digits. destruct (Nat.ltb _ _); [discriminate|].
  intros [= <-]. destruct (Z.ltb _ _), (Z.to_int z); auto using uint_cps_printable with printable.
Qed.

(** Every code point is escaped to printable ASCII. *)
Lemma escape_char_printable c : Forall printable (escape_char c).
Proof.
  unfold escape_char.
  repeat match goal with |- context [if ?b then _ else _] => destruct b eqn:? end;
    auto 8 with printable.
Qed.

Lemma flat_map_escape_printable s : Forall printable (flat_map escape_char s).
Proof.
  induction s as [|c s IH]; simpl; [constructor|].
  apply Forall_app_2; [apply escape_char_printable | exact IH].
Qed.

#[export] Hint Resolve flat_map_escape_printable : printable.

Lemma encode_basestring_ascii_printable s : Forall printable (encode_basestring_ascii s).
Proof. unfold encode_basestring_ascii. split_printable. Qed.

#[export] Hint Resolve encode_basestring_ascii_printable : printable.

Section EncodeFacts.
Variable float_repr : list Z -> list Z.
(** [float.__repr__] writes digits, a sign, a point, an exponent, or
    [inf]/[nan]: printable ASCII. *)
Hypothesis float_repr_printable : forall lx, Forall printable (float_repr lx).

Lemma floatstr_printable f : Forall printable (floatstr float_repr f).
Proof. destruct f; simpl; auto 20 with printable. Qed.

#[local] Hint Resolve floatstr_printable : printable.

Lemma encode_items_printable enc l r :
  Forall (fun v => forall t, enc v = Ok t -> Forall printable t) l ->
  encode_items enc l = Ok r -> Forall printable r.
Proof.
  intros Hl. revert r. induction Hl as [|y l Hy Hl IH]; simpl; intros r Hr;
    [by injection Hr as <-|].
  py_inv. subst r. unfold item_separator. split_printable.
Qed.

Lemma encode_dict_items_printable enc kvs r :
  Forall (fun kv => forall t, enc kv.2 = Ok t -> Forall printable t) kvs ->
  encode_dict_items enc kvs = Ok r -> Forall printable r.
Proof.
  intros Hl. revert r. induction Hl as [|[k y] kvs Hy Hl IH]; simpl; intros r Hr;
    [by injection Hr as <-|].
  simpl in Hy. py_inv. subst r. unfold item_separator, key_separator. split_printable.
Qed.

(** What the encoder writes is printable ASCII ([ensure_ascii=True]). *)
Lemma encode_obj_printable v : forall d t,
  encode_obj float_repr d v = Ok t -> Forall printable t.
Proof.
  induction v as [| b | z | f | s | l IH | kvs IH] using pyval_ind'; intros d t Ht;
    simpl in Ht.
  - injection Ht as <-. auto 10 with printable.
  - destruct b; simpl in Ht; injection Ht as <-; auto 10 with printable.
  - exact (int_repr_printable _ _ Ht).
  - injection Ht as <-. auto with printable.
  - injection Ht as <-. auto with printable.
  - destruct d as [|d]; [discriminate|].
    destruct l as [|x l]; [injection Ht as <-; auto 10 with printable|].
    apply Forall_cons in IH as [Hx Hl]. py_inv. subst t.
    assert (Forall printable x1) by (eapply encode_items_printable;
      [eapply Forall_impl; [exact Hl | simpl; eauto] | eassumption]).
    split_printable.
  - destruct d as [|d]; [discriminate|].
    destruct kvs as [|[k x] kvs]; [injection Ht as <-; auto 10 with printable|].
    apply Forall_cons in IH as [Hx Hl]. py_inv. subst t.
    assert (Forall printable x1) by (eapply encode_dict_items_printable;
      [eapply Forall_impl; [exact Hl | simpl; eauto] | eassumption]).
    split_printable.
Qed.

Lemma dumps_printable d v t : dumps float_repr d v = Ok t -> Forall printable t.
Proof.
  unfold dumps. destruct v; try apply encode_obj_printable.
  intros [= <-]. apply encode_basestring_ascii_printable.
Qed.
End EncodeFacts.

(** C31: with [ensure_ascii=True] every text [json.dumps] returns is
    printable ASCII, so its UTF-8 encoding ([.encode("utf-8")] on line 17)
    is the same sequence, byte for byte. *)
Theorem dumps_utf8_identity (float_repr : list Z -> list Z) (depth : nat) (v : pyval)
    (t : list Z) :
  (forall lx, Forall printable (float_repr lx)) ->
  dumps float_repr depth v = Ok t ->
  Forall printable t /\ encode_utf8 t = Ok t.
Proof.
  intros Hfr Hd. pose proof (dumps_printable _ Hfr _ _ _ Hd) as Hp. split; [done|].
  apply encode_utf8_ascii. eapply Forall_impl; [exact Hp | intros c Hc; by apply printable_ascii].
Qed.

(** [float.__repr__] of [1.50] is [1.5]. *)
Definition repr_example (_ : list Z) : list Z := cps "1.5".

(** The JSON text of [{"message": ["\u00e9\ud83d\ude00\n", 1.5]}]. *)
Definition example_text : list Z :=
  [123; 34] ++ cps "message" ++ [34; 58; 32; 91; 34] ++ cps "\u00e9\ud83d\ude00\n" ++
  [34; 44; 32] ++ cps "1.5" ++ [93; 125].

Lemma dumps_utf8_identity_witness :
  Forall printable (repr_example []) /\
  dumps repr_example 10
    (PDict [(cps "message", PList [PStr [233; 128512; 10]; PFloat (FFinite (cps "1.50"))])]) =
    Ok example_text /\
  (Forall printable example_text /\ encode_utf8 example_text = Ok example_text).
Proof.
  assert (Hfr : forall lx, Forall printable (repr_example lx))
    by (intros; unfold repr_example; auto with printable).
  assert (Hd : dumps repr_example 10
    (PDict [(cps "message", PList [PStr [233; 128512; 10]; PFloat (FFinite (cps "1.50"))])]) =
    Ok example_text) by (vm_compute; reflexivity).
  split; [apply Hfr|]. split; [exact Hd|].
  exact (dumps_utf8_identity _ _ _ _ Hfr Hd).
Defined.
