(* ===== verification/AsciiEscape.v ===== *)
(** * The string escaping of [json.dumps] in C

    With the [_json] accelerator loaded, as it is by default, the C
    encoder escapes every string with [ascii_escape_unicode] of
    [Modules/_json.c].  [JsonEncode.encode_basestring_ascii] is the text
    it writes; this file models the routine as it is written and shows
    that it produces that text.  (The pure-Python fallback
    [py_encode_basestring_ascii] runs only without the accelerator and is
    not modelled.)

    The C routine runs in two passes: it first adds up the width of every
    escaped character ([output_size], raising [OverflowError] when the sum
    would pass [PY_SSIZE_T_MAX]), allocates a string of exactly that many
    characters with [PyUnicode_New], then writes the characters with
    [output[chars++] = ...] and no bounds check.  The model keeps the
    buffer and the write index, and a write outside the buffer is [None]. *)

From S2P Require Import Prelude PyValue Unicode JsonEncode.

Local Open Scope Z_scope.

(** ** The C routine: [ascii_escape_unicode] *)

Module CEscape.

(** [S_CHAR(c)]: printable ASCII other than backslash and quote. *)
Definition S_CHAR (c : Z) : bool := (32 <=? c) && (c <=? 126) && negb (c =? 92) && negb (c =? 34).

Definition PY_SSIZE_T_MAX : Z := 2 ^ 63 - 1.

(** [d] of the size pass. *)
Definition escape_width (c : Z) : Z :=
  if S_CHAR c then 1
  else if (c =? 92) || (c =? 34) || (c =? 8) || (c =? 12) || (c =? 10) || (c =? 13) || (c =? 9)
  then 2
  else if 0x10000 <=? c then 12 else 6.

(** The size pass, from [output_size] on. *)
Fixpoint output_size_from (output_size : Z) (s : list Z) : pyres Z :=
  match s with
  | [] => Ok output_size
  | c :: s' =>
      let d := escape_width c in
      if PY_SSIZE_T_MAX - d <? output_size
      then Err (OverflowError (cps "string is too long to escape"))
      else output_size_from (output_size + d) s'
  end.

(** The output buffer and the index [chars] of the next write. *)
Abbreviation outbuf := (list Z * nat)%type.

(** [output[chars++] = x]; [None] is a write past the end. *)
Definition put (b : outbuf) (x : Z) : option outbuf :=
  let '(buf, chars) := b in
  if (chars <? length buf)%nat then Some (<[chars := x]> buf, S chars) else None.

(** A run of writes. *)
Fixpoint puts (b : outbuf) (xs : list Z) : option outbuf :=
  match xs with
  | [] => Some b
  | x :: xs' => put b x ≫= fun b' => puts b' xs'
  end.

(** [Py_UNICODE_HIGH_SURROGATE] and [Py_UNICODE_LOW_SURROGATE]. *)
Definition Py_UNICODE_HIGH_SURROGATE (ch : Z) : Z := 0xD800 - Z.shiftr 0x10000 10 + Z.shiftr ch 10.
Definition Py_UNICODE_LOW_SURROGATE (ch : Z) : Z := 0xDC00 + Z.land ch 0x3FF.

(** [ascii_escape_unichar]: a backslash, then the short escape or [u] and
    four hex digits, with a high surrogate, a backslash and the low
    surrogate's [u] first for [c >= 0x10000]. *)
Definition ascii_escape_unichar (c : Z) (b : outbuf) : option outbuf :=
  put b 92 ≫= fun b =>
  if c =? 92 then put b c
  else if c =? 34 then put b c
  else if c =? 8 then put b 98
  else if c =? 12 then put b 102
  else if c =? 10 then put b 110
  else if c =? 13 then put b 114
  else if c =? 9 then put b 116
  else
    (if 0x10000 <=? c then puts b (117 :: hex4 (Py_UNICODE_HIGH_SURROGATE c) ++ [92])
     else Some b) ≫= fun b =>
    let c := if 0x10000 <=? c then Py_UNICODE_LOW_SURROGATE c else c in
    puts b (117 :: hex4 c).

(** The write pass over the input. *)
Fixpoint escape_loop (s : list Z) (b : outbuf) : option outbuf :=
  match s with
  | [] => Some b
  | c :: s' => (if S_CHAR c then put b c else ascii_escape_unichar c b) ≫= escape_loop s'
  end.

(** [ascii_escape_unicode]: the size pass, [PyUnicode_New(output_size,
    127)], the opening quote, the write pass, the closing quote.  The
    result is the buffer and the final write index. *)
Definition ascii_escape_unicode (s : list Z) : pyres (option outbuf) :=
  let? output_size := output_size_from 2 s in
  let rval := replicate (Z.to_nat output_size) 0 in
  Ok ((put (rval, 0%nat) 34 ≫= escape_loop s) ≫= fun b => put b 34).

End CEscape.

(** ** The C routine writes [encode_basestring_ascii] into its buffer *)

Section CEscapeFacts.
Import CEscape.

(** A buffer whose first [length w] cells are written ([w]) and whose
    remaining cells are [j]. *)
Lemma put_app w y j x : put (w ++ y :: j, length w) x = Some (w ++ x :: j, S (length w)).
Proof.
  unfold put. rewrite length_app. cbn [length].
  destruct (Nat.ltb_spec (length w) (length w + S (length j))); [|lia].
  rewrite insert_app_r_alt by lia. by rewrite Nat.sub_diag.
Qed.

Lemma puts_app b xs ys : puts b (xs ++ ys) = puts b xs ≫= fun b' => puts b' ys.
Proof.
  revert b. induction xs as [|x xs IH]; intros b; [reflexivity|]. cbn [app puts].
  destruct (put b x); [apply IH | reflexivity].
Qed.

(** A run of writes that fits in the unwritten cells. *)
Lemma puts_fits w xs j :
  (length xs <= length j)%nat ->
  puts (w ++ j, length w) xs = Some (w ++ xs ++ drop (length xs) j, (length w + length xs)%nat).
Proof.
  revert w j. induction xs as [|x xs IH]; intros w j Hl; cbn [puts length].
  - by rewrite Nat.add_0_r.
  - destruct j as [|y j]; [cbn in Hl; lia|]. rewrite put_app. cbn [mbind option_bind].
    replace (S (length w)) with (length (w ++ [x])) by (rewrite length_app; cbn; lia).
    replace (w ++ x :: j) with ((w ++ [x]) ++ j) by (by rewrite <- app_assoc).
    rewrite IH by (cbn in Hl; lia). rewrite <- !app_assoc, length_app. cbn. f_equal. f_equal. lia.
Qed.

Lemma high_surrogate_c c :
  0x10000 <= c <= 0x10FFFF -> Py_UNICODE_HIGH_SURROGATE c = high_surrogate c.
Proof.
  intros Hc. unfold Py_UNICODE_HIGH_SURROGATE, high_surrogate.
  change 0x3FF with (Z.ones 10). rewrite Z.land_ones, !Z.shiftr_div_pow2 by lia.
  assert (0 <= (c - 65536) / 2 ^ 10 < 2 ^ 10)
    by (split; [apply Z.div_pos | apply Z.div_lt_upper_bound]; lia).
  rewrite Z.mod_small by lia. change 0xD800 with (Z.shiftl 54 10).
  rewrite lor_shiftl_small by lia. rewrite Z.shiftl_mul_pow2 by lia.
  Z.div_mod_to_equations. lia.
Qed.

Lemma low_surrogate_c c :
  0x10000 <= c -> Py_UNICODE_LOW_SURROGATE c = low_surrogate c.
Proof.
  intros Hc. unfold Py_UNICODE_LOW_SURROGATE, low_surrogate.
  change 0x3FF with (Z.ones 10). rewrite !Z.land_ones by lia.
  pose proof (Z.mod_pos_bound (c - 65536) (2 ^ 10)).
  change 0xDC00 with (Z.shiftl 55 10). rewrite lor_shiftl_small by lia.
  rewrite Z.shiftl_mul_pow2 by lia. Z.div_mod_to_equations. lia.
Qed.

(** One character of the write pass writes [escape_char c]. *)
Lemma write_char c b :
  valid_cp c = true ->
  (if S_CHAR c then put b c else ascii_escape_unichar c b) = puts b (escape_char c).
Proof.
  unfold valid_cp. intros Hc. revert Hc.
  unfold S_CHAR, ascii_escape_unichar, escape_char. ztest; intros Hc; try discriminate.
  all: subst; cbn [puts app mbind option_bind andb orb negb].
  all: try (destruct (put b c) as [b'|]; reflexivity).
  all: destruct (put b 92) as [b1|]; cbn [mbind option_bind]; [|reflexivity].
  all: try (destruct (put b1 _); reflexivity).
  all: try reflexivity.
  rewrite high_surrogate_c, low_surrogate_c by lia.
  destruct (put b1 117) as [b2|]; cbn [mbind option_bind]; [|reflexivity].
  change (hex4 (high_surrogate c) ++ 92 :: 117 :: hex4 (low_surrogate c))
    with ((hex4 (high_surrogate c) ++ [92]) ++ 117 :: hex4 (low_surrogate c)).
  rewrite (puts_app b2 (hex4 (high_surrogate c) ++ [92])). reflexivity.
Qed.

(** The write pass writes the escapes of the input one after another. *)
Lemma escape_loop_fits s w j :
  valid_str s = true -> (length (flat_map escape_char s) <= length j)%nat ->
  escape_loop s (w ++ j, length w) =
    Some (w ++ flat_map escape_char s ++ drop (length (flat_map escape_char s)) j,
          (length w + length (flat_map escape_char s))%nat).
Proof.
  revert w j. induction s as [|c s IH]; intros w j Hv Hl; cbn [escape_loop flat_map].
  - by rewrite Nat.add_0_r.
  - apply andb_prop in Hv as [Hc Hv]. cbn [flat_map] in Hl. rewrite length_app in Hl.
    rewrite write_char, puts_fits by (done || lia). cbn [mbind option_bind].
    rewrite app_assoc, <- (length_app w). rewrite IH by (done || (rewrite length_drop; lia)).
    rewrite drop_drop, <- !app_assoc, !length_app. do 2 f_equal. lia.
Qed.

Lemma escape_width_length c :
  valid_cp c = true -> escape_width c = Z.of_nat (length (escape_char c)).
Proof.
  unfold valid_cp. intros Hc. revert Hc. unfold escape_width, S_CHAR, escape_char.
  ztest; intros Hc; try discriminate; reflexivity.
Qed.

Lemma escape_char_length c : (length (escape_char c) <= 12)%nat.
Proof. unfold escape_char. ztest; cbn; lia. Qed.

Lemma flat_map_escape_length s : (length (flat_map escape_char s) <= 12 * length s)%nat.
Proof.
  induction s as [|c s IH]; cbn [flat_map length]; [lia|].
  rewrite length_app. pose proof (escape_char_length c). lia.
Qed.

(** The size pass adds up the widths of the escapes when the sum fits. *)
Lemma output_size_from_fits acc s :
  valid_str s = true -> 0 <= acc ->
  acc + Z.of_nat (length (flat_map escape_char s)) <= PY_SSIZE_T_MAX ->
  output_size_from acc s = Ok (acc + Z.of_nat (length (flat_map escape_char s))).
Proof.
  revert acc. induction s as [|c s IH]; intros acc Hv Hacc Hmax; cbn [output_size_from flat_map].
  - cbn. f_equal. lia.
  - apply andb_prop in Hv as [Hc Hv]. cbn [flat_map] in Hmax. rewrite length_app in *.
    rewrite escape_width_length by done. ztest.
    rewrite IH by (done || lia). f_equal. lia.
Qed.

(** C34: [ascii_escape_unicode] is memory-safe and exact: for a string of
    valid code points whose escaped size fits in a [Py_ssize_t] (at most
    [(PY_SSIZE_T_MAX - 2) / 12] characters suffice), the size pass does not
    raise, no write of the write pass falls outside the buffer
    [PyUnicode_New] allocated, the last write fills its last cell, and the
    buffer holds [encode_basestring_ascii s]. *)
Theorem ascii_escape_unicode_fills s :
  valid_str s = true -> 12 * Z.of_nat (length s) + 2 <= PY_SSIZE_T_MAX ->
  ascii_escape_unicode s =
    Ok (Some (encode_basestring_ascii s, length (encode_basestring_ascii s))).
Proof.
  intros Hv Hlen. pose proof (flat_map_escape_length s) as Hl.
  set (L := length (flat_map escape_char s)) in *.
  unfold ascii_escape_unicode. rewrite output_size_from_fits by (done || lia). cbn [res_bind]. fold L.
  replace (Z.to_nat (2 + Z.of_nat L)) with (S (S L)) by lia. cbn [replicate].
  change (put (0 :: 0 :: replicate L 0, 0%nat) 34)
    with (put ([] ++ 0 :: 0 :: replicate L 0, length (@nil Z)) 34).
  rewrite put_app. cbn [mbind option_bind app].
  change (34 :: 0 :: replicate L 0) with ([34] ++ replicate (S L) 0).
  change (S (length (@nil Z))) with (length [34]).
  rewrite escape_loop_fits by (done || (rewrite length_replicate; lia)). cbn [mbind option_bind].
  fold L. rewrite drop_replicate. replace (S L - L)%nat with 1%nat by lia. cbn [replicate].
  replace (length [34] + L)%nat with (length ([34] ++ flat_map escape_char s))
    by (rewrite length_app; reflexivity).
  rewrite app_assoc, put_app. unfold encode_basestring_ascii. cbn [app length].
  rewrite !length_app. cbn [length]. do 3 f_equal. lia.
Qed.
End CEscapeFacts.

(** ** Witnesses *)

(** A letter, a double quote, a backslash, a newline, [é], an emoji and a
    control character: one escape of each kind. *)
Definition escape_sample : list Z := [104; 34; 92; 10; 0xE9; 0x1F600; 1].

Lemma ascii_escape_unicode_fills_witness :
  CEscape.ascii_escape_unicode escape_sample =
    Ok (Some (encode_basestring_ascii escape_sample,
              length (encode_basestring_ascii escape_sample))).
Proof.
  apply ascii_escape_unicode_fills.
  - vm_compute. reflexivity.
  - apply Z.leb_le. vm_compute. reflexivity.
Defined.
