(* ===== verification/JsonDecode.v ===== *)
(** * [json.loads] on a [str]

    Line 13 calls [json.loads(body_str)] with no keyword argument, so
    [loads] checks the argument's type and the BOM and calls
    [_default_decoder.decode], which skips whitespace, runs the scanner
    ([raw_decode]) and rejects trailing data.  The scanner is the C one of
    [_json] ([scan_once_unicode], [scanstring_unicode],
    [_parse_object_unicode], [_parse_array_unicode],
    [_match_number_unicode]); it agrees with [json/scanner.py] and
    [json/decoder.py] on the values and names the same errors.

    The model works on the remaining input (a suffix of the document); an
    error position is the document length minus the length of the suffix
    at which the C code raises ([pos_of]).  [StopIteration] is an internal
    exception of the scanner, turned into ["Expecting value"] by
    [raw_decode].  [scan_once] is structurally recursive on [depth], the
    budget of [_Py_EnterRecursiveCall] that each object or array uses; the
    member loops run on a fuel of one more than the length of their input,
    which [scan_once_facts] shows is never exhausted. *)

From S2P Require Import Prelude PyValue Unicode.

Local Open Scope Z_scope.

(** Errors inside the scanner. *)
Inductive scan_err : Type :=
| Raise (e : exn)
| StopIteration (pos : nat)
| OutOfFuel.

Abbreviation scanres := (result scan_err).

(** ** Characters *)

(** [' '], ['\t'], ['\n'], ['\r'] ([IS_WHITESPACE]). *)
Definition is_ws (c : Z) : bool := (c =? 32) || (c =? 9) || (c =? 10) || (c =? 13).

Definition is_digit (c : Z) : bool := (48 <=? c) && (c <=? 57).

Fixpoint skip_ws (s : list Z) : list Z :=
  match s with
  | c :: r => if is_ws c then skip_ws r else s
  | [] => []
  end.

(** The one-character escapes of [scanstring_unicode]. *)
Definition simple_escape (e : Z) : option Z :=
  if e =? 34 then Some 34          (* double quote *)
  else if e =? 92 then Some 92     (* backslash *)
  else if e =? 47 then Some 47     (* slash *)
  else if e =? 98 then Some 8      (* b *)
  else if e =? 102 then Some 12    (* f *)
  else if e =? 110 then Some 10    (* n *)
  else if e =? 114 then Some 13    (* r *)
  else if e =? 116 then Some 9     (* t *)
  else None.

(** [str[idx] == c]: the input after [c], if [c] comes next. *)
Definition next_is (c : Z) (s : list Z) : option (list Z) :=
  match s with
  | d :: r => if d =? c then Some r else None
  | [] => None
  end.

(** [s] without the prefix [lit], if it has it. *)
Fixpoint strip_prefix (lit s : list Z) : option (list Z) :=
  match lit, s with
  | [], _ => Some s
  | a :: lit', b :: s' => if a =? b then strip_prefix lit' s' else None
  | _ :: _, [] => None
  end.

Section Scanner.
(** The length of the document being decoded. *)
Variable doclen : nat.

Definition pos_of (r : list Z) : nat := (doclen - length r)%nat.

(** ** Strings *)

(** [scanstring_unicode] after the opening quote, which is at [begin]:
    the decoded string and the input after the closing quote. *)
Fixpoint scanstring (begin : nat) (s : list Z) {struct s} : scanres (list Z * list Z) :=
  match s with
  | [] => Err (Raise (JSONDecodeError UnterminatedString begin))
  | c :: r =>
      if c =? 34 then Ok ([], r)
      else if c =? 92 then
        match r with
        | [] => Err (Raise (JSONDecodeError UnterminatedString begin))
        | e :: r' =>
            if e =? 117 then
              match r' with
              | a :: b :: c1 :: d :: ((_ :: _) as rest) =>
                  match hex4_val a b c1 d with
                  | None => Err (Raise (JSONDecodeError InvalidUXXXXEscape (pos_of r)))
                  | Some u =>
                      if is_high_surrogate u then
                        match rest with
                        | bs :: ((u' :: a2 :: b2 :: c2 :: d2 :: ((_ :: _) as rest2)) as ru) =>
                            if (bs =? 92) && (u' =? 117) then
                              match hex4_val a2 b2 c2 d2 with
                              | None => Err (Raise (JSONDecodeError InvalidUXXXXEscape (pos_of ru)))
                              | Some u2 =>
                                  if is_low_surrogate u2 then
                                    let? '(str, r2) := scanstring begin rest2 in
                                    Ok (join_surrogates u u2 :: str, r2)
                                  else
                                    let? '(str, r2) := scanstring begin rest in Ok (u :: str, r2)
                              end
                            else let? '(str, r2) := scanstring begin rest in Ok (u :: str, r2)
                        | _ => let? '(str, r2) := scanstring begin rest in Ok (u :: str, r2)
                        end
                      else let? '(str, r2) := scanstring begin rest in Ok (u :: str, r2)
                  end
              | _ => Err (Raise (JSONDecodeError InvalidUXXXXEscape (pos_of r)))
              end
            else
              match simple_escape e with
              | Some ch => let? '(str, r2) := scanstring begin r' in Ok (ch :: str, r2)
              | None => Err (Raise (JSONDecodeError InvalidEscape (pos_of s)))
              end
        end
      else if c <=? 31 then Err (Raise (JSONDecodeError InvalidControlCharacter (pos_of s)))
      else let? '(str, r2) := scanstring begin r in Ok (c :: str, r2)
  end.

(** ** Numbers: [NUMBER_RE]: an optional minus, [0] or a non-zero digit
    and digits, an optional fraction, an optional exponent *)

Fixpoint take_digits (s : list Z) : list Z * list Z :=
  match s with
  | c :: r => if is_digit c then let '(ds, r') := take_digits r in (c :: ds, r') else ([], s)
  | [] => ([], [])
  end.

Definition match_int_part (s : list Z) : option (list Z * list Z) :=
  let '(sign, s1) := match next_is 45 s with Some r => ([45], r) | None => ([], s) end in
  match s1 with
  | c :: r =>
      if c =? 48 then Some (sign ++ [48], r)
      else if (49 <=? c) && (c <=? 57)
      then let '(ds, r') := take_digits r in Some (sign ++ c :: ds, r')
      else None
  | [] => None
  end.

Definition match_frac (s : list Z) : list Z * list Z :=
  match s with
  | p :: d :: r =>
      if (p =? 46) && is_digit d
      then let '(ds, r') := take_digits r in (p :: d :: ds, r')
      else ([], s)
  | _ => ([], s)
  end.

Definition match_exp (s : list Z) : list Z * list Z :=
  match s with
  | e :: r =>
      if (e =? 101) || (e =? 69) then
        let '(sg, r1) := match r with
                         | c :: r' => if (c =? 43) || (c =? 45) then ([c], r') else ([], r)
                         | [] => ([], r)
                         end in
        match take_digits r1 with
        | ([], _) => ([], s)
        | (ds, r2) => (e :: sg ++ ds, r2)
        end
      else ([], s)
  | [] => ([], s)
  end.

Definition digits_val (ds : list Z) : Z := fold_left (fun acc c => acc * 10 + (c - 48)) ds 0.

Definition int_of_lexeme (ip : list Z) : Z :=
  match next_is 45 ip with Some ds => - digits_val ds | None => digits_val ip end.

Definition lexeme_digits (ip : list Z) : nat :=
  match next_is 45 ip with Some ds => length ds | None => length ip end.

(** [_match_number_unicode]: an [int] through [PyLong_FromString] (with
    its digit limit), or a [float] when there is a fraction or an
    exponent. *)
Definition match_number (s : list Z) : scanres (pyval * list Z) :=
  match match_int_part s with
  | None => Err (StopIteration (pos_of s))
  | Some (ip, r1) =>
      let '(fr, r2) := match_frac r1 in
      let '(ex, r3) := match_exp r2 in
      match fr, ex with
      | [], [] =>
          if Nat.ltb int_max_str_digits (lexeme_digits ip)
          then Err (Raise (ValueError (StrToIntLimit (lexeme_digits ip))))
          else Ok (PInt (int_of_lexeme ip), r3)
      | _, _ => Ok (PFloat (FFinite (ip ++ fr ++ ex)), r3)
      end
  end.

(** ** Arrays and objects, for a given scanner of the elements *)

Section Containers.
Variable scan : list Z -> scanres (pyval * list Z).

(** The loop of [_parse_array_unicode] from the first element on. *)
Fixpoint array_loop (fuel : nat) (s : list Z) : scanres (list pyval * list Z) :=
  match fuel with
  | O => Err OutOfFuel
  | S f =>
      let? '(v, r) := scan s in
      let r := skip_ws r in
      match next_is 93 r with
      | Some r' => Ok ([v], r')
      | None =>
          match next_is 44 r with
          | Some r' => let? '(vs, r'') := array_loop f (skip_ws r') in Ok (v :: vs, r'')
          | None => Err (Raise (JSONDecodeError ExpectingComma (pos_of r)))
          end
      end
  end.

(** [_parse_array_unicode] after the [[]. *)
Definition parse_array (s : list Z) : scanres (pyval * list Z) :=
  let s := skip_ws s in
  match next_is 93 s with
  | Some r => Ok (PList [], r)
  | None => let? '(vs, r) := array_loop (S (length s)) s in Ok (PList vs, r)
  end.

(** The loop of [_parse_object_unicode]: each member is stored with
    [PyDict_SetItem] into the dict built so far. *)
Fixpoint object_loop (fuel : nat) (s : list Z) (d : list (list Z * pyval))
    : scanres (list (list Z * pyval) * list Z) :=
  match fuel with
  | O => Err OutOfFuel
  | S f =>
      match next_is 34 s with
      | Some r =>
          let? '(key, r1) := scanstring (pos_of s) r in
          let r1 := skip_ws r1 in
          match next_is 58 r1 with
          | Some r2 =>
              let? '(v, r3) := scan (skip_ws r2) in
              let d' := dict_setitem d key v in
              let r3 := skip_ws r3 in
              match next_is 125 r3 with
              | Some r4 => Ok (d', r4)
              | None =>
                  match next_is 44 r3 with
                  | Some r4 => object_loop f (skip_ws r4) d'
                  | None => Err (Raise (JSONDecodeError ExpectingComma (pos_of r3)))
                  end
              end
          | None => Err (Raise (JSONDecodeError ExpectingColon (pos_of r1)))
          end
      | None => Err (Raise (JSONDecodeError ExpectingPropertyName (pos_of s)))
      end
  end.

(** [_parse_object_unicode] after the [{]. *)
Definition parse_object (s : list Z) : scanres (pyval * list Z) :=
  let s := skip_ws s in
  match next_is 125 s with
  | Some r => Ok (PDict [], r)
  | None => let? '(d, r) := object_loop (S (length s)) s [] in Ok (PDict d, r)
  end.
End Containers.

(** ** [scan_once_unicode] *)

(** The named constants of the [switch], else a number. *)
Definition scan_constant_or_number (s : list Z) : scanres (pyval * list Z) :=
  match strip_prefix (cps "null") s with
  | Some r' => Ok (PNone, r')
  | None =>
  match strip_prefix (cps "true") s with
  | Some r' => Ok (PBool true, r')
  | None =>
  match strip_prefix (cps "false") s with
  | Some r' => Ok (PBool false, r')
  | None =>
  match strip_prefix (cps "NaN") s with
  | Some r' => Ok (PFloat FNaN, r')
  | None =>
  match strip_prefix (cps "Infinity") s with
  | Some r' => Ok (PFloat FInf, r')
  | None =>
  match strip_prefix (cps "-Infinity") s with
  | Some r' => Ok (PFloat FNegInf, r')
  | None => match_number s
  end end end end end end.

(** A string value, after its opening quote at [begin]. *)
Definition scan_string (begin : nat) (s : list Z) : scanres (pyval * list Z) :=
  let? '(str, r') := scanstring begin s in Ok (PStr str, r').

Fixpoint scan_once (depth : nat) (s : list Z) {struct depth} : scanres (pyval * list Z) :=
  match s with
  | [] => Err (StopIteration (pos_of s))
  | c :: r =>
      if c =? 34 then scan_string (pos_of s) r
      else if c =? 123 then
        match depth with
        | O => Err (Raise RecursionError)
        | S d => parse_object (scan_once d) r
        end
      else if c =? 91 then
        match depth with
        | O => Err (Raise RecursionError)
        | S d => parse_array (scan_once d) r
        end
      else scan_constant_or_number s
  end.

(** [JSONDecoder.raw_decode]: [StopIteration] becomes
    ["Expecting value"]; the fuel of the member loops is never exhausted
    ([scan_once_facts]). *)
Definition raw_decode (depth : nat) (s : list Z) : pyres (pyval * list Z) :=
  match scan_once depth s with
  | Ok x => Ok x
  | Err (Raise e) => Err e
  | Err (StopIteration p) => Err (JSONDecodeError ExpectingValue p)
  | Err OutOfFuel => Err RecursionError
  end.

(** [JSONDecoder.decode]. *)
Definition decode (depth : nat) (s : list Z) : pyres pyval :=
  let? '(obj, r) := raw_decode depth (skip_ws s) in
  let r := skip_ws r in
  match r with
  | [] => Ok obj
  | _ :: _ => Err (JSONDecodeError ExtraData (pos_of r))
  end.
End Scanner.

(** [json.loads(s)] for a [str] [s]. *)
Definition loads_str (depth : nat) (s : list Z) : pyres pyval :=
  match next_is 0xFEFF s with
  | Some _ => Err (JSONDecodeError UnexpectedBOM 0)
  | None => decode (length s) depth s
  end.

(** [json.loads(v)] for any value: only [str] is accepted here ([bytes]
    never occurs in a value decoded from the invocation's JSON). *)
Definition loads (depth : nat) (v : pyval) : pyres pyval :=
  match v with
  | PStr s => loads_str depth s
  | _ => Err (TypeError (JsonInputType (type_of v)))
  end.

(** ** Progress: each piece of the scanner consumes input *)

Section Progress.
Local Open Scope nat_scope.

Lemma next_is_Some c s r : next_is c s = Some r -> s = c :: r.
Proof. destruct s as [|d s]; simpl; [discriminate|]. destruct (Z.eqb_spec d c); congruence. Qed.

Lemma skip_ws_length s : length (skip_ws s) <= length s.
Proof. induction s as [|c s IH]; simpl; [lia|]. destruct (is_ws c); simpl; lia. Qed.

Lemma strip_prefix_app lit s r : strip_prefix lit s = Some r -> s = lit ++ r.
Proof.
revert s. induction lit as [|a lit IH]; intros [|b s]; simpl; try congruence.
destruct (Z.eqb_spec a b); [subst; intros H; f_equal; auto | discriminate].
Qed.

Lemma take_digits_app s ds r : take_digits s = (ds, r) -> s = ds ++ r.
Proof.
revert ds r. induction s as [|c s IH]; simpl; intros ds r H; [by injection H as <- <-|].
destruct (is_digit c); [|by injection H as <- <-].
destruct (take_digits s) as [ds' r'] eqn:E. injection H as <- <-. simpl. f_equal. auto.
Qed.

Lemma match_int_part_app s ip r :
match_int_part s = Some (ip, r) -> s = ip ++ r /\ ip <> [].
Proof.
unfold match_int_part.
assert (exists sign s1, (match next_is 45 s with Some r => ([45%Z], r) | None => ([], s) end)
          = (sign, s1) /\ s = sign ++ s1) as (sign & s1 & -> & ->).
{ destruct (next_is 45 s) as [r1|] eqn:Hn; [apply next_is_Some in Hn; subst|];
    eexists _, _; split; reflexivity. }
destruct s1 as [|c s2]; [discriminate|].
destruct (Z.eqb_spec c 48) as [->|].
- intros [= <- <-]. split; [by rewrite <- app_assoc | by destruct sign].
- destruct (_ && _); [|discriminate].
  destruct (take_digits s2) as [ds r'] eqn:Ht. intros [= <- <-].
  apply take_digits_app in Ht. subst. split; [by rewrite <- app_assoc | by destruct sign].
Qed.

Lemma match_frac_app s fr r : match_frac s = (fr, r) -> s = fr ++ r.
Proof.
unfold match_frac. destruct s as [|p [|d s]]; try (intros [= <- <-]; done).
destruct (_ && _); [|intros [= <- <-]; done].
destruct (take_digits s) as [ds r'] eqn:Ht. intros [= <- <-].
apply take_digits_app in Ht. subst. done.
Qed.

Lemma match_exp_app s ex r : match_exp s = (ex, r) -> s = ex ++ r.
Proof.
unfold match_exp. destruct s as [|e s]; [intros [= <- <-]; done|].
destruct (_ || _); [|intros [= <- <-]; done].
assert (exists sg r1, (match s with
        | c :: r' => if (c =? 43)%Z || (c =? 45)%Z then ([c], r') else ([], s)
        | [] => ([], s) end) = (sg, r1) /\ s = sg ++ r1) as (sg & r1 & -> & Hs).
{ destruct s as [|c s]; [by exists [], []|].
  destruct (_ || _); [by exists [c], s | by exists [], (c :: s)]. }
destruct (take_digits r1) as [[|d ds] r2] eqn:Ht; intros [= <- <-]; [done|].
apply take_digits_app in Ht. subst. simpl. by rewrite <- app_assoc.
Qed.

Lemma match_number_progress doclen s v r :
match_number doclen s = Ok (v, r) -> length r < length s.
Proof.
unfold match_number. destruct (match_int_part s) as [[ip r1]|] eqn:Hi; [|discriminate].
apply match_int_part_app in Hi as [-> Hip].
destruct (match_frac r1) as [fr r2] eqn:Hf. apply match_frac_app in Hf as ->.
destruct (match_exp r2) as [ex r3] eqn:He. apply match_exp_app in He as ->.
assert (length r3 < length (ip ++ fr ++ ex ++ r3)).
{ rewrite !length_app. destruct ip; [done | simpl; lia]. }
destruct fr, ex; try (intros [= _ <-]; done).
destruct (Nat.ltb _ _); [discriminate | intros [= _ <-]; done].
Qed.

Lemma match_number_no_fuel_out doclen s : match_number doclen s <> Err OutOfFuel.
Proof.
unfold match_number. destruct (match_int_part s) as [[ip r1]|]; [|discriminate].
destruct (match_frac r1), (match_exp _) as [ex r3].
repeat case_match; discriminate.
Qed.

End Progress.

Section StringFacts.
Local Open Scope nat_scope.
Variable doclen : nat.

(** [scanstring] consumes at least the closing quote. *)
Lemma scanstring_progress b s : forall str r,
scanstring doclen b s = Ok (str, r) -> length r < length s.
Proof.
induction s as [s IH] using list_length_ind. intros str r H.
destruct s as [|c s]; simpl in H; [discriminate|].
unfold res_bind in H. repeat case_match; simplify_eq; cbn [length] in *; try lia;
  match goal with Hs : scanstring _ _ ?x = Ok (_, ?r) |- _ =>
    assert (length r < length x) by (eapply IH; [cbn [length] in *; lia | exact Hs]) end;
  cbn [length] in *; lia.
Qed.

(** [scanstring] only raises (no [StopIteration], no fuel). *)
Lemma scanstring_raises b s : forall e,
scanstring doclen b s = Err e -> exists x, e = Raise x.
Proof.
induction s as [s IH] using list_length_ind. intros e H.
destruct s as [|c s]; simpl in H; [injection H as <-; eauto|].
unfold res_bind in H. repeat case_match; simplify_eq; eauto;
  match goal with Hs : scanstring _ _ ?x = Err _ |- _ =>
    eapply (IH x); [cbn [length] in *; lia | exact Hs] end.
Qed.
End StringFacts.

Lemma strip_prefix_progress lit s r :
  lit <> [] -> strip_prefix lit s = Some r -> (length r < length s)%nat.
Proof.
  intros Hl ->%strip_prefix_app. rewrite length_app. destruct lit; [done | simpl; lia].
Qed.

(** Turn every [next_is c s = Some r] in the context into [s = c :: r]. *)
Ltac next_is_inv :=
  repeat match goal with
  | H : next_is _ _ = Some _ |- _ => apply next_is_Some in H
  end.

Section LoopFacts.
Local Open Scope nat_scope.
Variable doclen : nat.
Variable scan : list Z -> scanres (pyval * list Z).
Hypothesis scan_progress : forall s v r, scan s = Ok (v, r) -> length r < length s.
Hypothesis scan_no_fuel : forall s, scan s <> Err OutOfFuel.

Lemma array_loop_progress f : forall s vs r,
array_loop doclen scan f s = Ok (vs, r) -> length r < length s.
Proof.
induction f as [|f IH]; intros s vs r H; simpl in H; [discriminate|].
destruct (scan s) as [[v r0]|e] eqn:Hs; simpl in H; [|discriminate].
apply scan_progress in Hs. pose proof (skip_ws_length r0).
destruct (next_is 93 (skip_ws r0)) as [r1|] eqn:E1.
- injection H as <- <-. apply next_is_Some in E1. rewrite E1 in *. simpl in *. lia.
- destruct (next_is 44 (skip_ws r0)) as [r1|] eqn:E2; [|discriminate].
  apply next_is_Some in E2.
  destruct (array_loop doclen scan f (skip_ws r1)) as [[vs' r2]|] eqn:E3; simpl in H;
    [|discriminate].
  injection H as <- <-. apply IH in E3. pose proof (skip_ws_length r1).
  rewrite E2 in *. simpl in *. lia.
Qed.

Lemma array_loop_no_fuel f : forall s,
length s < f -> array_loop doclen scan f s <> Err OutOfFuel.
Proof.
induction f as [|f IH]; intros s Hf; [lia|]. simpl.
destruct (scan s) as [[v r0]|e] eqn:Hs; simpl; [|intros [= ->]; by apply (scan_no_fuel s)].
apply scan_progress in Hs. pose proof (skip_ws_length r0).
destruct (next_is 93 (skip_ws r0)) as [r1|]; [discriminate|].
destruct (next_is 44 (skip_ws r0)) as [r1|] eqn:E2; [|discriminate].
apply next_is_Some in E2. pose proof (skip_ws_length r1).
assert (length (skip_ws r1) < f) as Hr1 by (rewrite E2 in *; simpl in *; lia).
specialize (IH _ Hr1).
destruct (array_loop doclen scan f (skip_ws r1)) as [[vs' r2]|e]; simpl; [discriminate|].
congruence.
Qed.

Lemma object_loop_progress f : forall s d d' r,
object_loop doclen scan f s d = Ok (d', r) -> length r < length s.
Proof.
induction f as [|f IH]; intros s d d' r H; simpl in H; [discriminate|].
destruct (next_is 34 s) as [s1|] eqn:E0; [|discriminate]. apply next_is_Some in E0.
destruct (scanstring doclen (pos_of doclen s) s1) as [[key r1]|e] eqn:Hk; simpl in H;
  [|discriminate].
apply scanstring_progress in Hk. pose proof (skip_ws_length r1).
destruct (next_is 58 (skip_ws r1)) as [r2|] eqn:E1; [|discriminate].
apply next_is_Some in E1. pose proof (skip_ws_length r2).
destruct (scan (skip_ws r2)) as [[v r3]|e] eqn:Hs; simpl in H; [|discriminate].
apply scan_progress in Hs. pose proof (skip_ws_length r3).
destruct (next_is 125 (skip_ws r3)) as [r4|] eqn:E2.
- injection H as <- <-. apply next_is_Some in E2.
  rewrite E0, E1, E2 in *. simpl in *. lia.
- destruct (next_is 44 (skip_ws r3)) as [r4|] eqn:E3; [|discriminate].
  apply next_is_Some in E3. apply IH in H. pose proof (skip_ws_length r4).
  rewrite E0, E1, E3 in *. simpl in *. lia.
Qed.

Lemma object_loop_no_fuel f : forall s d,
length s < f -> object_loop doclen scan f s d <> Err OutOfFuel.
Proof.
induction f as [|f IH]; intros s d Hf; [lia|]. simpl.
destruct (next_is 34 s) as [s1|] eqn:E0; [|discriminate]. apply next_is_Some in E0.
destruct (scanstring doclen (pos_of doclen s) s1) as [[key r1]|e] eqn:Hk; simpl.
2: { apply scanstring_raises in Hk as [x ->]. discriminate. }
apply scanstring_progress in Hk. pose proof (skip_ws_length r1).
destruct (next_is 58 (skip_ws r1)) as [r2|] eqn:E1; [|discriminate].
apply next_is_Some in E1. pose proof (skip_ws_length r2).
destruct (scan (skip_ws r2)) as [[v r3]|e] eqn:Hs; simpl;
  [|intros [= ->]; by apply (scan_no_fuel (skip_ws r2))].
apply scan_progress in Hs. pose proof (skip_ws_length r3).
destruct (next_is 125 (skip_ws r3)) as [r4|]; [discriminate|].
destruct (next_is 44 (skip_ws r3)) as [r4|] eqn:E3; [|discriminate].
apply next_is_Some in E3. pose proof (skip_ws_length r4). apply IH.
rewrite E0, E1, E3 in *. simpl in *. lia.
Qed.

(** An array or an object ends before the input after its bracket ends. *)
Lemma parse_array_progress s v r :
parse_array doclen scan s = Ok (v, r) -> length r < length s.
Proof.
unfold parse_array. pose proof (skip_ws_length s).
destruct (next_is 93 (skip_ws s)) as [r1|] eqn:E.
- intros [= _ <-]. apply next_is_Some in E. rewrite E in *. simpl in *. lia.
- destruct (array_loop _ _ _ _) as [[vs r1]|e] eqn:Hl; simpl; [|discriminate].
  intros [= _ <-]. apply array_loop_progress in Hl. lia.
Qed.

Lemma parse_array_no_fuel s : parse_array doclen scan s <> Err OutOfFuel.
Proof.
unfold parse_array. destruct (next_is 93 (skip_ws s)); [discriminate|].
pose proof (array_loop_no_fuel (S (length (skip_ws s))) (skip_ws s) ltac:(lia)).
destruct (array_loop _ _ _ _) as [[vs r1]|e]; simpl; congruence.
Qed.

Lemma parse_object_progress s v r :
parse_object doclen scan s = Ok (v, r) -> length r < length s.
Proof.
unfold parse_object. pose proof (skip_ws_length s).
destruct (next_is 125 (skip_ws s)) as [r1|] eqn:E.
- intros [= _ <-]. apply next_is_Some in E. rewrite E in *. simpl in *. lia.
- destruct (object_loop _ _ _ _ _) as [[d r1]|e] eqn:Hl; simpl; [|discriminate].
  intros [= _ <-]. apply object_loop_progress in Hl. lia.
Qed.

Lemma parse_object_no_fuel s : parse_object doclen scan s <> Err OutOfFuel.
Proof.
unfold parse_object. destruct (next_is 125 (skip_ws s)); [discriminate|].
pose proof (object_loop_no_fuel (S (length (skip_ws s))) (skip_ws s) [] ltac:(lia)).
destruct (object_loop _ _ _ _ _) as [[d r1]|e]; simpl; congruence.
Qed.
End LoopFacts.

(** ** Termination of the scanner *)

Section ScanFacts.
Local Open Scope nat_scope.
Variable doclen : nat.

Lemma scan_constant_or_number_progress s v r :
scan_constant_or_number doclen s = Ok (v, r) -> length r < length s.
Proof.
unfold scan_constant_or_number.
repeat (let Hp := fresh "Hp" in destruct (strip_prefix _ _) eqn:Hp;
  [intros [= _ <-]; apply strip_prefix_progress in Hp; [lia | discriminate] | clear Hp]).
apply match_number_progress.
Qed.

Lemma scan_constant_or_number_no_fuel s : scan_constant_or_number doclen s <> Err OutOfFuel.
Proof.
unfold scan_constant_or_number.
repeat (destruct (strip_prefix _ _); [discriminate|]). apply match_number_no_fuel_out.
Qed.

Lemma scan_string_progress b s v r :
scan_string doclen b s = Ok (v, r) -> length r < length s.
Proof.
unfold scan_string. destruct (scanstring _ _ _) as [[str r']|e] eqn:Hs; [|discriminate].
intros [= _ <-]. by apply scanstring_progress in Hs.
Qed.

Lemma scan_string_no_fuel b s : scan_string doclen b s <> Err OutOfFuel.
Proof.
unfold scan_string. destruct (scanstring _ _ _) as [[str r']|e] eqn:Hs; [discriminate|].
apply scanstring_raises in Hs as [x ->]. discriminate.
Qed.

Lemma scan_once_facts depth :
(forall s, scan_once doclen depth s <> Err OutOfFuel) /\
(forall s v r, scan_once doclen depth s = Ok (v, r) -> length r < length s).
Proof.
induction depth as [|d [IHf IHp]]; split.
1,3: intros [|c s]; cbn [scan_once]; [discriminate|];
  destruct (c =? 34)%Z; [apply scan_string_no_fuel|];
  destruct (c =? 123)%Z; [try discriminate; apply (parse_object_no_fuel _ _ IHp IHf)|];
  destruct (c =? 91)%Z; [try discriminate; apply (parse_array_no_fuel _ _ IHp IHf)|];
  apply scan_constant_or_number_no_fuel.
all: intros [|c s] v r; cbn [scan_once]; [discriminate|].
all: destruct (c =? 34)%Z; [intros H; apply scan_string_progress in H; simpl in *; lia|].
all: destruct (c =? 123)%Z;
  [try discriminate; intros H; apply (parse_object_progress _ _ IHp) in H; simpl in *; lia|].
all: destruct (c =? 91)%Z;
  [try discriminate; intros H; apply (parse_array_progress _ _ IHp) in H; simpl in *; lia|].
all: intros H; apply scan_constant_or_number_progress in H; simpl in *; lia.
Qed.

(** C35: the scanner terminates on every input: its member loops, whose
  fuel is one more than the length of their input, never run out, so the
  [OutOfFuel] that [raw_decode] would report as a [RecursionError] never
  occurs; recursion is bounded by the interpreter's budget [depth]. *)
Theorem scan_once_no_fuel_out depth s : scan_once doclen depth s <> Err OutOfFuel.
Proof. apply scan_once_facts. Qed.

Lemma scan_once_progress depth s v r :
scan_once doclen depth s = Ok (v, r) -> length r < length s.
Proof. apply scan_once_facts. Qed.
End ScanFacts.

Lemma scan_once_no_fuel_out_witness :
  scan_once 12 2 (cps "[1, [], {}]") <> Err OutOfFuel.
Proof. apply scan_once_no_fuel_out. Defined.
