(* ===== verification/JsonRoundTrip.v ===== *)
(** * [json.loads] inverts [json.dumps]

    What the handler sends is [json.dumps({"message": message})]; what the
    receiving client gets back from it with [json.loads] is the subject of
    this file: for every value [v] whose strings are Unicode text, whose
    dicts have distinct keys and whose finite floats are written as their
    own [repr] (the model keeps a float as its lexeme), and whose nesting
    fits the decoder's recursion budget,
    [loads_str dd (dumps float_repr d v) = Ok v].

    The proof follows the encoder's output through the C scanner: escaped
    strings through [scanstring] (one lemma per kind of escape, including
    surrogate pairs), integers through [match_number] (the digits of
    [int.__repr__] are the decimal digits of [Z.to_int], read back by
    [digits_val]), floats through [match_number] under the hypothesis that
    [repr] writes a [NUMBER_RE] lexeme with a fraction or an exponent, and
    lists and dicts through the member loops, whose fuel is shown to
    suffice.  The dict case uses that [dict_setitem] appends a fresh key,
    so the decoder rebuilds the items in their order. *)

From S2P Require Import Prelude PyValue Unicode JsonEncode JsonDecode.
From Stdlib Require DecimalFacts DecimalPos.

Local Open Scope Z_scope.

(** ** The texts and values the round trip is about *)

(** Decimal digits. *)
Definition digits (ds : list Z) : Prop := Forall (fun c => is_digit c = true) ds.

(** The integer part of [NUMBER_RE]: an optional minus, then [0] or a
    non-zero digit followed by digits. *)
Definition int_lexeme (t : list Z) : Prop :=
  exists sign d ds, t = sign ++ d :: ds /\ (sign = [] \/ sign = [45]) /\
    ((d = 48 /\ ds = []) \/ (49 <= d <= 57 /\ digits ds)).

(** [(\.[0-9]+)?] and [([eE][-+]?[0-9]+)?]. *)
Definition frac_lexeme (fr : list Z) : Prop :=
  fr = [] \/ exists f fs, fr = 46 :: f :: fs /\ digits (f :: fs).

Definition exp_lexeme (ex : list Z) : Prop :=
  ex = [] \/ exists e sg x xs, ex = e :: sg ++ x :: xs /\ (e = 101 \/ e = 69) /\
    (sg = [] \/ sg = [43] \/ sg = [45]) /\ digits (x :: xs).

(** What [float.__repr__] writes for a finite float: [NUMBER_RE] with a
    fraction or an exponent ([1.5], [-0.0], [1e+16], [5e-324]). *)
Definition float_lexeme (t : list Z) : Prop :=
  exists ip fr ex, t = ip ++ fr ++ ex /\ int_lexeme ip /\ frac_lexeme fr /\ exp_lexeme ex /\
    (fr <> [] \/ ex <> []).

(** A Unicode scalar value: a code point that is not a surrogate.  A lone
    surrogate need not survive, since a high one written before a low one
    is read back joined. *)
Definition scalar (c : Z) : bool := valid_cp c && negb (is_surrogate c).

(** The values the round trip holds for, given [repr] of finite floats:
    strings of scalar values, dicts with pairwise distinct keys, finite
    floats whose lexeme is their own [repr]. *)
Fixpoint rt_val (float_repr : list Z -> list Z) (v : pyval) : bool :=
  match v with
  | PStr s => forallb scalar s
  | PFloat (FFinite lx) => bool_decide (float_repr lx = lx)
  | PList l => forallb (rt_val float_repr) l
  | PDict d =>
      bool_decide (NoDup d.*1) && forallb (fun kv => forallb scalar kv.1 && rt_val float_repr kv.2) d
  | PNone | PBool _ | PInt _ | PFloat _ => true
  end.

(** What may follow a number for the scanner to stop where it ends:
    nothing, or a character a JSON number cannot continue with (not a
    digit, [.], [e] or [E]): the item separator, a closing bracket,
    whitespace, or anything else. *)
Definition value_end (r : list Z) : Prop :=
  match r with [] => True | c :: _ => is_digit c = false /\ c <> 46 /\ c <> 101 /\ c <> 69 end.

Definition no_digit_head (r : list Z) : Prop :=
  match r with [] => True | c :: _ => is_digit c = false end.

(** The encoder's texts start with a printable character that is not a
    closing bracket (so no whitespace and no BOM). *)
Definition starts_value (t : list Z) : Prop :=
  exists c t', t = c :: t' /\ 33 <= c <= 126 /\ c <> 93 /\ c <> 125.

(** What may follow the text of [v] for the scanner to stop where it
    ends: anything, except after a number, which must not run on. *)
Definition ends_ok (v : pyval) (r : list Z) : Prop :=
  match v with
  | PInt _ | PFloat (FFinite _) => value_end r
  | _ => True
  end.

Definition number_start (t : list Z) : Prop :=
  exists sign d x, t = sign ++ d :: x /\ (sign = [] \/ sign = [45]) /\ is_digit d = true.

(** [scan] reads back what [enc] writes for [x], whatever follows it. *)
Definition decodes (scan : list Z -> scanres (pyval * list Z)) (enc : pyval -> pyres (list Z))
    (x : pyval) : Prop :=
  forall t r, enc x = Ok t -> value_end r -> scan (t ++ r) = Ok (x, r).

(** ** Integer and float lexemes *)

Lemma uint_cps_digits u : digits (uint_cps u).
Proof. induction u; constructor; auto. Qed.

Lemma fold_digits_acc u acc :
  fold_left (fun acc c => acc * 10 + (c - 48)) (uint_cps u) (Z.pos acc) =
    Z.pos (Pos.of_uint_acc u acc).
Proof.
  revert acc. induction u; intros acc; simpl; try reflexivity; rewrite <- IHu; f_equal; lia.
Qed.

Lemma digits_val_uint u : digits_val (uint_cps u) = Z.of_N (Pos.of_uint u).
Proof.
  unfold digits_val. induction u; simpl; try exact IHu; try reflexivity;
    apply fold_digits_acc.
Qed.

Lemma to_uint_head p : exists c cs, uint_cps (Pos.to_uint p) = c :: cs /\ 49 <= c <= 57.
Proof.
  destruct (Pos.to_uint p) eqn:E.
  1: by apply DecimalPos.Unsigned.to_uint_nonnil in E.
  1: exfalso. pose proof (DecimalPos.Unsigned.to_of (Pos.to_uint p)) as H.
    rewrite DecimalPos.Unsigned.of_to, E, DecimalFacts.unorm_D0 in H. simpl in H. rewrite E in H.
    destruct (Decimal.nzhead u) eqn:Ez;
      [apply (DecimalPos.Unsigned.to_uint_nonzero p); rewrite E; unfold Decimal.unorm in H;
       rewrite Ez in H; exact H
      | rewrite DecimalFacts.unorm_nzhead in H by congruence; exact (DecimalFacts.nzhead_nonzero u u (eq_sym H)) ..].
  all: simpl; eexists _, _; split; [reflexivity | lia].
Qed.

Lemma z_text_lexeme z :
  int_lexeme (z_text z) /\ int_of_lexeme (z_text z) = z /\
  lexeme_digits (z_text z) = length (z_digits z).
Proof.
  unfold z_text, z_digits. destruct z as [|p|p]; simpl.
  - split; [exists [], 48, []; auto | done].
  - destruct (to_uint_head p) as (c & cs & Hc & Hr). rewrite Hc.
    pose proof (uint_cps_digits (Pos.to_uint p)) as Hd. rewrite Hc in Hd.
    unfold int_of_lexeme, lexeme_digits, next_is.
    destruct (Z.eqb_spec c 45); [lia|].
    split; [exists [], c, cs; inversion Hd; auto|]. split; [|done].
    rewrite <- Hc, digits_val_uint, DecimalPos.Unsigned.of_to. reflexivity.
  - destruct (to_uint_head p) as (c & cs & Hc & Hr). rewrite Hc.
    pose proof (uint_cps_digits (Pos.to_uint p)) as Hd. rewrite Hc in Hd.
    unfold int_of_lexeme, lexeme_digits. simpl.
    split; [exists [45], c, cs; inversion Hd; auto|]. split; [|done].
    rewrite <- Hc, digits_val_uint, DecimalPos.Unsigned.of_to. reflexivity.
Qed.

Lemma value_end_no_digit r : value_end r -> no_digit_head r.
Proof. destruct r as [|c r]; simpl; [done|]. by intros [? _]. Qed.

Lemma take_digits_digits ds r : digits ds -> no_digit_head r -> take_digits (ds ++ r) = (ds, r).
Proof.
  intros Hd Hr. induction Hd as [|d ds Hd _ IH]; simpl.
  - destruct r as [|c r]; simpl in *; [done|]. by rewrite Hr.
  - by rewrite Hd, IH.
Qed.

Lemma match_int_part_lexeme t r :
  int_lexeme t -> no_digit_head r -> match_int_part (t ++ r) = Some (t, r).
Proof.
  intros (sign & d & ds & -> & Hs & [[-> ->] | [Hd Hds]]) Hr;
    destruct Hs as [-> | ->]; unfold match_int_part; cbn -[take_digits]; [done | done | |];
    ztest; by rewrite take_digits_digits.
Qed.

Lemma match_frac_end r : value_end r -> match_frac r = ([], r).
Proof.
  destruct r as [|c [|d r]]; cbn [value_end match_frac]; [done | done |].
  intros (_ & Hc & _). by destruct (Z.eqb_spec c 46).
Qed.

Lemma match_exp_end r : value_end r -> match_exp r = ([], r).
Proof.
  destruct r as [|c r]; cbn [value_end match_exp]; [done|].
  intros (_ & _ & H1 & H2). by destruct (Z.eqb_spec c 101), (Z.eqb_spec c 69).
Qed.

Lemma match_frac_not_dot c s : c <> 46 -> match_frac (c :: s) = ([], c :: s).
Proof. intros Hc. destruct s; simpl; [done|]. by ztest. Qed.

Lemma match_exp_lexeme ex r : exp_lexeme ex -> value_end r -> match_exp (ex ++ r) = (ex, r).
Proof.
  intros [-> | (e & sg & x & xs & -> & He & Hsg & Hd)] Hr; [by apply match_exp_end|].
  assert (Ht : take_digits (x :: xs ++ r) = (x :: xs, r))
    by exact (take_digits_digits _ _ Hd (value_end_no_digit _ Hr)).
  inversion Hd as [|? ? Hx]; subst. unfold is_digit in Hx.
  destruct He as [-> | ->], Hsg as [-> | [-> | ->]]; cbn -[take_digits]; ztest;
    cbn [orb]; by rewrite Ht.
Qed.

Lemma digits_printable ds : digits ds -> Forall printable ds.
Proof.
  intros Hd. eapply Forall_impl; [exact Hd|]. intros c Hc. unfold is_digit in Hc.
  unfold printable. revert Hc. by ztest.
Qed.

(** A number lexeme is printable ASCII. *)
Lemma float_lexeme_printable t : float_lexeme t -> Forall printable t.
Proof.
  intros (ip & fr & ex & -> & (sign & d & ds & -> & Hs & Hd) & Hfr & Hex & _).
  assert (Forall printable [d]) by (constructor; [unfold printable; destruct Hd; lia | done]).
  assert (Forall printable ds) by (destruct Hd as [[_ ->] | [_ Hds]]; [done | by apply digits_printable]).
  assert (Forall printable sign) by (destruct Hs as [-> | ->]; repeat constructor; unfold printable; lia).
  assert (Forall printable fr).
  { destruct Hfr as [-> | (f & fs & -> & Hf)]; [done|].
    constructor; [unfold printable; lia | by apply digits_printable]. }
  assert (Forall printable ex).
  { destruct Hex as [-> | (e & sg & x & xs & -> & He & Hsg & Hx)]; [done|].
    constructor; [unfold printable; lia|]. apply Forall_app; split; [|by apply digits_printable].
    destruct Hsg as [-> | [-> | ->]]; repeat constructor; unfold printable; lia. }
  change (d :: ds) with ([d] ++ ds). rewrite !Forall_app. tauto.
Qed.

Lemma match_number_int n z t r :
  int_repr z = Ok t -> value_end r -> match_number n (t ++ r) = Ok (PInt z, r).
Proof.
  unfold int_repr. destruct (Nat.ltb _ _) eqn:Hl; [discriminate|]. intros [= <-] Hr.
  destruct (z_text_lexeme z) as (Hlex & Hval & Hlen).
  unfold match_number. rewrite match_int_part_lexeme by auto using value_end_no_digit.
  rewrite match_frac_end, match_exp_end by done. by rewrite Hlen, Hl, Hval.
Qed.

Lemma match_number_float n t r :
  float_lexeme t -> value_end r -> match_number n (t ++ r) = Ok (PFloat (FFinite t), r).
Proof.
  intros (ip & fr & ex & -> & Hip & Hfr & Hex & Hne) Hr. unfold match_number.
  rewrite <- !app_assoc.
  assert (Hex' : ex = [] \/ exists e s, ex = e :: s /\ (e = 101 \/ e = 69)).
  { destruct Hex as [->|(e & sg & x & xs & -> & He & _)]; eauto. }
  assert (Hfrac : match_frac (fr ++ ex ++ r) = (fr, ex ++ r)).
  { destruct Hfr as [-> | (f & fs & -> & Hd)].
    - destruct Hex' as [-> | (e & s & -> & He)]; [by destruct Hne|].
      apply match_frac_not_dot. lia.
    - inversion Hd as [|? ? Hf Hfs]; subst. simpl. rewrite Hf. simpl.
      rewrite take_digits_digits; [done | done |].
      destruct Hex' as [-> | (e & s & -> & [-> | ->])]; [by apply value_end_no_digit | done | done]. }
  rewrite match_int_part_lexeme; [| done |].
  2: { destruct Hfr as [-> | (f & fs & -> & _)]; [|done].
       destruct Hex' as [-> | (e & s & -> & [-> | ->])]; [by destruct Hne | done | done]. }
  rewrite Hfrac, match_exp_lexeme by done.
  destruct fr, ex; [by destruct Hne | reflexivity ..].
Qed.

Lemma scalar_spec c : scalar c = true <-> 0 <= c <= 0x10FFFF /\ ~ (0xD800 <= c <= 0xDFFF).
Proof. unfold scalar, valid_cp, is_surrogate. ztest; simpl; split; intros; try lia; done. Qed.

Lemma hex4_lit n : 0 <= n < 0x10000 ->
  exists a b c d, hex4 n = [a; b; c; d] /\ hex4_val a b c d = Some n.
Proof. intros Hn. pose proof (hex4_val_hex4 n Hn) as H. eexists _, _, _, _. split; [reflexivity | exact H]. Qed.

Lemma scanstring_u_single n b u t tl :
  0 <= u < 0x10000 -> is_high_surrogate u = false ->
  scanstring n b ((92 :: 117 :: hex4 u) ++ t :: tl) =
    let? '(str, r2) := scanstring n b (t :: tl) in Ok (u :: str, r2).
Proof.
  intros Hu Hhi. destruct (hex4_lit u Hu) as (a & b' & c & d & -> & Hv).
  simpl. by rewrite Hv, Hhi.
Qed.

Lemma scanstring_u_pair n b c t tl :
  0x10000 <= c <= 0x10FFFF ->
  scanstring n b ((92 :: 117 :: hex4 (high_surrogate c) ++ 92 :: 117 :: hex4 (low_surrogate c))
                   ++ t :: tl) =
    let? '(str, r2) := scanstring n b (t :: tl) in Ok (c :: str, r2).
Proof.
  intros Hc. destruct (surrogates_of_astral c Hc) as (Hhi & Hlo & Hj).
  assert (0 <= high_surrogate c < 0x10000) as Hh
    by (unfold is_high_surrogate in Hhi; revert Hhi; ztest).
  assert (0 <= low_surrogate c < 0x10000) as Hl
    by (unfold is_low_surrogate in Hlo; revert Hlo; ztest).
  destruct (hex4_lit _ Hh) as (a & b' & c1 & d & -> & Hv).
  destruct (hex4_lit _ Hl) as (a2 & b2 & c2 & d2 & -> & Hv2).
  simpl. rewrite Hv, Hhi. simpl. rewrite Hv2, Hlo, Hj. reflexivity.
Qed.

Lemma scanstring_escape_char n b c tail :
  scalar c = true -> tail <> [] ->
  scanstring n b (escape_char c ++ tail) =
    let? '(str, r2) := scanstring n b tail in Ok (c :: str, r2).
Proof.
  intros [Hr Hs]%scalar_spec Ht. unfold escape_char.
  destruct (Z.eqb_spec c 92) as [->|]; [reflexivity|].
  destruct (Z.eqb_spec c 34) as [->|]; [reflexivity|].
  destruct ((32 <=? c) && (c <=? 126)) eqn:Hp.
  { apply andb_true_iff in Hp as [Hp1%Z.leb_le Hp2%Z.leb_le]. simpl. ztest; reflexivity. }
  destruct (Z.eqb_spec c 8) as [->|]; [reflexivity|].
  destruct (Z.eqb_spec c 12) as [->|]; [reflexivity|].
  destruct (Z.eqb_spec c 10) as [->|]; [reflexivity|].
  destruct (Z.eqb_spec c 13) as [->|]; [reflexivity|].
  destruct (Z.eqb_spec c 9) as [->|]; [reflexivity|].
  destruct tail as [|t tl]; [done|].
  destruct (Z.ltb_spec c 0x10000).
  - apply scanstring_u_single; [lia|]. unfold is_high_surrogate. ztest.
  - apply scanstring_u_pair. lia.
Qed.

Lemma scanstring_escaped n b s r :
  forallb scalar s = true -> scanstring n b (flat_map escape_char s ++ 34 :: r) = Ok (s, r).
Proof.
  induction s as [|c s IH]; simpl; [reflexivity|]. intros [Hc Hs]%andb_true_iff.
  rewrite <- app_assoc, scanstring_escape_char by (done || by destruct (flat_map _ _)).
  by rewrite IH.
Qed.

(** [starts_value] of a literal text, by evaluation. *)
Lemma starts_value_check t :
  match t with
  | c :: _ => (33 <=? c) && (c <=? 126) && negb (c =? 93) && negb (c =? 125)
  | [] => false
  end = true -> starts_value t.
Proof. destruct t as [|c t]; [done|]. intros H. exists c, t. split; [done|]. revert H. by ztest. Qed.

Lemma skip_ws_starts t r : starts_value t -> skip_ws (t ++ r) = t ++ r.
Proof. intros (c & t' & -> & Hc & _). simpl. unfold is_ws. by ztest. Qed.

Lemma next_is_starts c t r : starts_value t -> c = 93 \/ c = 125 \/ c = 0xFEFF -> next_is c (t ++ r) = None.
Proof. intros (c' & t' & -> & Hc & H93 & H125) Hcs. simpl. by ztest. Qed.

Lemma strip_prefix_first lit s c :
  hd_error lit = Some c -> hd_error s <> Some c -> strip_prefix lit s = None.
Proof.
  destruct lit as [|a lit], s as [|b s]; simpl; intros H1 H2; try congruence.
  injection H1 as ->. destruct (Z.eqb_spec c b); congruence.
Qed.

Lemma scan_once_number n dd t : number_start t -> scan_once n dd t = match_number n t.
Proof.
  intros (sign & d & x & -> & Hs & Hd). unfold is_digit in Hd.
  destruct dd, Hs as [-> | ->]; cbn [scan_once app]; ztest; unfold scan_constant_or_number;
    [| change (cps "-Infinity") with (45 :: cps "Infinity"); cbn [strip_prefix]; rewrite Z.eqb_refl
     | | change (cps "-Infinity") with (45 :: cps "Infinity"); cbn [strip_prefix]; rewrite Z.eqb_refl];
    rewrite ?(strip_prefix_first (cps "null") _ 110), ?(strip_prefix_first (cps "true") _ 116),
      ?(strip_prefix_first (cps "false") _ 102), ?(strip_prefix_first (cps "NaN") _ 78),
      ?(strip_prefix_first (cps "Infinity") _ 73), ?(strip_prefix_first (cps "-Infinity") _ 45)
      by (reflexivity || (simpl; intros [= ?]; lia)); reflexivity.
Qed.

Lemma int_lexeme_start t r : int_lexeme t -> number_start (t ++ r) /\ starts_value (t ++ r).
Proof.
  intros (sign & d & ds & -> & Hs & Hd). rewrite <- app_assoc.
  assert (48 <= d <= 57) by (destruct Hd as [[-> _] | [? _]]; lia).
  split; [exists sign, d, (ds ++ r); split_and!; [done | done | unfold is_digit; by ztest]|].
  destruct Hs as [-> | ->]; eexists _, _; (split; [reflexivity | lia]).
Qed.

Lemma float_lexeme_start t r : float_lexeme t -> number_start (t ++ r) /\ starts_value (t ++ r).
Proof. intros (ip & fr & ex & -> & Hip & _). rewrite <- app_assoc. by apply int_lexeme_start. Qed.

Lemma encode_basestring_ascii_app s r :
  encode_basestring_ascii s ++ r = 34 :: flat_map escape_char s ++ 34 :: r.
Proof. unfold encode_basestring_ascii. simpl. by rewrite <- app_assoc. Qed.

Lemma scan_once_string n dd s r :
  forallb scalar s = true -> scan_once n dd (encode_basestring_ascii s ++ r) = Ok (PStr s, r).
Proof.
  intros Hs. rewrite encode_basestring_ascii_app.
  destruct dd; cbn [scan_once Z.eqb Pos.eqb]; unfold scan_string; by rewrite scanstring_escaped.
Qed.

Section Items.
Variable n : nat.
Variable scan : list Z -> scanres (pyval * list Z).
Variable enc : pyval -> pyres (list Z).
Hypothesis enc_starts : forall x t, enc x = Ok t -> starts_value t.

Lemma encode_items_length l t : encode_items enc l = Ok t -> (length l <= length t)%nat.
Proof.
revert t. induction l as [|y l IH]; simpl; intros t Ht; [lia|].
destruct (enc y) as [ty|e]; simpl in Ht; [|discriminate].
destruct (encode_items enc l) as [tr|e]; simpl in Ht; [|discriminate].
injection Ht as <-. specialize (IH _ eq_refl). repeat progress (simpl; rewrite ?length_app). lia.
Qed.

Lemma encode_dict_items_length kvs t :
encode_dict_items enc kvs = Ok t -> (length kvs <= length t)%nat.
Proof.
revert t. induction kvs as [|[k y] kvs IH]; simpl; intros t Ht; [lia|].
destruct (enc y) as [ty|e]; simpl in Ht; [|discriminate].
destruct (encode_dict_items enc kvs) as [tr|e]; simpl in Ht; [|discriminate].
injection Ht as <-. specialize (IH _ eq_refl). repeat progress (simpl; rewrite ?length_app). lia.
Qed.

Lemma array_loop_items fuel x l first items r :
decodes scan enc x -> Forall (decodes scan enc) l -> enc x = Ok first -> encode_items enc l = Ok items ->
(length l < fuel)%nat ->
array_loop n scan fuel (first ++ items ++ 93 :: r) = Ok (x :: l, r).
Proof.
revert fuel x first items.
induction l as [|y l IH]; intros [|fuel] x first items Hx Hl Hf Hi Hfuel; simpl in Hfuel; try lia.
- injection Hi as <-. cbn [array_loop app]. rewrite Hx by (done || by right; left). done.
- simpl in Hi. py_inv. subst items. apply Forall_cons in Hl as [Hy Hl].
  unfold item_separator. cbn [array_loop app]. rewrite Hx by (done || by left).
  cbn. rewrite <- app_assoc, skip_ws_starts by eauto. rewrite (IH fuel y) by (done || lia).
  done.
Qed.

Lemma parse_array_items x l first items r :
decodes scan enc x -> Forall (decodes scan enc) l -> enc x = Ok first -> encode_items enc l = Ok items ->
parse_array n scan (first ++ items ++ 93 :: r) = Ok (PList (x :: l), r).
Proof.
intros Hx Hl Hf Hi. pose proof (enc_starts _ _ Hf) as Hs. unfold parse_array.
rewrite skip_ws_starts, next_is_starts by auto.
pose proof (encode_items_length _ _ Hi).
rewrite (array_loop_items _ x l first items) by (rewrite ?length_app; simpl; lia || done).
done.
Qed.

Lemma nodup_key_fresh (acc kvs : list (list Z * pyval)) k x :
NoDup ((acc ++ (k, x) :: kvs).*1) -> k ∉ acc.*1.
Proof.
rewrite fmap_app, fmap_cons. intros (_ & Hdis & _)%NoDup_app Hin.
apply (Hdis k Hin). left.
Qed.

Lemma object_loop_items fuel k x kvs acc first items r :
forallb scalar k = true -> Forall (fun kv => forallb scalar kv.1 = true) kvs ->
decodes scan enc x -> Forall (fun kv => decodes scan enc kv.2) kvs ->
NoDup ((acc ++ (k, x) :: kvs).*1) ->
enc x = Ok first -> encode_dict_items enc kvs = Ok items -> (length kvs < fuel)%nat ->
object_loop n scan fuel (encode_basestring_ascii k ++ key_separator ++ first ++ items ++ 125 :: r) acc
  = Ok (acc ++ (k, x) :: kvs, r).
Proof.
revert fuel k x acc first items.
induction kvs as [|[k2 y] kvs IH];
  intros [|fuel] k x acc first items Hk Hks Hx Hkvs Hnd Hf Hi Hfuel; simpl in Hfuel; try lia;
  rewrite encode_basestring_ascii_app; cbn [object_loop next_is Z.eqb Pos.eqb];
  rewrite scanstring_escaped by done; unfold key_separator; cbn;
  rewrite skip_ws_starts by eauto.
- injection Hi as <-. simpl. rewrite Hx by (done || by right; right). cbn.
  by rewrite dict_setitem_fresh by eauto using nodup_key_fresh.
- simpl in Hi. py_inv. subst items. apply Forall_cons in Hks as [Hk2 Hks].
  apply Forall_cons in Hkvs as [Hy Hkvs]. unfold item_separator, key_separator.
  cbn. rewrite <- !app_assoc. rewrite Hx by (done || by left). cbn.
  rewrite dict_setitem_fresh by eauto using nodup_key_fresh.
  rewrite <- app_assoc, <- (encode_basestring_ascii_app k2).
  change (58 :: 32 :: x0 ++ x1 ++ 125 :: r) with (key_separator ++ x0 ++ x1 ++ 125 :: r).
  rewrite (IH fuel k2 y (acc ++ [(k, x)]) x0 x1) by (rewrite <- ?app_assoc; done || lia).
  by rewrite <- app_assoc.
Qed.

Lemma parse_object_items k x kvs first items r :
forallb scalar k = true -> Forall (fun kv => forallb scalar kv.1 = true) kvs ->
decodes scan enc x -> Forall (fun kv => decodes scan enc kv.2) kvs -> NoDup (((k, x) :: kvs).*1) ->
enc x = Ok first -> encode_dict_items enc kvs = Ok items ->
parse_object n scan (encode_basestring_ascii k ++ key_separator ++ first ++ items ++ 125 :: r)
  = Ok (PDict ((k, x) :: kvs), r).
Proof.
intros Hk Hks Hx Hkvs Hnd Hf Hi. pose proof (encode_dict_items_length _ _ Hi).
unfold parse_object. rewrite encode_basestring_ascii_app. cbn [skip_ws is_ws next_is Z.eqb Pos.eqb orb].
rewrite <- encode_basestring_ascii_app.
rewrite (object_loop_items _ k x kvs [] first items) by (rewrite ?length_app; simpl; lia || done).
done.
Qed.
End Items.

Section RoundTrip.
Variable float_repr : list Z -> list Z.
Hypothesis float_repr_lexeme : forall lx, float_lexeme (float_repr lx).

Lemma encode_obj_starts d v t : encode_obj float_repr d v = Ok t -> starts_value t.
Proof.
destruct v as [| [] | z | [] | s | [|x l] | [|[k x] kvs]]; simpl; intros H.
all: try (destruct d; [discriminate|]).
all: try (py_inv; subst t).
all: try (injection H as <-).
all: try (apply starts_value_check; vm_compute; reflexivity).
- unfold int_repr in H. destruct (Nat.ltb _ _); [discriminate|]. injection H as <-.
  rewrite <- (app_nil_r (z_text z)). apply int_lexeme_start, z_text_lexeme.
- rewrite <- (app_nil_r (float_repr _)). by apply float_lexeme_start.
Qed.

Lemma value_end_ends_ok v r : value_end r -> ends_ok v r.
Proof. by destruct v as [| | |[]| | |]. Qed.

Lemma scan_encode n v : rt_val float_repr v = true -> forall d dd t r,
encode_obj float_repr d v = Ok t -> (d <= dd)%nat -> ends_ok v r ->
scan_once n dd (t ++ r) = Ok (v, r).
Proof.
induction v as [| b | z | f | s | l IH | kvs IH] using pyval_ind'; intros Hrt d dd t r Ht Hd Hr;
  cbn [encode_obj floatstr] in Ht.
- injection Ht as <-. by destruct dd.
- destruct b; injection Ht as <-; by destruct dd.
- rewrite scan_once_number by (apply int_lexeme_start; unfold int_repr in Ht;
    destruct (Nat.ltb _ _); [discriminate | injection Ht as <-; apply z_text_lexeme]).
  by apply match_number_int.
- destruct f as [| | |lx]; injection Ht as <-; try by destruct dd.
  simpl in Hrt. apply bool_decide_eq_true in Hrt.
  rewrite scan_once_number by by apply float_lexeme_start.
  rewrite match_number_float by done. by rewrite Hrt.
- injection Ht as <-. by apply scan_once_string.
- destruct d as [|d]; [discriminate|]. destruct dd as [|dd]; [lia|].
  simpl in Hrt. pose proof (proj1 (forallb_forall _ _) Hrt) as Hrt'. rewrite List.Forall_forall in IH.
  destruct l as [|x l]; [injection Ht as <-; reflexivity|].
  py_inv. subst t. cbn [app]. rewrite <- !app_assoc. cbn [app scan_once Z.eqb Pos.eqb].
  apply (parse_array_items _ _ _ (encode_obj_starts d)); try done.
  + intros t' r' Ht' Hr'. apply (IH x (or_introl eq_refl) (Hrt' _ (or_introl eq_refl)) d); auto using value_end_ends_ok; lia.
  + apply List.Forall_forall. intros y Hy t' r' Ht' Hr'.
    apply (IH y (or_intror Hy) (Hrt' _ (or_intror Hy)) d); auto using value_end_ends_ok; lia.
- destruct d as [|d]; [discriminate|]. destruct dd as [|dd]; [lia|].
  simpl in Hrt. apply andb_true_iff in Hrt as [Hnd%bool_decide_eq_true Hrt].
  pose proof (proj1 (forallb_forall _ _) Hrt) as Hrt'. rewrite List.Forall_forall in IH.
  destruct kvs as [|[k x] kvs]; [injection Ht as <-; reflexivity|].
  py_inv. subst t. cbn [app]. rewrite <- !app_assoc. cbn [app scan_once Z.eqb Pos.eqb].
  rewrite <- encode_basestring_ascii_app. change (58 :: 32 :: ?X) with (key_separator ++ X).
  rewrite <- !app_assoc. cbn [app].
  destruct (proj1 (andb_true_iff _ _) (Hrt' _ (or_introl eq_refl))) as [Hk Hx].
  apply (parse_object_items _ _ _ (encode_obj_starts d)); try done.
  + apply List.Forall_forall. intros kv Hkv.
    by destruct (proj1 (andb_true_iff _ _) (Hrt' _ (or_intror Hkv))).
  + intros t' r' Ht' Hr'. apply (IH (k, x) (or_introl eq_refl) Hx d); auto using value_end_ends_ok; lia.
  + apply List.Forall_forall. intros kv Hkv t' r' Ht' Hr'.
    destruct (proj1 (andb_true_iff _ _) (Hrt' _ (or_intror Hkv))) as [_ Hy].
    apply (IH kv (or_intror Hkv) Hy d); auto using value_end_ends_ok; lia.
Qed.
End RoundTrip.

(** ** The round trip *)

(** What the C encoder writes, [json.loads] reads back. *)
Lemma loads_str_encode_obj (float_repr : list Z -> list Z) (v : pyval) (t : list Z) (d dd : nat) :
  (forall lx, float_lexeme (float_repr lx)) ->
  rt_val float_repr v = true ->
  encode_obj float_repr d v = Ok t -> (d <= dd)%nat ->
  loads_str dd t = Ok v.
Proof.
  intros Hfl Hrt He Hd.
  pose proof (encode_obj_starts float_repr Hfl d v t He) as Hs.
  unfold loads_str. rewrite <- (app_nil_r t).
  rewrite next_is_starts by auto. unfold decode. rewrite skip_ws_starts by done.
  unfold raw_decode. by rewrite (scan_encode float_repr Hfl (length (t ++ [])) v Hrt d dd t [] He Hd (value_end_ends_ok v [] I)).
Qed.

(** C29: [json.loads] reads back what [json.dumps] writes: for a value
    whose strings are Unicode scalar values, whose dicts have distinct keys
    and whose finite floats are their own [repr], with [repr] writing a
    JSON number lexeme, if [json.dumps] succeeds with recursion budget [d]
    then [json.loads] of its text, with any budget [dd >= d], returns the
    same value. *)
Theorem loads_dumps (float_repr : list Z -> list Z) (v : pyval) (t : list Z) (d dd : nat) :
  (forall lx, float_lexeme (float_repr lx)) ->
  rt_val float_repr v = true ->
  dumps float_repr d v = Ok t -> (d <= dd)%nat ->
  loads_str dd t = Ok v.
Proof.
  intros Hfl Hrt Ht. apply (loads_str_encode_obj float_repr); [done | done |]. by destruct v.
Qed.

(** The example's [repr] writes the lexeme [1.5]. *)
Lemma repr_example_lexeme : forall lx, float_lexeme (repr_example lx).
Proof.
  intros lx. exists [49], [46; 53], []. split_and!; [reflexivity | | | left; reflexivity |].
  - exists [], 49, []. split_and!; [reflexivity | left; reflexivity | right; split; [lia | constructor]].
  - right. exists 53, []. split; [reflexivity | repeat constructor].
  - left. discriminate.
Qed.

(** The payload of the example of [JsonEncode], decoded again. *)
Lemma loads_dumps_witness :
  (forall lx, float_lexeme (repr_example lx)) /\
  rt_val repr_example
    (PDict [(cps "message", PList [PStr [233; 128512; 10]; PFloat (FFinite (cps "1.5"))])]) = true /\
  dumps repr_example 10
    (PDict [(cps "message", PList [PStr [233; 128512; 10]; PFloat (FFinite (cps "1.5"))])]) =
    Ok example_text /\
  (10 <= 10)%nat /\
  loads_str 10 example_text =
    Ok (PDict [(cps "message", PList [PStr [233; 128512; 10]; PFloat (FFinite (cps "1.5"))])]).
Proof.
  pose proof repr_example_lexeme as Hfl.
  assert (Hrt : rt_val repr_example
    (PDict [(cps "message", PList [PStr [233; 128512; 10]; PFloat (FFinite (cps "1.5"))])]) = true)
    by (vm_compute; reflexivity).
  assert (Hd : dumps repr_example 10
    (PDict [(cps "message", PList [PStr [233; 128512; 10]; PFloat (FFinite (cps "1.5"))])]) =
    Ok example_text) by (vm_compute; reflexivity).
  split; [exact Hfl|]. split; [exact Hrt|]. split; [exact Hd|]. split; [lia|].
  exact (loads_dumps _ _ _ _ _ Hfl Hrt Hd (le_n 10)).
Defined.

(** ** Trailing data *)

Lemma skip_ws_ws ws g : forallb is_ws ws = true -> skip_ws (ws ++ g) = skip_ws g.
Proof.
  induction ws as [|c ws IH]; [done|]. cbn [forallb app skip_ws].
  intros [-> Hws]%andb_prop. by apply IH.
Qed.

(** C30: the text [json.dumps] writes for a value that round-trips,
    followed by whitespace and then any non-whitespace character (a
    number included: whatever follows it that a number cannot continue
    with), is rejected by [json.loads] with [JSONDecodeError("Extra
    data")] at the position of that character. *)
Theorem loads_extra_data (float_repr : list Z -> list Z) (v : pyval) (t ws g : list Z) (d dd : nat) :
  (forall lx, float_lexeme (float_repr lx)) ->
  rt_val float_repr v = true ->
  encode_obj float_repr d v = Ok t -> (d <= dd)%nat ->
  forallb is_ws ws = true -> (exists c g', g = c :: g' /\ is_ws c = false) ->
  ends_ok v (ws ++ g) ->
  loads_str dd (t ++ ws ++ g) = Err (JSONDecodeError ExtraData (length t + length ws)).
Proof.
  intros Hfl Hrt He Hd Hws (c & g' & -> & Hc) Hend.
  pose proof (encode_obj_starts float_repr Hfl d v t He) as Hs.
  unfold loads_str. rewrite next_is_starts by auto. unfold decode. rewrite skip_ws_starts by done.
  unfold raw_decode. rewrite (scan_encode float_repr Hfl _ v Hrt d dd t _ He Hd Hend). cbn [res_bind].
  rewrite skip_ws_ws by done. cbn [skip_ws]. rewrite Hc. unfold pos_of.
  rewrite !length_app. cbn [length]. do 2 f_equal. lia.
Qed.

(** [1 x]: the [x] is at position 2. *)
Lemma loads_extra_data_witness :
  loads_str 10 ([49] ++ [32] ++ [120]) = Err (JSONDecodeError ExtraData 2).
Proof.
  apply (loads_extra_data repr_example (PInt 1) [49] [32] [120] 10 10).
  - exact repr_example_lexeme.
  - reflexivity.
  - reflexivity.
  - lia.
  - reflexivity.
  - exists 120, []. split; reflexivity.
  - cbv. split_and!; [reflexivity | discriminate ..].
Defined.
