(* ===== verification/DecodeWf.v ===== *)
(** * What [json.loads] returns is well formed

    The decoder's output invariant: from a text of valid code points,
    [json.loads] builds a value whose strings are valid code points and
    whose dicts have pairwise distinct keys ([wf_val]), whatever the text
    says: a duplicate key in the text keeps one entry, with the last value
    ([PyDict_SetItem] in [_parse_object_unicode]).  Escapes produce valid
    code points ([\uXXXX] at most [0xFFFF], a joined surrogate pair from
    [0x10000] to [0x10FFFF]); every piece of the scanner leaves a suffix of
    its input, so the invariant is carried through the member loops by
    induction on their fuel and through nesting by induction on the
    recursion budget. *)

From S2P Require Import Prelude PyValue Unicode JsonDecode.

Local Open Scope Z_scope.

(** The invariant of a dict under construction: the [PDict] case of
    [wf_val]. *)
Definition dict_wf (d : list (list Z * pyval)) : bool :=
  bool_decide (NoDup d.*1) && forallb (fun kv => valid_str kv.1 && wf_val kv.2) d.

(** [split_bool] splits the conjunctions of boolean hypotheses. *)
Ltac split_bool :=
  repeat match goal with
  | H : _ && _ = true |- _ => apply andb_true_iff in H as [? ?]
  end.

(** ** Code points and suffixes *)

Lemma valid_str_app s1 s2 : valid_str (s1 ++ s2) = valid_str s1 && valid_str s2.
Proof. apply forallb_app. Qed.

Lemma valid_str_cons c s : valid_str (c :: s) = valid_cp c && valid_str s.
Proof. reflexivity. Qed.

Lemma simple_escape_valid e ch : simple_escape e = Some ch -> valid_cp ch = true.
Proof. unfold simple_escape. repeat case_match; intros [= <-]; reflexivity. Qed.

Lemma hex_val_range c x : hex_val c = Some x -> 0 <= x < 16.
Proof. unfold hex_val. ztest; cbn [andb]; intros Hx; try discriminate; injection Hx as <-; lia. Qed.

Lemma hex4_val_range a b c d u : hex4_val a b c d = Some u -> 0 <= u < 0x10000.
Proof.
  unfold hex4_val.
  destruct (hex_val a) as [x|] eqn:Ha; [|discriminate]. destruct (hex_val b) as [y|] eqn:Hb; [|discriminate].
  destruct (hex_val c) as [z|] eqn:Hc; [|discriminate]. destruct (hex_val d) as [w|] eqn:Hd; [|discriminate].
  apply hex_val_range in Ha, Hb, Hc, Hd. intros [= <-]. lia.
Qed.

Lemma join_surrogates_range hi lo :
  is_high_surrogate hi = true -> is_low_surrogate lo = true ->
  0x10000 <= join_surrogates hi lo <= 0x10FFFF.
Proof.
  unfold is_high_surrogate, is_low_surrogate, join_surrogates. intros Hh Hl. split_bool.
  apply Z.leb_le in H, H0, H1, H2.
  rewrite lor_shiftl_small by lia. rewrite Z.shiftl_mul_pow2 by lia. lia.
Qed.


Section StringWf.
Variable n : nat.

Lemma scanstring_wf b s : forall str r,
valid_str s = true -> scanstring n b s = Ok (str, r) -> valid_str str = true /\ valid_str r = true.
Proof.
induction s as [s IH] using list_length_ind. intros str r Hv H.
destruct s as [|c s]; cbn [scanstring] in H; [discriminate|].
unfold res_bind in H. repeat case_match; simplify_eq; unfold valid_str in *;
  cbn [forallb] in Hv |- *; split_bool; try done.
all: match goal with Hs : scanstring _ _ ?x = Ok (?l, ?r) |- _ =>
       destruct (IH x ltac:(simpl; lia) l r
         ltac:(cbn [forallb]; repeat (match goal with |- _ && _ = true => apply andb_true_intro; split end); done) Hs) as [Hl Hr] end.
all: split; [apply andb_true_intro; split; [|done] | done].
all: repeat match goal with Hh : hex4_val _ _ _ _ = Some _ |- _ => apply hex4_val_range in Hh end.
all: repeat match goal with He : simple_escape _ = Some _ |- _ => apply simple_escape_valid in He end.
all: try done.
all: try (match goal with Hh : is_high_surrogate ?u = true, Hl : is_low_surrogate ?u2 = true |- _ =>
            pose proof (join_surrogates_range _ _ Hh Hl) end).
all: unfold valid_cp; ztest.
Qed.
End StringWf.

Lemma skip_ws_suffix s : exists p, s = p ++ skip_ws s.
Proof.
  induction s as [|c s [p Hp]]; simpl; [by exists []|].
  destruct (is_ws c); [exists (c :: p); simpl; congruence | by exists []].
Qed.

Lemma valid_str_suffix p s : valid_str (p ++ s) = true -> valid_str s = true.
Proof. rewrite valid_str_app. intros Hv. by split_bool. Qed.

Lemma skip_ws_valid s : valid_str s = true -> valid_str (skip_ws s) = true.
Proof. destruct (skip_ws_suffix s) as [p Hp]. rewrite Hp at 1. apply valid_str_suffix. Qed.

Lemma next_is_valid c s r : next_is c s = Some r -> valid_str s = true -> valid_str r = true.
Proof. intros ->%next_is_Some. apply (valid_str_suffix [c]). Qed.

Lemma match_number_wf n s v r :
  valid_str s = true -> match_number n s = Ok (v, r) -> wf_val v = true /\ valid_str r = true.
Proof.
  intros Hv. unfold match_number.
  destruct (match_int_part s) as [[ip r1]|] eqn:Hi; [|discriminate].
  apply match_int_part_app in Hi as [-> _].
  destruct (match_frac r1) as [fr r2] eqn:Hf. apply match_frac_app in Hf as ->.
  destruct (match_exp r2) as [ex r3] eqn:He. apply match_exp_app in He as ->.
  apply valid_str_suffix, valid_str_suffix, valid_str_suffix in Hv.
  destruct fr, ex; try (intros [= <- <-]; done).
  destruct (Nat.ltb _ _); [discriminate | intros [= <- <-]; done].
Qed.

Lemma scan_constant_or_number_wf n s v r :
  valid_str s = true -> scan_constant_or_number n s = Ok (v, r) ->
  wf_val v = true /\ valid_str r = true.
Proof.
  intros Hv. unfold scan_constant_or_number.
  repeat (let Hp := fresh "Hp" in destruct (strip_prefix _ _) eqn:Hp;
    [intros [= <- <-]; apply strip_prefix_app in Hp; subst s; split; [done | by eapply valid_str_suffix]
    | clear Hp]).
  by apply match_number_wf.
Qed.

Lemma dict_setitem_forallb (P : list Z * pyval -> bool) d k v :
  forallb P d = true -> P (k, v) = true -> forallb P (dict_setitem d k v) = true.
Proof.
  induction d as [|[k' v'] d IH]; simpl; intros Hd Hkv; [by rewrite Hkv|].
  split_bool. case_decide as E; simpl.
  - subst k'. by rewrite Hkv.
  - rewrite H, IH; done.
Qed.

Lemma dict_setitem_wf d k v :
  dict_wf d = true -> valid_str k = true -> wf_val v = true -> dict_wf (dict_setitem d k v) = true.
Proof.
  unfold dict_wf. intros Hd Hk Hv. split_bool. apply bool_decide_eq_true in H.
  rewrite bool_decide_eq_true_2 by by apply dict_setitem_nodup.
  apply dict_setitem_forallb; [done | simpl; by rewrite Hk, Hv].
Qed.

Section LoopWf.
Variable n : nat.
Variable scan : list Z -> scanres (pyval * list Z).
Hypothesis scan_wf : forall s v r,
valid_str s = true -> scan s = Ok (v, r) -> wf_val v = true /\ valid_str r = true.

Lemma array_loop_wf f : forall s vs r,
valid_str s = true -> array_loop n scan f s = Ok (vs, r) ->
forallb wf_val vs = true /\ valid_str r = true.
Proof.
induction f as [|f IH]; intros s vs r Hv H; cbn [array_loop] in H; [discriminate|].
destruct (scan s) as [[v r0]|e] eqn:Hs; cbn [res_bind] in H; [|discriminate].
destruct (scan_wf _ _ _ Hv Hs) as [Hv0 Hr0]. apply skip_ws_valid in Hr0.
destruct (next_is 93 (skip_ws r0)) as [r1|] eqn:E1.
- injection H as <- <-. simpl. rewrite Hv0. split; [done|]. by eapply next_is_valid.
- destruct (next_is 44 (skip_ws r0)) as [r1|] eqn:E2; [|discriminate].
  apply next_is_valid in E2; [|done]. apply skip_ws_valid in E2.
  destruct (array_loop n scan f (skip_ws r1)) as [[vs' r2]|] eqn:E3; cbn [res_bind] in H;
    [|discriminate].
  injection H as <- <-. destruct (IH _ _ _ E2 E3) as [Hvs Hr2]. simpl. by rewrite Hv0, Hvs.
Qed.

Lemma object_loop_wf f : forall s d d' r,
valid_str s = true -> dict_wf d = true -> object_loop n scan f s d = Ok (d', r) ->
dict_wf d' = true /\ valid_str r = true.
Proof.
induction f as [|f IH]; intros s d d' r Hv Hd H; cbn [object_loop] in H; [discriminate|].
destruct (next_is 34 s) as [s1|] eqn:E0; [|discriminate]. apply next_is_valid in E0; [|done].
destruct (scanstring n (pos_of n s) s1) as [[key r1]|e] eqn:Hk; cbn [res_bind] in H;
  [|discriminate].
destruct (scanstring_wf _ _ _ _ _ E0 Hk) as [Hkey Hr1]. apply skip_ws_valid in Hr1.
destruct (next_is 58 (skip_ws r1)) as [r2|] eqn:E1; [|discriminate].
apply next_is_valid in E1; [|done]. apply skip_ws_valid in E1.
destruct (scan (skip_ws r2)) as [[v r3]|e] eqn:Hs; cbn [res_bind] in H; [|discriminate].
destruct (scan_wf _ _ _ E1 Hs) as [Hv3 Hr3]. apply skip_ws_valid in Hr3.
pose proof (dict_setitem_wf d key v Hd Hkey Hv3) as Hd'.
destruct (next_is 125 (skip_ws r3)) as [r4|] eqn:E2.
- injection H as <- <-. split; [done|]. by eapply next_is_valid.
- destruct (next_is 44 (skip_ws r3)) as [r4|] eqn:E3; [|discriminate].
  apply next_is_valid in E3; [|done]. apply skip_ws_valid in E3. exact (IH _ _ _ _ E3 Hd' H).
Qed.

Lemma parse_array_wf s v r :
valid_str s = true -> parse_array n scan s = Ok (v, r) -> wf_val v = true /\ valid_str r = true.
Proof.
intros Hv. apply skip_ws_valid in Hv. unfold parse_array.
destruct (next_is 93 (skip_ws s)) as [r1|] eqn:E.
- intros [= <- <-]. split; [done|]. by eapply next_is_valid.
- destruct (array_loop _ _ _ _) as [[vs r1]|e] eqn:Hl; cbn [res_bind]; [|discriminate].
  intros [= <- <-]. exact (array_loop_wf _ _ _ _ Hv Hl).
Qed.

Lemma parse_object_wf s v r :
valid_str s = true -> parse_object n scan s = Ok (v, r) -> wf_val v = true /\ valid_str r = true.
Proof.
intros Hv. apply skip_ws_valid in Hv. unfold parse_object.
destruct (next_is 125 (skip_ws s)) as [r1|] eqn:E.
- intros [= <- <-]. split; [done|]. by eapply next_is_valid.
- destruct (object_loop _ _ _ _ _) as [[d r1]|e] eqn:Hl; cbn [res_bind]; [|discriminate].
  intros [= <- <-]. exact (object_loop_wf _ _ [] _ _ Hv eq_refl Hl).
Qed.
End LoopWf.

Lemma scan_once_wf n depth : forall s v r,
  valid_str s = true -> scan_once n depth s = Ok (v, r) -> wf_val v = true /\ valid_str r = true.
Proof.
  induction depth as [|d IH]; intros [|c s] v r Hv; cbn [scan_once]; try discriminate;
    pose proof (valid_str_suffix [c] s Hv) as Hs.
  all: destruct (c =? 34); [unfold scan_string; destruct (scanstring _ _ _) as [[str r']|] eqn:E;
        cbn [res_bind]; [|discriminate]; intros [= <- <-]; exact (scanstring_wf _ _ _ _ _ Hs E)|].
  all: destruct (c =? 123); [try discriminate; by apply parse_object_wf|].
  all: destruct (c =? 91); [try discriminate; by apply parse_array_wf|].
  all: by apply scan_constant_or_number_wf.
Qed.

Lemma loads_str_wf dd s v : valid_str s = true -> loads_str dd s = Ok v -> wf_val v = true.
Proof.
  intros Hv. unfold loads_str. destruct (next_is _ _); [discriminate|].
  unfold decode, raw_decode. apply skip_ws_valid in Hv.
  destruct (scan_once _ dd (skip_ws s)) as [[obj r]|[e|p|]] eqn:Hs; cbn [res_bind]; try discriminate.
  destruct (skip_ws r); [|discriminate]. intros [= <-]. exact (proj1 (scan_once_wf _ _ _ _ _ Hv Hs)).
Qed.

(** C36: [json.loads] returns a well-formed value: given a [str] of valid
    code points, what it returns has valid code points in every string and
    pairwise distinct keys in every dict, even when the text repeats a
    key. *)
Theorem loads_wf (depth : nat) (v x : pyval) :
  wf_val v = true -> loads depth v = Ok x -> wf_val x = true.
Proof. destruct v; try discriminate. apply loads_str_wf. Qed.

(** The text [{"a": [1, "\ud83d\ude00"], "a": 2}] repeats its key. *)
Definition dup_key_text : list Z :=
  [123; 34] ++ cps "a" ++ [34; 58; 32; 91; 49; 44; 32; 34; 92] ++ cps "ud83d" ++ [92] ++
  cps "ude00" ++ [34; 93; 44; 32; 34] ++ cps "a" ++ [34; 58; 32; 50; 125].

Lemma loads_wf_witness :
  wf_val (PStr dup_key_text) = true /\
  loads 10 (PStr dup_key_text) = Ok (PDict [(cps "a", PInt 2)]) /\
  wf_val (PDict [(cps "a", PInt 2)]) = true.
Proof.
  assert (Hv : wf_val (PStr dup_key_text) = true) by (vm_compute; reflexivity).
  assert (Hl : loads 10 (PStr dup_key_text) = Ok (PDict [(cps "a", PInt 2)]))
    by (vm_compute; reflexivity).
  split; [exact Hv|]. split; [exact Hl|]. exact (loads_wf 10 _ _ Hv Hl).
Defined.
