(* ===== verification/Reencode.v ===== *)
(** * What [json.loads] returns, [json.dumps] can write

    The two limits the encoder checks are met by every value the decoder
    returns: an integer [json.loads] accepts has at most 4300 digits (the
    decoder checks the digits of the lexeme, and the value's decimal text
    is no longer than the lexeme), so [int.__repr__] accepts it; and a
    value decoded within a recursion budget is encoded within the same
    budget, or any larger one ([encode_obj_mono]).  Hence the envelope
    [{"message": message}] of a message read from a decoded body is always
    written when the encoder's budget is at least the decoder's
    ([envelope_encodes]). *)

From S2P Require Import Prelude PyValue Unicode JsonEncode JsonDecode JsonRoundTrip.

Local Open Scope Z_scope.

(** [v] is written by the C encoder within the budget [d], whatever
    [repr] of a float is. *)
Definition encodes (d : nat) (v : pyval) : Prop :=
  forall float_repr, exists t, encode_obj float_repr d v = Ok t.

(** ** The digits of a decoded integer *)

Lemma fold_digits_bounds ds acc :
  digits ds -> 0 <= acc ->
  acc * 10 ^ Z.of_nat (length ds) <= fold_left (fun acc c => acc * 10 + (c - 48)) ds acc <
    (acc + 1) * 10 ^ Z.of_nat (length ds).
Proof.
  intros Hd. revert acc. induction Hd as [|c ds Hc Hd IH]; intros acc Hacc; simpl; [lia|].
  unfold is_digit in Hc. assert (48 <= c <= 57) by (revert Hc; ztest).
  destruct (IH (acc * 10 + (c - 48))) as [H1 H2]; [lia|].
  rewrite Nat2Z.inj_succ, Z.pow_succ_r by lia. split; nia.
Qed.

Lemma digits_val_lt ds : digits ds -> digits_val ds < 10 ^ Z.of_nat (length ds).
Proof. intros Hd. pose proof (fold_digits_bounds ds 0 Hd ltac:(lia)). unfold digits_val. lia. Qed.

Lemma z_digits_opp z : z_digits (- z) = z_digits z.
Proof. by destruct z. Qed.

Lemma z_digits_length z ds :
  digits ds -> ds <> [] -> z = digits_val ds -> (length (z_digits z) <= length ds)%nat.
Proof.
  intros Hd Hne Hz. pose proof (fold_digits_bounds ds 0 Hd ltac:(lia)) as [Hlo Hhi].
  fold (digits_val ds) in Hlo, Hhi. rewrite <- Hz in Hlo, Hhi.
  unfold z_digits. destruct z as [|p|p]; simpl; [destruct ds; [done | simpl; lia] | | lia].
  destruct (to_uint_head p) as (c & cs & Hc & Hr). rewrite Hc.
  pose proof (uint_cps_digits (Pos.to_uint p)) as Hd'. rewrite Hc in Hd'.
  assert (Hval : digits_val (c :: cs) = Z.pos p)
    by (rewrite <- Hc, digits_val_uint, DecimalPos.Unsigned.of_to; reflexivity).
  inversion Hd' as [|? ? _ Hcs]; subst.
  pose proof (fold_digits_bounds cs (c - 48) Hcs ltac:(lia)) as [Hl _].
  unfold digits_val in Hval. simpl in Hval.
  destruct (Nat.le_gt_cases (length ds) (length cs)) as [Hle|]; [exfalso|simpl; lia].
  assert (10 ^ Z.of_nat (length ds) <= 10 ^ Z.of_nat (length cs))
    by (apply Z.pow_le_mono_r; lia).
  replace (0 * 10 + (c - 48)) with (c - 48) in Hval by lia.
  pose proof (Z.pow_pos_nonneg 10 (Z.of_nat (length cs))). nia.
Qed.

Lemma take_digits_digits' s ds r : take_digits s = (ds, r) -> digits ds.
Proof.
  revert ds r. induction s as [|c s IH]; simpl; intros ds r H;
    [injection H as <- <-; constructor|].
  destruct (is_digit c) eqn:Hc; [|injection H as <- <-; constructor].
  destruct (take_digits s) as [ds' r'] eqn:E. injection H as <- <-.
  constructor; [done | exact (IH _ _ eq_refl)].
Qed.

Lemma match_int_part_shape s ip r :
  match_int_part s = Some (ip, r) ->
  exists sign ds, ip = sign ++ ds /\ (sign = [] \/ sign = [45]) /\ digits ds /\ ds <> [].
Proof.
  unfold match_int_part.
  assert (exists sign s1, (match next_is 45 s with Some r => ([45%Z], r) | None => ([], s) end)
            = (sign, s1) /\ (sign = [] \/ sign = [45])) as (sign & s1 & -> & Hs).
  { destruct (next_is 45 s) as [r0|]; [exists [45], r0 | exists [], s]; split; auto. }
  destruct s1 as [|c s2]; [discriminate|].
  destruct (Z.eqb_spec c 48) as [->|].
  - intros [= <- <-]. exists sign, [48]. split_and!; [done | done | repeat constructor | done].
  - destruct ((49 <=? c) && (c <=? 57)) eqn:Hc; [|discriminate].
    destruct (take_digits s2) as [ds r'] eqn:Ht. intros [= <- <-].
    exists sign, (c :: ds). split_and!; [done | done | | done].
    constructor; [|by eapply take_digits_digits']. unfold is_digit. revert Hc. by ztest.
Qed.

Lemma int_of_lexeme_shape sign ds :
  (sign = [] \/ sign = [45]) -> digits ds -> ds <> [] ->
  lexeme_digits (sign ++ ds) = length ds /\
  (int_of_lexeme (sign ++ ds) = digits_val ds \/ int_of_lexeme (sign ++ ds) = - digits_val ds).
Proof.
  intros [-> | ->] Hd Hne; [|by split; [|right]].
  destruct ds as [|c ds]; [done|]. inversion Hd as [|? ? Hc]; subst. unfold is_digit in Hc.
  unfold lexeme_digits, int_of_lexeme, next_is. simpl. destruct (Z.eqb_spec c 45); [revert Hc; ztest|].
  by split; [|left].
Qed.

(** An integer [json.loads] accepts has at most 4300 digits, so
    [int.__repr__] accepts it too. *)
Lemma match_number_int_repr n s z r :
  match_number n s = Ok (PInt z, r) -> exists t, int_repr z = Ok t.
Proof.
  unfold match_number. destruct (match_int_part s) as [[ip r1]|] eqn:Hi; [|discriminate].
  destruct (match_int_part_shape _ _ _ Hi) as (sign & ds & -> & Hs & Hd & Hne).
  destruct (match_frac r1) as [fr r2], (match_exp r2) as [ex r3].
  destruct fr, ex; try discriminate.
  destruct (Nat.ltb _ _) eqn:Hl; [discriminate|]. intros [= <- _].
  apply Nat.ltb_ge in Hl. destruct (int_of_lexeme_shape sign ds Hs Hd Hne) as [Hlen Hv].
  unfold int_repr. exists (z_text (int_of_lexeme (sign ++ ds))).
  assert (length (z_digits (int_of_lexeme (sign ++ ds))) <= length ds)%nat.
  { destruct Hv as [-> | ->]; [|rewrite z_digits_opp]; by apply z_digits_length. }
  destruct (Nat.ltb_spec int_max_str_digits (length (z_digits (int_of_lexeme (sign ++ ds)))));
    [lia | done].
Qed.

(** ** Encodability *)

Lemma encode_items_ok enc l :
  Forall (fun x => exists t, enc x = Ok t) l -> exists t, encode_items enc l = Ok t.
Proof.
  induction 1 as [|x l [tx Hx] _ [tl Hl]]; [by eexists|].
  simpl. rewrite Hx, Hl. by eexists.
Qed.

Lemma encode_dict_items_ok enc kvs :
  Forall (fun kv => exists t, enc kv.2 = Ok t) kvs -> exists t, encode_dict_items enc kvs = Ok t.
Proof.
  induction 1 as [|[k x] kvs [tx Hx] _ [tl Hl]]; [by eexists|].
  simpl in *. rewrite Hx, Hl. by eexists.
Qed.

Lemma encodes_list d l : Forall (encodes d) l -> encodes (S d) (PList l).
Proof.
  intros Hl fr. destruct l as [|x l]; [by eexists|]. apply Forall_cons in Hl as [Hx Hl].
  destruct (Hx fr) as [tx Htx].
  destruct (encode_items_ok (encode_obj fr d) l) as [tl Htl].
  { eapply Forall_impl; [exact Hl | intros y Hy; apply Hy]. }
  cbn [encode_obj]. rewrite Htx. cbn [res_bind]. rewrite Htl. by eexists.
Qed.

Lemma encodes_dict d kvs : Forall (fun kv => encodes d kv.2) kvs -> encodes (S d) (PDict kvs).
Proof.
  intros Hl fr. destruct kvs as [|[k x] kvs]; [by eexists|]. apply Forall_cons in Hl as [Hx Hl].
  destruct (Hx fr) as [tx Htx].
  destruct (encode_dict_items_ok (encode_obj fr d) kvs) as [tl Htl].
  { eapply Forall_impl; [exact Hl | intros y Hy; apply Hy]. }
  cbn [encode_obj]. simpl in Htx. rewrite Htx. cbn [res_bind]. rewrite Htl. by eexists.
Qed.

Lemma dict_setitem_Forall (P : pyval -> Prop) d k v :
  Forall (fun kv => P kv.2) d -> P v -> Forall (fun kv => P kv.2) (dict_setitem d k v).
Proof.
  induction d as [|[k' v'] d IH]; simpl; intros Hd Hv; [by repeat constructor|].
  apply Forall_cons in Hd as [Hkv Hd]. case_decide; constructor; auto.
Qed.

Section LoopP.
Variable n : nat.
Variable scan : list Z -> scanres (pyval * list Z).
Variable P : pyval -> Prop.
Hypothesis scan_P : forall s v r, scan s = Ok (v, r) -> P v.

Lemma array_loop_P f : forall s vs r, array_loop n scan f s = Ok (vs, r) -> Forall P vs.
Proof.
  induction f as [|f IH]; intros s vs r H; cbn [array_loop] in H; [discriminate|].
  destruct (scan s) as [[v r0]|e] eqn:Hs; cbn [res_bind] in H; [|discriminate].
  apply scan_P in Hs.
  destruct (next_is 93 (skip_ws r0)); [injection H as <- _; by constructor|].
  destruct (next_is 44 (skip_ws r0)) as [r1|]; [|discriminate].
  destruct (array_loop n scan f (skip_ws r1)) as [[vs' r2]|] eqn:E; cbn [res_bind] in H;
    [|discriminate].
  injection H as <- _. constructor; [done | exact (IH _ _ _ E)].
Qed.

Lemma object_loop_P f : forall s d d' r,
  Forall (fun kv => P kv.2) d -> object_loop n scan f s d = Ok (d', r) ->
  Forall (fun kv => P kv.2) d'.
Proof.
  induction f as [|f IH]; intros s d d' r Hd H; cbn [object_loop] in H; [discriminate|].
  destruct (next_is 34 s) as [s1|]; [|discriminate].
  destruct (scanstring _ _ s1) as [[key r1]|e]; cbn [res_bind] in H; [|discriminate].
  destruct (next_is 58 (skip_ws r1)) as [r2|]; [|discriminate].
  destruct (scan (skip_ws r2)) as [[v r3]|e] eqn:Hs; cbn [res_bind] in H; [|discriminate].
  apply scan_P in Hs. pose proof (dict_setitem_Forall P d key v Hd Hs) as Hd'.
  destruct (next_is 125 (skip_ws r3)); [by injection H as <- _|].
  destruct (next_is 44 (skip_ws r3)) as [r4|]; [|discriminate]. exact (IH _ _ _ _ Hd' H).
Qed.
End LoopP.

Lemma match_number_encodes n d s v r : match_number n s = Ok (v, r) -> encodes d v.
Proof.
  intros H fr. destruct v as [| [] | z | f | | |]; try by eexists.
  1: destruct (match_number_int_repr _ _ _ _ H) as [t Ht]; by exists t.
  all: unfold match_number in H; repeat case_match; discriminate.
Qed.

Lemma scan_once_encodes n dd : forall s v r, scan_once n dd s = Ok (v, r) -> encodes dd v.
Proof.
  induction dd as [|d IH]; intros [|c s] v r; cbn [scan_once]; try discriminate.
  all: destruct (c =? 34); [unfold scan_string; destruct (scanstring _ _ _) as [[str r']|];
        cbn [res_bind]; [intros [= <- _] fr; by eexists | discriminate]|].
  all: destruct (c =? 123); [try discriminate|].
  2: { unfold parse_object. destruct (next_is 125 _); [intros [= <- _]; apply encodes_dict; constructor|].
       destruct (object_loop _ _ _ _ _) as [[dd' r1]|] eqn:E; cbn [res_bind]; [|discriminate].
       intros [= <- _]. apply encodes_dict. eapply (object_loop_P n _ (encodes d)); [exact IH | | exact E].
       constructor. }
  all: destruct (c =? 91); [try discriminate|].
  2: { unfold parse_array. destruct (next_is 93 _); [intros [= <- _]; apply encodes_list; constructor|].
       destruct (array_loop _ _ _ _) as [[vs r1]|] eqn:E; cbn [res_bind]; [|discriminate].
       intros [= <- _]. apply encodes_list. exact (array_loop_P n _ (encodes d) IH _ _ _ _ E). }
  all: unfold scan_constant_or_number.
  all: repeat (destruct (strip_prefix _ _); [intros [= <- _] fr; by eexists|]).
  all: apply match_number_encodes.
Qed.

Lemma loads_encodes dd b v : loads dd b = Ok v -> encodes dd v.
Proof.
  destruct b; try discriminate. unfold loads, loads_str. destruct (next_is _ _); [discriminate|].
  unfold decode, raw_decode. destruct (scan_once _ dd _) as [[obj r]|[e|p|]] eqn:Hs;
    cbn [res_bind]; try discriminate.
  destruct (skip_ws r); [|discriminate]. intros [= <-]. exact (scan_once_encodes _ _ _ _ _ Hs).
Qed.

Lemma encode_items_ext enc enc' l t :
  (forall x tx, In x l -> enc x = Ok tx -> enc' x = Ok tx) ->
  encode_items enc l = Ok t -> encode_items enc' l = Ok t.
Proof.
  revert t. induction l as [|x l IH]; simpl; intros t Hext H; [done|].
  destruct (enc x) as [tx|] eqn:Hx; cbn [res_bind] in H; [|discriminate].
  rewrite (Hext x tx (or_introl eq_refl) Hx). cbn [res_bind].
  destruct (encode_items enc l) as [tl|] eqn:Hl; cbn [res_bind] in H; [|discriminate].
  rewrite (IH tl); [done | intros; apply Hext; auto | done].
Qed.

Lemma encode_dict_items_ext enc enc' kvs t :
  (forall kv tx, In kv kvs -> enc kv.2 = Ok tx -> enc' kv.2 = Ok tx) ->
  encode_dict_items enc kvs = Ok t -> encode_dict_items enc' kvs = Ok t.
Proof.
  revert t. induction kvs as [|[k x] kvs IH]; simpl; intros t Hext H; [done|].
  destruct (enc x) as [tx|] eqn:Hx; cbn [res_bind] in H; [|discriminate].
  rewrite (Hext (k, x) tx (or_introl eq_refl) Hx : enc' x = Ok tx). cbn [res_bind].
  destruct (encode_dict_items enc kvs) as [tl|] eqn:Hl; cbn [res_bind] in H; [|discriminate].
  rewrite (IH tl); [done | intros; apply Hext; auto | done].
Qed.

(** A larger recursion budget writes the same text. *)
Lemma encode_obj_mono float_repr v : forall d d' t,
  encode_obj float_repr d v = Ok t -> (d <= d')%nat -> encode_obj float_repr d' v = Ok t.
Proof.
  induction v as [| b | z | f | s | l IH | kvs IH] using pyval_ind'; intros d d' t Ht Hd;
    try exact Ht.
  all: destruct d as [|d]; [discriminate|]; destruct d' as [|d']; [lia|].
  all: rewrite List.Forall_forall in IH.
  - destruct l as [|x l]; [exact Ht|]. cbn [encode_obj] in Ht |- *.
    destruct (encode_obj float_repr d x) as [tx|] eqn:Hx; cbn [res_bind] in Ht; [|discriminate].
    rewrite (IH x (or_introl eq_refl) d d' tx Hx ltac:(lia)). cbn [res_bind].
    destruct (encode_items _ l) as [tl|] eqn:Hl; cbn [res_bind] in Ht; [|discriminate].
    erewrite (encode_items_ext _ _ l tl); [exact Ht | | exact Hl].
    intros y ty Hy Hty. apply (IH y (or_intror Hy) d); [done | lia].
  - destruct kvs as [|[k x] kvs]; [exact Ht|]. cbn [encode_obj] in Ht |- *.
    destruct (encode_obj float_repr d x) as [tx|] eqn:Hx; cbn [res_bind] in Ht; [|discriminate].
    rewrite (IH (k, x) (or_introl eq_refl) d d' tx Hx ltac:(lia) : encode_obj float_repr d' x = Ok tx).
    cbn [res_bind].
    destruct (encode_dict_items _ kvs) as [tl|] eqn:Hl; cbn [res_bind] in Ht; [|discriminate].
    erewrite (encode_dict_items_ext _ _ kvs tl); [exact Ht | | exact Hl].
    intros y ty Hy Hty. apply (IH y (or_intror Hy) d); [done | lia].
Qed.

Lemma dict_lookup_Forall (P : pyval -> Prop) d k v :
  Forall (fun kv => P kv.2) d -> dict_lookup d k = Some v -> P v.
Proof.
  induction 1 as [|[k' v'] d Hv' _ IH]; simpl; [discriminate|].
  case_decide; [intros [= <-]; exact Hv' | exact IH].
Qed.

Lemma encode_dict_items_Ok_Forall enc kvs t :
  encode_dict_items enc kvs = Ok t -> Forall (fun kv => exists t, enc kv.2 = Ok t) kvs.
Proof.
  revert t. induction kvs as [|[k x] kvs IH]; simpl; intros t H; [constructor|].
  destruct (enc x) as [tx|] eqn:Hx; cbn [res_bind] in H; [|discriminate].
  destruct (encode_dict_items enc kvs) as [tl|] eqn:Hl; cbn [res_bind] in H; [|discriminate].
  constructor; [by exists tx | exact (IH _ eq_refl)].
Qed.

Lemma encodes_dict_inv k kvs : encodes (S k) (PDict kvs) -> Forall (fun kv => encodes k kv.2) kvs.
Proof.
  intros He. apply List.Forall_forall. intros [key x] Hin fr. destruct (He fr) as [t Ht].
  destruct kvs as [|[k0 x0] kvs]; [done|]. cbn [encode_obj] in Ht.
  destruct (encode_obj fr k x0) as [t0|] eqn:E0; cbn [res_bind] in Ht; [|discriminate].
  destruct (encode_dict_items _ kvs) as [t1|] eqn:E1; cbn [res_bind] in Ht; [|discriminate].
  destruct Hin as [[= -> ->] | Hin]; [by exists t0|].
  apply encode_dict_items_Ok_Forall in E1. rewrite List.Forall_forall in E1. exact (E1 _ Hin).
Qed.

(** The envelope of a message read from a body [json.loads] accepted can
    be written by [json.dumps] with the same recursion budget or more. *)
Lemma envelope_encodes dec_depth enc_depth b bd msg :
  loads dec_depth b = Ok (PDict bd) -> dict_get (PDict bd) (cps "message") (PStr []) = Ok msg ->
  (dec_depth <= enc_depth)%nat ->
  forall float_repr, exists t, dumps float_repr enc_depth (PDict [(cps "message", msg)]) = Ok t.
Proof.
  intros Hl Hm Hd fr. pose proof (loads_encodes _ _ _ Hl) as He.
  destruct dec_depth as [|k]; [destruct (He fr); discriminate|].
  assert (Hmsg : encodes k msg).
  { simpl in Hm. destruct (dict_lookup bd (cps "message")) as [x|] eqn:Hx; injection Hm as <-;
      [|intros fr'; by eexists].
    apply (dict_lookup_Forall (encodes k) bd (cps "message")); [|done].
    by apply encodes_dict_inv. }
  destruct (encodes_dict k [(cps "message", msg)] ltac:(by repeat constructor) fr) as [t Ht].
  exists t. exact (encode_obj_mono fr _ (S k) enc_depth t Ht Hd).
Qed.
