(* ===== verification/PushApi.v ===== *)
(** * The push-delivery capability

    The handler depends on one platform service, API Gateway's management
    API, through two calls: [boto3.client("apigatewaymanagementapi",
    endpoint_url=...)] (line 9) and [post_to_connection(Data=...,
    ConnectionId=...)] (lines 16-19).  [PushApi] is the interface the
    handler is written against; [PushApiLaws] states what the handler's
    theorems need of it (the spec's contract: a post to an open connection
    delivers the bytes to it and to no one else; a post to a connection
    that is not open fails with [GoneException] and changes nothing).

    [Gateway] is a reference model of the service, from the spec and from
    botocore's documented behaviour: a registry of open connections per
    endpoint, each with the payloads delivered to it.  Client creation
    checks the endpoint URL's host name as botocore's
    [is_valid_endpoint_url] does; the post validates [ConnectionId] as
    botocore's parameter validation does.  [HttpPost] shows that
    [gw_post] is what the HTTP request botocore builds for the post does
    once the management API routes it; [Retry] adds botocore's retries of
    that request over a network that may fail. *)

From S2P Require Import Prelude PyValue.
From stdpp Require Import gmap.

Local Open Scope Z_scope.

(** ** The interface *)

Class PushApi (St : Type) := {
  client : Type;
  (** [boto3.client(service_name, endpoint_url=url)]. *)
  make_client : list Z -> list Z -> pyres client;
  (** [client.post_to_connection(Data=data, ConnectionId=cid)]. *)
  post_to_connection : client -> list Z -> pyval -> stexn St exn pyval
}.

Arguments client St {_}.

(** What a post does to the platform, as the spec states it. *)
Class PushApiLaws (St : Type) `{PushApi St} := {
  (** The endpoint a client is bound to. *)
  client_endpoint : client St -> list Z;
  (** Whether a connection is open at an endpoint. *)
  is_open : St -> list Z -> list Z -> Prop;
  (** The payloads delivered so far to a connection at an endpoint. *)
  delivered : St -> list Z -> list Z -> list (list Z);

  make_client_endpoint svc url c :
    make_client svc url = Ok c -> client_endpoint c = url;
  post_open c data cid st :
    is_open st (client_endpoint c) cid -> cid <> [] ->
    exists resp st',
      post_to_connection c data (PStr cid) st = (Ok resp, st') /\
      delivered st' (client_endpoint c) cid = delivered st (client_endpoint c) cid ++ [data] /\
      (forall ep cid', (ep, cid') <> (client_endpoint c, cid) ->
         delivered st' ep cid' = delivered st ep cid') /\
      (forall ep cid', is_open st' ep cid' <-> is_open st ep cid');
  post_closed c data cid st :
    ~ is_open st (client_endpoint c) cid -> cid <> [] ->
    exists e, post_to_connection c data (PStr cid) st = (Err e, st)
}.

(** ** A reference model of API Gateway *)

(** The characters of a host-name label: [A-Za-z0-9-]. *)
Definition label_char (c : Z) : bool :=
  ((48 <=? c) && (c <=? 57)) || ((65 <=? c) && (c <=? 90)) || ((97 <=? c) && (c <=? 122)) || (c =? 45).

(** Split at the first occurrence of any of [stops]. *)
Fixpoint split_at_any (stops s : list Z) : list Z * list Z :=
  match s with
  | [] => ([], [])
  | c :: r =>
      if existsb (Z.eqb c) stops then ([], s)
      else let '(a, b) := split_at_any stops r in (c :: a, b)
  end.

(** The labels of a host name, split at ['.']. *)
Fixpoint split_dots (s : list Z) (cur : list Z) : list (list Z) :=
  match s with
  | [] => [rev cur]
  | c :: r => if c =? 46 then rev cur :: split_dots r [] else split_dots r (c :: cur)
  end.

(** A label of a valid host name: 1 to 63 of [A-Za-z0-9-], neither
    first nor last a hyphen. *)
Definition valid_label (l : list Z) : bool :=
  match l, last l with
  | c :: _, Some c' =>
      negb (c =? 45) && negb (c' =? 45) && forallb label_char l && Nat.leb (length l) 63
  | _, _ => false
  end.

(** What follows the last [sep] ([str.rpartition(sep)[2]]). *)
Fixpoint after_last (sep : Z) (s acc : list Z) : list Z :=
  match s with
  | [] => rev acc
  | c :: r => if c =? sep then after_last sep r [] else after_last sep r (c :: acc)
  end.

(** Tab, carriage return and line feed, which [urlsplit] deletes from the
    URL before parsing ([_UNSAFE_URL_BYTES_TO_REMOVE]). *)
Definition unsafe_url_byte (c : Z) : bool := (c =? 9) || (c =? 13) || (c =? 10).

Definition remove_unsafe (url : list Z) : list Z := List.filter (fun c => negb (unsafe_url_byte c)) url.

(** The host of an [https://] URL as [urlsplit(url).hostname] finds it:
    after the deletion of tabs and line breaks, the network location runs
    to the first [/], [?] or [#]; the host is what follows its last [@],
    up to the first [:]. *)
Definition url_hostname (url : list Z) : option (list Z) :=
  let url := remove_unsafe url in
  if bool_decide (take 8 url = cps "https://") then
    let netloc := (split_at_any [47; 63; 35] (drop 8 url)).1 in
    let host := (split_at_any [58] (after_last 64 netloc [])).1 in
    match host with [] => None | _ :: _ => Some host end
  else None.

(** botocore's [is_valid_endpoint_url]: no character of
    [UNSAFE_URL_CHARS] (tab, carriage return, line feed) in the URL, then
    a host name of at most 255 characters, an optional final dot, then
    dot-separated valid labels.  (The IPv6 alternative
    [is_valid_ipv6_endpoint_url] is not modelled: it needs a bracketed
    host, which [https://{domainName}/...] has only if the domain name
    starts with an opening bracket.) *)
Definition is_valid_endpoint_url (url : list Z) : bool :=
  if existsb unsafe_url_byte url then false else
  match url_hostname url with
  | None => false
  | Some host =>
      Nat.leb (length host) 255 &&
      (let host' := if bool_decide (last host = Some 46) then removelast host else host in
       forallb valid_label (split_dots host' []))
  end.

(** The platform state: for each endpoint, its open connections and the
    payloads delivered to each. *)
Abbreviation registry := (gmap (list Z) (gmap (list Z) (list (list Z)))).

Record gw_client := { gw_service : list Z; gw_endpoint : list Z }.

Definition gw_make_client (svc url : list Z) : pyres gw_client :=
  if is_valid_endpoint_url url then Ok {| gw_service := svc; gw_endpoint := url |}
  else Err (ValueError (InvalidEndpoint url)).

(** The response dict of a successful post (the handler ignores it). *)
Definition post_response : pyval :=
  PDict [(cps "ResponseMetadata", PDict [(cps "HTTPStatusCode", PInt 200)])].

Definition gw_post (c : gw_client) (data : list Z) (cid : pyval) : stexn registry exn pyval :=
  fun st =>
    match cid with
    | PStr ((_ :: _) as id) =>
        match st !! gw_endpoint c with
        | None => (Err (EndpointConnectionError (gw_endpoint c)), st)
        | Some conns =>
            match conns !! id with
            | None => (Err (ClientError (cps "GoneException")), st)
            | Some msgs => (Ok post_response, <[gw_endpoint c := <[id := msgs ++ [data]]> conns]> st)
            end
        end
    | _ => (Err (ParamValidationError (cps "ConnectionId")), st)
    end.

#[export] Instance Gateway : PushApi registry :=
  {| client := gw_client; make_client := gw_make_client; post_to_connection := gw_post |}.

Definition gw_is_open (st : registry) (ep cid : list Z) : Prop :=
  exists conns msgs, st !! ep = Some conns /\ conns !! cid = Some msgs.

Definition gw_delivered (st : registry) (ep cid : list Z) : list (list Z) :=
  match st !! ep with
  | Some conns => default [] (conns !! cid)
  | None => []
  end.

(** ** The reference model meets the contract *)

Lemma gw_post_open c data cid st conns msgs :
  cid <> [] -> st !! gw_endpoint c = Some conns -> conns !! cid = Some msgs ->
  gw_post c data (PStr cid) st =
    (Ok post_response, <[gw_endpoint c := <[cid := msgs ++ [data]]> conns]> st).
Proof. intros Hc Hst Hconn. destruct cid; [done|]. unfold gw_post. by rewrite Hst, Hconn. Qed.

Lemma gw_delivered_insert st ep cid conns msgs ep' cid' :
  st !! ep = Some conns ->
  gw_delivered (<[ep := <[cid := msgs]> conns]> st) ep' cid' =
    if decide ((ep', cid') = (ep, cid)) then msgs else gw_delivered st ep' cid'.
Proof.
  intros Hst. unfold gw_delivered.
  destruct (decide (ep' = ep)) as [->|Hne].
  - rewrite lookup_insert_eq, Hst. destruct (decide (cid' = cid)) as [->|Hc].
    + rewrite lookup_insert_eq, decide_True by done. done.
    + rewrite lookup_insert_ne by done. rewrite decide_False by congruence. done.
  - rewrite lookup_insert_ne by done. rewrite decide_False by congruence. done.
Qed.

Lemma gw_make_client_endpoint svc url c :
  gw_make_client svc url = Ok c -> gw_endpoint c = url.
Proof. unfold gw_make_client. destruct (is_valid_endpoint_url url); [intros [= <-]; done | discriminate]. Qed.

(** Replacing the deliveries of an open connection opens and closes
    nothing. *)
Lemma gw_is_open_update st ep cid conns msgs msgs' ep' cid' :
  st !! ep = Some conns -> conns !! cid = Some msgs ->
  gw_is_open (<[ep := <[cid := msgs']> conns]> st) ep' cid' <-> gw_is_open st ep' cid'.
Proof.
  intros Hst Hconn. unfold gw_is_open.
  destruct (decide (ep' = ep)) as [->|Hne]; [|by rewrite lookup_insert_ne].
  rewrite lookup_insert_eq, Hst. split.
  - intros (cs & m & [= <-] & Hm). exists conns.
    destruct (decide (cid' = cid)) as [->|Hc']; [by eauto|].
    rewrite lookup_insert_ne in Hm by done. eauto.
  - intros (cs & m & [= <-] & Hm).
    destruct (decide (cid' = cid)) as [->|Hc'];
      eexists _, _; (split; [done|]); [by rewrite lookup_insert_eq|].
    rewrite lookup_insert_ne by done. eauto.
Qed.

Lemma gw_post_open_law c data cid st :
  gw_is_open st (gw_endpoint c) cid -> cid <> [] ->
  exists resp st',
    gw_post c data (PStr cid) st = (Ok resp, st') /\
    gw_delivered st' (gw_endpoint c) cid = gw_delivered st (gw_endpoint c) cid ++ [data] /\
    (forall ep cid', (ep, cid') <> (gw_endpoint c, cid) ->
       gw_delivered st' ep cid' = gw_delivered st ep cid') /\
    (forall ep cid', gw_is_open st' ep cid' <-> gw_is_open st ep cid').
Proof.
  intros (conns & msgs & Hst & Hconn) Hc.
  eexists _, _. split; [by apply gw_post_open|].
  split; [rewrite gw_delivered_insert, decide_True by done; unfold gw_delivered;
          by rewrite Hst, Hconn|].
  split; [intros ep cid' Hne; rewrite gw_delivered_insert by done; by rewrite decide_False|].
  intros ep cid'. by apply gw_is_open_update with msgs.
Qed.

Lemma gw_post_closed_law c data cid st :
  ~ gw_is_open st (gw_endpoint c) cid -> cid <> [] ->
  exists e, gw_post c data (PStr cid) st = (Err e, st).
Proof.
  intros Hclosed Hc. destruct cid as [|x cid]; [done|].
  unfold gw_post, gw_is_open in *.
  destruct (st !! gw_endpoint c) as [conns|] eqn:Hst; [|by eexists].
  destruct (conns !! (x :: cid)) as [msgs|] eqn:Hconn; [|by eexists].
  exfalso. eauto.
Qed.

#[export] Instance GatewayLaws : PushApiLaws registry := {|
  client_endpoint := gw_endpoint;
  is_open := gw_is_open;
  delivered := gw_delivered;
  make_client_endpoint := gw_make_client_endpoint;
  post_open := gw_post_open_law;
  post_closed := gw_post_closed_law
|}.

(** ** Outcomes of a post in the reference model *)

Lemma gw_post_Err_state c data cid st e st' :
  gw_post c data cid st = (Err e, st') -> st' = st.
Proof.
  unfold gw_post. destruct cid as [| | | |[|x id]| |]; try (intros [= _ <-]; done).
  destruct (st !! gw_endpoint c) as [conns|]; [|intros [= _ <-]; done].
  destruct (conns !! (x :: id)); [discriminate | intros [= _ <-]; done].
Qed.

Lemma gw_post_Ok_inv c data cid st r st' :
  gw_post c data cid st = (Ok r, st') ->
  exists id conns msgs, cid = PStr id /\ st !! gw_endpoint c = Some conns /\
    conns !! id = Some msgs /\ st' = <[gw_endpoint c := <[id := msgs ++ [data]]> conns]> st.
Proof.
  unfold gw_post. destruct cid as [| | | |[|x id]| |]; try discriminate.
  destruct (st !! gw_endpoint c) as [conns|] eqn:Hst; [|discriminate].
  destruct (conns !! (x :: id)) as [msgs|] eqn:Hc; [|discriminate].
  intros [= _ <-]. eexists _, _, _. eauto.
Qed.

(** Two posts to different connections commute: each returns what it
    returns alone, and the final registry is the same in both orders. *)
Lemma gw_post_commute (c1 : gw_client) (d1 : list Z) (v1 : pyval) (c2 : gw_client) (d2 : list Z)
    (v2 : pyval) (st : registry) :
  (forall id1 id2, v1 = PStr id1 -> v2 = PStr id2 -> (gw_endpoint c1, id1) <> (gw_endpoint c2, id2)) ->
  (gw_post c2 d2 v2 (gw_post c1 d1 v1 st).2).1 = (gw_post c2 d2 v2 st).1 /\
  (gw_post c1 d1 v1 (gw_post c2 d2 v2 st).2).1 = (gw_post c1 d1 v1 st).1 /\
  (gw_post c2 d2 v2 (gw_post c1 d1 v1 st).2).2 = (gw_post c1 d1 v1 (gw_post c2 d2 v2 st).2).2.
Proof.
  intros Hne. destruct c1 as [s1 ep1], c2 as [s2 ep2]. cbn [gw_endpoint] in *.
  destruct v1 as [| | | |[|x1 id1]| |]; try (unfold gw_post; cbn; auto; fail).
  destruct v2 as [| | | |[|x2 id2]| |]; try (unfold gw_post; cbn; auto; fail).
  specialize (Hne _ _ eq_refl eq_refl).
  unfold gw_post; cbn [gw_endpoint].
  destruct (decide (ep1 = ep2)) as [<-|Hep].
  - assert (x1 :: id1 <> x2 :: id2) by congruence.
    destruct (st !! ep1) as [conns|] eqn:E; cbn [fst snd]; rewrite ?E; [|auto].
    destruct (conns !! (x1 :: id1)) as [m1|] eqn:E1, (conns !! (x2 :: id2)) as [m2|] eqn:E2;
      cbn [fst snd]; rewrite ?E; simplify_map_eq; rewrite ?E1, ?E2; auto.
    split_and!; [done | done |]. rewrite !insert_insert_eq. f_equal. by apply insert_insert_ne.
  - destruct (st !! ep1) as [conns1|] eqn:E1, (st !! ep2) as [conns2|] eqn:E2;
      cbn [fst snd]; rewrite ?E1, ?E2; try (split_and!; reflexivity).
    all: try (destruct (conns1 !! (x1 :: id1)) as [m1|] eqn:F1);
      try (destruct (conns2 !! (x2 :: id2)) as [m2|] eqn:F2); cbn [fst snd];
      rewrite ?lookup_insert_ne by congruence; rewrite ?E1, ?E2, ?F1, ?F2;
      try (split_and!; reflexivity).
    split_and!; [done | done |]. by apply insert_insert_ne.
Qed.
