(* ===== verification/Handler.v ===== *)
(** * [lambda_handler]

    [src/lambdas/sendmessage/sendmessage.py], lines 5-21, statement by
    statement, over any implementation of the push-delivery interface
    [PushApi].  The pure steps are lifted into the state-and-exception
    monad; the only step that touches the platform state is
    [post_to_connection].  The section parameters are the parts of the
    interpreter the model leaves open: [repr] of a finite float, [str] of a
    list or dict (only used if the event's domain name or stage is one),
    and the recursion budgets of the C decoder and encoder at the call. *)

From S2P Require Import Prelude PyValue Unicode JsonEncode JsonDecode PushApi.

Local Open Scope Z_scope.

Section Handler.
Context {St : Type} `{PushApi St}.
Variable float_repr : list Z -> list Z.
Variable repr_container : pyval -> list Z.
Variable dec_depth enc_depth : nat.

(** Line 8: [f"https://{domain_name}/{stage}"]. *)
Definition endpoint_url_of (domain_name stage : pyval) : pyres (list Z) :=
  let? d := py_str float_repr repr_container domain_name in
  let? s := py_str float_repr repr_container stage in
  Ok (cps "https://" ++ d ++ cps "/" ++ s).

(** Line 21: [{'statusCode': 200,}]. *)
Definition status_200 : pyval := PDict [(cps "statusCode", PInt 200)].

Definition lambda_handler (event : pyval) : stexn St exn pyval :=
  let! rc := st_lift (getitem event (cps "requestContext")) in
  let! domain_name := st_lift (getitem rc (cps "domainName")) in
  let! rc := st_lift (getitem event (cps "requestContext")) in
  let! stage := st_lift (getitem rc (cps "stage")) in
  let! endpoint_url := st_lift (endpoint_url_of domain_name stage) in
  let! apig_management_client :=
    st_lift (make_client (cps "apigatewaymanagementapi") endpoint_url) in
  let! rc := st_lift (getitem event (cps "requestContext")) in
  let! connection_id := st_lift (getitem rc (cps "connectionId")) in
  let! body_str := st_lift (dict_get event (cps "body") (PStr (cps "{}"))) in
  let! body := st_lift (loads dec_depth body_str) in
  let! message := st_lift (dict_get body (cps "message") (PStr [])) in
  let! text := st_lift (dumps float_repr enc_depth (PDict [(cps "message", message)])) in
  let! data := st_lift (encode_utf8 text) in
  let! _response := post_to_connection apig_management_client data connection_id in
  st_ret status_200.

(** Lines 6-17 without the call: the client, the bytes and the connection
    id the handler posts, computed in the handler's order, so that the
    first failing step is the same. *)
Definition prepare (event : pyval) : pyres (client St * list Z * pyval) :=
  let? rc := getitem event (cps "requestContext") in
  let? domain_name := getitem rc (cps "domainName") in
  let? rc := getitem event (cps "requestContext") in
  let? stage := getitem rc (cps "stage") in
  let? endpoint_url := endpoint_url_of domain_name stage in
  let? apig_management_client := make_client (cps "apigatewaymanagementapi") endpoint_url in
  let? rc := getitem event (cps "requestContext") in
  let? connection_id := getitem rc (cps "connectionId") in
  let? body_str := dict_get event (cps "body") (PStr (cps "{}")) in
  let? body := loads dec_depth body_str in
  let? message := dict_get body (cps "message") (PStr []) in
  let? text := dumps float_repr enc_depth (PDict [(cps "message", message)]) in
  let? data := encode_utf8 text in
  Ok (apig_management_client, data, connection_id).

(** The handler is its pure part followed by one post: a failure of the
    pure part leaves the state as it was. *)
Lemma lambda_handler_prepare event st :
  lambda_handler event st =
    match prepare event with
    | Err e => (Err e, st)
    | Ok (c, data, cid) =>
        match post_to_connection c data cid st with
        | (Ok _, st') => (Ok status_200, st')
        | (Err e, st') => (Err e, st')
        end
    end.
Proof.
  unfold lambda_handler, prepare, st_bind, st_lift, st_ret.
  repeat match goal with
  | |- context [res_bind ?c _] => destruct c; cbn [res_bind]; [|reflexivity]
  | |- context [match ?c with Ok _ => _ | Err _ => _ end] => destruct c; [|reflexivity]
  end.
  by destruct (post_to_connection _ _ _ st) as [[] ?].
Qed.
End Handler.

(** ** What the event provides *)

Section Event.
Variable dec_depth : nat.

(** [event["requestContext"]] holds the domain name, the stage and the
    connection id. *)
Definition request_context (ev : pyval) (d s : list Z) (cid : pyval) : Prop :=
  exists rc, getitem ev (cps "requestContext") = Ok rc /\
    getitem rc (cps "domainName") = Ok (PStr d) /\
    getitem rc (cps "stage") = Ok (PStr s) /\
    getitem rc (cps "connectionId") = Ok cid.

(** The body decodes to a value whose [.get] of ["message"], with the
    empty string as default, is [msg]. *)
Definition body_message (ev msg : pyval) : Prop :=
  exists b body, dict_get ev (cps "body") (PStr (cps "{}")) = Ok b /\
    loads dec_depth b = Ok body /\ dict_get body (cps "message") (PStr []) = Ok msg.
End Event.

Definition endpoint_url (d s : list Z) : list Z := cps "https://" ++ d ++ cps "/" ++ s.

(** ** The handler is one post of the encoded message *)

Section HandlerFacts.
Context {St : Type} `{PushApiLaws St}.
Variable float_repr : list Z -> list Z.
Variable repr_container : pyval -> list Z.
Variable dec_depth enc_depth : nat.
Hypothesis float_repr_printable : forall lx, Forall printable (float_repr lx).

Lemma dumps_ascii_utf8 v text :
  dumps float_repr enc_depth v = Ok text -> encode_utf8 text = Ok text.
Proof.
  intros Hd. apply encode_utf8_ascii. eapply Forall_impl.
  - eapply dumps_printable; eauto.
  - intros c Hc. by apply printable_ascii.
Qed.

Lemma endpoint_url_of_str d s :
  endpoint_url_of float_repr repr_container (PStr d) (PStr s) = Ok (endpoint_url d s).
Proof. reflexivity. Qed.

(** Once the event yields its fields, the handler is exactly the post of
    the encoded message to the event's connection through the client
    bound to [https://{domainName}/{stage}], followed by status 200. *)
Lemma lambda_handler_post ev d s cid msg text c st :
  request_context ev d s cid ->
  body_message dec_depth ev msg ->
  make_client (cps "apigatewaymanagementapi") (endpoint_url d s) = Ok c ->
  dumps float_repr enc_depth (PDict [(cps "message", msg)]) = Ok text ->
  lambda_handler float_repr repr_container dec_depth enc_depth ev st =
    match post_to_connection c text cid st with
    | (Ok _, st') => (Ok status_200, st')
    | (Err e, st') => (Err e, st')
    end.
Proof.
  intros (rc & Hrc & Hd & Hs & Hcid) (b & body & Hb & Hl & Hm) Hc Ht.
  unfold lambda_handler, st_bind, st_lift.
  rewrite Hrc, Hd, Hs, endpoint_url_of_str, Hc, Hcid, Hb, Hl, Hm, Ht.
  rewrite (dumps_ascii_utf8 _ _ Ht).
  destruct (post_to_connection c text cid st) as [[resp|e] st']; reflexivity.
Qed.

(** The bytes [prepare] returns are the text of an envelope
    [{"message": message}]. *)
Lemma prepare_Ok ev c data cid :
  prepare float_repr repr_container dec_depth enc_depth ev = Ok (c, data, cid) ->
  exists message, dumps float_repr enc_depth (PDict [(cps "message", message)]) = Ok data.
Proof.
  unfold prepare. intros Hp. py_inv.
  match goal with Ht : dumps _ _ _ = Ok ?t, He : encode_utf8 ?t = Ok _ |- _ =>
    rewrite (dumps_ascii_utf8 _ _ Ht) in He; injection He as <- end.
  simplify_eq. eauto.
Qed.

(** Every run of the handler either fails before the post, leaving the
    state as it was, or ends with one post of printable-ASCII bytes. *)
Lemma lambda_handler_inv ev st r st' :
  lambda_handler float_repr repr_container dec_depth enc_depth ev st = (r, st') ->
  (st' = st /\ exists e, r = Err e) \/
  exists c text cid r0,
    Forall printable text /\ post_to_connection c text cid st = (r0, st') /\
    r = match r0 with Ok _ => Ok status_200 | Err e => Err e end.
Proof.
  unfold lambda_handler, st_bind, st_lift, st_ret.
  repeat match goal with
  | |- context [match ?c with Ok _ => _ | Err _ => _ end] =>
      destruct c eqn:?; [|intros [= <- <-]; left; eauto]
  end.
  match goal with Ht : dumps _ _ _ = Ok ?t, He : encode_utf8 ?t = Ok ?d |- _ =>
    rewrite (dumps_ascii_utf8 _ _ Ht) in He; injection He as <-;
    pose proof (dumps_printable _ float_repr_printable _ _ _ Ht) end.
  destruct (post_to_connection _ _ _ st) as [[resp|e] st1] eqn:Hp; intros [= <- <-];
    right; eexists _, _, _, _; eauto.
Qed.
End HandlerFacts.

(** For any implementation of the interface: once the event yields its
    fields and the client is made, [prepare] returns that client, the
    encoded envelope and the event's connection id. *)
Section Prepare.
Context {St : Type} `{PushApi St}.
Variable float_repr : list Z -> list Z.
Variable repr_container : pyval -> list Z.
Variable dec_depth enc_depth : nat.
Hypothesis float_repr_printable : forall lx, Forall printable (float_repr lx).

Lemma prepare_event ev d s cid msg text c :
  request_context ev d s cid -> body_message dec_depth ev msg ->
  make_client (cps "apigatewaymanagementapi") (endpoint_url d s) = Ok c ->
  dumps float_repr enc_depth (PDict [(cps "message", msg)]) = Ok text ->
  prepare float_repr repr_container dec_depth enc_depth ev = Ok (c, text, cid).
Proof.
  intros (rc & Hrc & Hd & Hs & Hcid) (b & body & Hb & Hl & Hm) Hc Ht.
  unfold prepare. rewrite Hrc; cbn [res_bind]. rewrite Hd; cbn [res_bind].
  rewrite Hs; cbn [res_bind]. rewrite endpoint_url_of_str; cbn [res_bind]. rewrite Hc; cbn [res_bind].
  rewrite Hcid; cbn [res_bind]. rewrite Hb; cbn [res_bind]. rewrite Hl; cbn [res_bind].
  rewrite Hm; cbn [res_bind]. rewrite Ht; cbn [res_bind].
  by rewrite (dumps_ascii_utf8 _ _ float_repr_printable _ _ Ht).
Qed.
End Prepare.

(** ** The handler's contract *)

(** The payload for the empty message, as bytes. *)
Definition empty_message_payload : list Z :=
  [123; 34] ++ cps "message" ++ [34; 58; 32; 34; 34; 125].

Section Contract.
Context {St : Type} `{PushApiLaws St}.
Variable float_repr : list Z -> list Z.
Variable repr_container : pyval -> list Z.
Variable dec_depth enc_depth : nat.
Hypothesis float_repr_printable : forall lx, Forall printable (float_repr lx).

Lemma lambda_handler_post_open ev d s cid msg text c st :
  request_context ev d s (PStr cid) -> body_message dec_depth ev msg ->
  make_client (cps "apigatewaymanagementapi") (endpoint_url d s) = Ok c ->
  dumps float_repr enc_depth (PDict [(cps "message", msg)]) = Ok text ->
  is_open st (endpoint_url d s) cid -> cid <> [] ->
  exists st',
    lambda_handler float_repr repr_container dec_depth enc_depth ev st = (Ok status_200, st') /\
    delivered st' (endpoint_url d s) cid = delivered st (endpoint_url d s) cid ++ [text] /\
    (forall ep cid', (ep, cid') <> (endpoint_url d s, cid) ->
       delivered st' ep cid' = delivered st ep cid').
Proof.
  intros Hrc Hb Hc Ht Hopen Hne.
  pose proof (make_client_endpoint _ _ _ Hc) as He. rewrite <- He in Hopen |- *.
  destruct (post_open c text cid st Hopen Hne) as (resp & st' & Hp & Hd & Hothers & _).
  exists st'. erewrite lambda_handler_post by eauto. rewrite Hp. auto.
Qed.

(** With no body, or a body without ["message"], the message is the
    empty string. *)
Lemma body_message_default ev b bd :
  dict_get ev (cps "body") (PStr (cps "{}")) = Ok b ->
  loads dec_depth b = Ok (PDict bd) -> dict_lookup bd (cps "message") = None ->
  body_message dec_depth ev (PStr []).
Proof.
  intros Hb Hl Hm. exists b, (PDict bd). split_and!; [done | done |].
  simpl. by rewrite Hm.
Qed.

Lemma dumps_empty_message :
  (0 < enc_depth)%nat ->
  dumps float_repr enc_depth (PDict [(cps "message", PStr [])]) = Ok empty_message_payload.
Proof. intros Hd. destruct enc_depth; [lia | reflexivity]. Qed.
End Contract.
