(* ===== verification/HttpPost.v ===== *)
(** * The request behind [post_to_connection]

    [apig_management_client.post_to_connection(Data=..., ConnectionId=...)]
    (lines 16-19) is turned by botocore into one HTTP request:
    [POST {endpoint}/@connections/{connectionId}] with the bytes as body.
    The connection id is a URI label of the operation's [requestUri], so
    botocore's serializer ([_render_uri_template]) writes it with
    [percent_encode]: UTF-8 bytes, quoted by [urllib.parse.quote] with the
    safe characters [-._~]; the path is then joined to the endpoint URL by
    [botocore.endpoint]'s [_urljoin] ([urlsplit], path join,
    [urlunsplit]).

    On the other side, the management API (not in [src/]; modelled from
    the spec, section 6: the call targets the connection identified by
    the id, at the endpoint derived from domain name and stage) routes the
    request by its host and path: the stage path before
    [/@connections/], and the connection id percent-decoded and read as
    UTF-8.  [gw_serve] then acts on the registry as [PushApi.gw_post]
    does.

    The results: botocore quotes the id into RFC 3986's percent-encoded
    normal form, which decodes back to its bytes; the request
    for the handler's endpoint [https://{domainName}/{stage}] goes to
    [https://{domainName}/{stage}/@connections/{quoted id}]; and posting
    through the HTTP layer is the same operation on the registry as
    [gw_post], the abstract post the handler's theorems use. *)

From S2P Require Import Prelude PyValue Unicode Utf8 PushApi Handler.
From stdpp Require Import gmap.

Local Open Scope Z_scope.

(** ** [urllib.parse] *)

(** [s.split(sep, 1)] when [sep in s], else [(s, "")]. *)
Fixpoint split_once (sep : Z) (s : list Z) : list Z * list Z :=
  match s with
  | [] => ([], [])
  | c :: r => if c =? sep then ([], r) else let '(a, b) := split_once sep r in (c :: a, b)
  end.

Record split_result := SplitResult {
  sr_scheme : list Z; sr_netloc : list Z; sr_path : list Z; sr_query : list Z; sr_fragment : list Z
}.

(** [urlsplit(url)] for an [https://] URL, the only kind of endpoint a
    client of [gw_make_client] has: the network location runs to the
    first [/], [?] or [#]; the fragment follows the first [#], the query
    the first [?] before it. *)
Definition urlsplit (url : list Z) : option split_result :=
  let url := remove_unsafe url in
  if bool_decide (take 8 url = cps "https://") then
    let '(netloc, rest) := split_at_any [47; 63; 35] (drop 8 url) in
    let '(rest, fragment) := split_once 35 rest in
    let '(path, query) := split_once 63 rest in
    Some (SplitResult (cps "https") netloc path query fragment)
  else None.

(** [urlunsplit] ([https] is in [uses_netloc]). *)
Definition urlunsplit (p : split_result) : list Z :=
  let url := sr_path p in
  let url :=
    if negb (bool_decide (sr_netloc p = [])) || negb (bool_decide (take 2 url = [47; 47])) then
      cps "//" ++ sr_netloc p ++
        match url with c :: _ => if c =? 47 then url else 47 :: url | [] => url end
    else url in
  let url := match sr_scheme p with [] => url | sch => sch ++ 58 :: url end in
  let url := match sr_query p with [] => url | q => url ++ 63 :: q end in
  match sr_fragment p with [] => url | f => url ++ 35 :: f end.

(** [botocore.endpoint._urljoin(endpoint_url, url_path, None)]. *)
Definition urljoin (endpoint_url url_path : list Z) : option (list Z) :=
  match urlsplit endpoint_url with
  | None => None
  | Some p =>
      let new_path :=
        if bool_decide (url_path = []) || bool_decide (url_path = [47]) then
          match sr_path p with [] => [47] | path => path end
        else if bool_decide (last (sr_path p) = Some 47) && bool_decide (head url_path = Some 47)
        then removelast (sr_path p) ++ url_path
        else sr_path p ++ url_path in
      Some (urlunsplit (SplitResult (sr_scheme p) (sr_netloc p) new_path (sr_query p) (sr_fragment p)))
  end.

(** ** [botocore.utils.percent_encode] *)

(** [_ALWAYS_SAFE] of [urllib.parse] and botocore's [SAFE_CHARS]
    [-._~]: letters, digits, [_], [.], [-], [~]. *)
Definition always_safe (b : Z) : bool :=
  ((65 <=? b) && (b <=? 90)) || ((97 <=? b) && (b <=? 122)) || ((48 <=? b) && (b <=? 57)) ||
  (b =? 95) || (b =? 46) || (b =? 45) || (b =? 126).

(** An upper-case hex digit, as [format(d, "X")]. *)
Definition hex_upper (d : Z) : Z := if d <? 10 then 48 + d else 55 + d.

(** [_Quoter.__missing__]: a safe byte as itself, any other as
    ['%{:02X}'.format(b)]. *)
Definition quoter (b : Z) : list Z :=
  if always_safe b then [b] else [37; hex_upper (Z.shiftr b 4); hex_upper (Z.land b 15)].

(** [quote_from_bytes(bs, safe)]: the empty string, the bytes themselves
    when [bs.rstrip(safe)] is empty, else each byte quoted. *)
Definition quote_from_bytes (bs : list Z) : list Z :=
  match bs with
  | [] => []
  | _ => if forallb always_safe bs then bs else flat_map quoter bs
  end.

(** [percent_encode(s)] of a [str]: [quote(s.encode("utf-8"), safe)]. *)
Definition percent_encode (s : list Z) : pyres (list Z) :=
  let? bs := encode_utf8 s in Ok (quote_from_bytes bs).

(** ** The request *)

Record http_request := HttpRequest { req_method : list Z; req_url : list Z; req_body : list Z }.

(** The [requestUri] of [PostToConnection] before its label. *)
Definition connections_path : list Z := cps "/@connections/".

(** The request botocore sends for [post_to_connection(Data=data,
    ConnectionId=cid)]: parameter validation (a non-empty [str]), the
    quoted label, the URL joined to the client's endpoint.  A client from
    [gw_make_client] always has an [https://] endpoint, so the last
    branch is never taken. *)
Definition post_request (c : gw_client) (data : list Z) (cid : pyval) : pyres http_request :=
  match cid with
  | PStr ((_ :: _) as id) =>
      let? enc := percent_encode id in
      match urljoin (gw_endpoint c) (connections_path ++ enc) with
      | Some url => Ok (HttpRequest (cps "POST") url data)
      | None => Err (ValueError (InvalidEndpoint (gw_endpoint c)))
      end
  | _ => Err (ParamValidationError (cps "ConnectionId"))
  end.

(** ** The management API's side *)

(** Percent-decoding, strict: a [%] not followed by two hex digits is
    rejected. *)
Fixpoint unquote (s : list Z) : option (list Z) :=
  match s with
  | [] => Some []
  | c :: r =>
      if c =? 37 then
        match r with
        | h :: l :: r' =>
            match hex_val h, hex_val l with
            | Some a, Some b => option_map (cons (a * 16 + b)) (unquote r')
            | _, _ => None
            end
        | _ => None
        end
      else option_map (cons c) (unquote r)
  end.

(** RFC 3986, section 2.3: the unreserved characters, ALPHA / DIGIT /
    ["-"] / ["."] / ["_"] / ["~"]. *)
Definition unreserved (c : Z) : bool :=
  (c =? 45) || (c =? 46) || ((48 <=? c) && (c <=? 57)) || ((65 <=? c) && (c <=? 90)) ||
  (c =? 95) || ((97 <=? c) && (c <=? 122)) || (c =? 126).

(** An upper-case hexadecimal digit (RFC 3986, section 2.1). *)
Definition upper_hex (c : Z) : bool := ((48 <=? c) && (c <=? 57)) || ((65 <=? c) && (c <=? 70)).

(** The normal form of a percent-encoded string (RFC 3986, sections 2.1,
    2.3 and 6.2.2): every unreserved character as itself, every other
    octet as [%] and two upper-case hexadecimal digits. *)
Fixpoint pct_canonical (s : list Z) : bool :=
  match s with
  | [] => true
  | c :: r =>
      if c =? 37 then
        match r with
        | h :: l :: r' =>
            upper_hex h && upper_hex l &&
            match hex_val h, hex_val l with
            | Some a, Some b => negb (unreserved (a * 16 + b))
            | _, _ => false
            end && pct_canonical r'
        | _ => false
        end
      else unreserved c && pct_canonical r
  end.

(** The endpoint and the connection a request addresses: the host, the
    stage path before the last [/@connections/], and the last path
    segment percent-decoded and read as UTF-8. *)
Definition route (url : list Z) : option (list Z * list Z) :=
  if bool_decide (take 8 url = cps "https://") then
    let '(netloc, rest) := split_at_any [47; 63; 35] (drop 8 url) in
    let path := (split_at_any [63; 35] rest).1 in
    let enc := after_last 47 path [] in
    let pre := take (length path - length enc) path in
    let n := length connections_path in
    if bool_decide (drop (length pre - n) pre = connections_path) then
      match unquote enc with
      | Some bytes =>
          match utf8_decode bytes with
          | Some id => Some (cps "https://" ++ netloc ++ take (length pre - n) pre, id)
          | None => None
          end
      | None => None
      end
    else None
  else None.

(** The management API on a request, against the registry. *)
Definition gw_serve (req : http_request) : stexn registry exn pyval :=
  fun st =>
    match route (req_url req) with
    | None => (Err (ClientError (cps "BadRequestException")), st)
    | Some (ep, id) =>
        match st !! ep with
        | None => (Err (EndpointConnectionError ep), st)
        | Some conns =>
            match conns !! id with
            | None => (Err (ClientError (cps "GoneException")), st)
            | Some msgs => (Ok post_response, <[ep := <[id := msgs ++ [req_body req]]> conns]> st)
            end
        end
    end.

(** [post_to_connection] through the HTTP layer. *)
Definition http_post (c : gw_client) (data : list Z) (cid : pyval) : stexn registry exn pyval :=
  fun st =>
    match post_request c data cid with
    | Ok req => gw_serve req st
    | Err e => (Err e, st)
    end.

(** ** Percent-encoding is inverted by percent-decoding *)

Lemma hex_val_upper d : 0 <= d < 16 -> hex_val (hex_upper d) = Some d.
Proof.
  intros Hd. unfold hex_val, hex_upper. destruct (Z.ltb_spec d 10); ztest; cbn; f_equal; lia.
Qed.

Lemma quote_from_bytes_flat_map bs : quote_from_bytes bs = flat_map quoter bs.
Proof.
  destruct bs as [|b bs']; [done|]. unfold quote_from_bytes.
  destruct (forallb always_safe _) eqn:E; [|done].
  induction (b :: bs') as [|x xs IH]; [done|]. cbn [forallb] in E.
  apply andb_prop in E as [Hx Hxs]. cbn [flat_map]. unfold quoter at 1. rewrite Hx. cbn.
  by rewrite <- IH.
Qed.

Lemma unquote_quoter b r :
  is_byte b -> unquote (quoter b ++ r) = option_map (cons b) (unquote r).
Proof.
  unfold is_byte. intros Hb. unfold quoter. destruct (always_safe b) eqn:Hs; cbn [app unquote].
  - assert (b <> 37) by (intros ->; discriminate). by destruct (Z.eqb_spec b 37).
  - rewrite !hex_val_upper.
    + f_equal. f_equal. change 15 with (Z.ones 4). rewrite Z.land_ones, Z.shiftr_div_pow2 by lia.
      Z.div_mod_to_equations. lia.
    + change 15 with (Z.ones 4). rewrite Z.land_ones by lia. apply Z.mod_pos_bound. lia.
    + rewrite Z.shiftr_div_pow2 by lia. split; [apply Z.div_pos | apply Z.div_lt_upper_bound]; lia.
Qed.

Lemma unquote_quoted bs : Forall is_byte bs -> unquote (flat_map quoter bs) = Some bs.
Proof.
  induction 1 as [|b bs Hb _ IH]; [done|]. cbn [flat_map]. by rewrite unquote_quoter, IH.
Qed.

(** botocore's safe characters are RFC 3986's unreserved ones. *)
Lemma always_safe_unreserved b : always_safe b = unreserved b.
Proof. unfold always_safe, unreserved. ztest; reflexivity. Qed.

Lemma upper_hex_upper d : 0 <= d < 16 -> upper_hex (hex_upper d) = true.
Proof. intros Hd. unfold upper_hex, hex_upper. destruct (Z.ltb_spec d 10); ztest. Qed.

(** An upper-case hex digit is the [hex_upper] of its value. *)
Lemma hex_upper_val h a : upper_hex h = true -> hex_val h = Some a -> hex_upper a = h /\ 0 <= a < 16.
Proof.
  unfold upper_hex, hex_val. revert a. ztest; intros a Hu Hv; try discriminate;
    injection Hv as <-; unfold hex_upper; ztest; split; lia.
Qed.

Lemma nibbles_val a b :
  0 <= a < 16 -> 0 <= b < 16 -> Z.shiftr (a * 16 + b) 4 = a /\ Z.land (a * 16 + b) 15 = b.
Proof.
  intros Ha Hb. change 15 with (Z.ones 4). rewrite Z.land_ones, Z.shiftr_div_pow2 by lia.
  change (2 ^ 4) with 16. split; [rewrite Z.div_add_l by lia | rewrite Z.add_comm, Z.mod_add by lia].
  - rewrite Z.div_small by lia. lia.
  - by apply Z.mod_small.
Qed.

Lemma pct_canonical_quoter b r : is_byte b -> pct_canonical (quoter b ++ r) = pct_canonical r.
Proof.
  unfold is_byte. intros Hb. unfold quoter. destruct (always_safe b) eqn:Hs; cbn [app pct_canonical].
  - assert (b <> 37) by (intros ->; discriminate). destruct (Z.eqb_spec b 37); [done|].
    by rewrite <- always_safe_unreserved, Hs.
  - assert (Hh : 0 <= Z.shiftr b 4 < 16)
      by (rewrite Z.shiftr_div_pow2 by lia; split; [apply Z.div_pos | apply Z.div_lt_upper_bound]; lia).
    assert (Hl : 0 <= Z.land b 15 < 16)
      by (change 15 with (Z.ones 4); rewrite Z.land_ones by lia; apply Z.mod_pos_bound; lia).
    rewrite Z.eqb_refl, !upper_hex_upper, !hex_val_upper by done.
    replace (Z.shiftr b 4 * 16 + Z.land b 15) with b
      by (change 15 with (Z.ones 4); rewrite Z.land_ones, Z.shiftr_div_pow2 by lia;
          Z.div_mod_to_equations; lia).
    by rewrite <- always_safe_unreserved, Hs.
Qed.

Lemma canonical_quoted bs : Forall is_byte bs -> pct_canonical (flat_map quoter bs) = true.
Proof.
  induction 1 as [|b bs Hb _ IH]; [done|]. cbn [flat_map]. by rewrite pct_canonical_quoter.
Qed.

(** A canonical string is the quoting of what it decodes to. *)
Lemma canonical_unquote n s bs :
  (length s <= n)%nat -> pct_canonical s = true -> unquote s = Some bs -> s = flat_map quoter bs.
Proof.
  revert s bs. induction n as [|n IH]; intros [|c r] bs Hn Hc Hu; cbn [length] in Hn; try lia.
  1,2: cbn in Hu; injection Hu as <-; done.
  cbn [pct_canonical unquote] in Hc, Hu. destruct (Z.eqb_spec c 37) as [->|Hne].
  - destruct r as [|h [|l r']]; try discriminate.
    destruct (hex_val h) as [a|] eqn:Ea, (hex_val l) as [b|] eqn:Eb;
      rewrite ?andb_false_r in Hc; try discriminate.
    apply andb_prop in Hc as [[[Hh Hl]%andb_prop Hr]%andb_prop Hc].
    destruct (unquote r') as [bs'|] eqn:Eu; [|discriminate]. injection Hu as <-.
    destruct (hex_upper_val h a Hh Ea) as [<- Ha], (hex_upper_val l b Hl Eb) as [<- Hb].
    destruct (nibbles_val a b Ha Hb) as [E1 E2].
    cbn [flat_map]. unfold quoter. rewrite always_safe_unreserved.
    apply negb_true_iff in Hr. rewrite Hr, E1, E2. cbn [app]. do 3 f_equal.
    apply IH; [cbn in Hn; lia | done | done].
  - apply andb_prop in Hc as [Hc Hr]. destruct (unquote r) as [bs'|] eqn:Eu; [|discriminate].
    injection Hu as <-. cbn [flat_map]. unfold quoter. rewrite always_safe_unreserved, Hc.
    cbn [app]. f_equal. apply IH; [lia | done | done].
Qed.

(** C13: botocore quotes the connection id into RFC 3986's normal form:
    a string is in percent-encoded normal form (unreserved characters as
    themselves, every other byte as [%] with two upper-case hex digits)
    and decodes to the bytes [bs] exactly when it is
    [quote_from_bytes bs]. *)
Theorem quote_canonical bs s :
  Forall is_byte bs ->
  pct_canonical s = true /\ unquote s = Some bs <-> s = quote_from_bytes bs.
Proof.
  intros Hb. rewrite quote_from_bytes_flat_map. split.
  - intros [Hc Hu]. by apply (canonical_unquote (length s)).
  - intros ->. split; [by apply canonical_quoted | by apply unquote_quoted].
Qed.

(** ** URLs of the handler's endpoints *)

(** [s] holds none of [stops]. *)
Definition no_stop (stops s : list Z) : bool := forallb (fun c => negb (existsb (Z.eqb c) stops)) s.

(** A domain name that is a network location on its own: not empty, no
    [/], [?], [#], and nothing [urlsplit] deletes. *)
Definition url_host_ok (d : list Z) : bool :=
  negb (bool_decide (d = [])) && no_stop [47; 63; 35; 9; 13; 10] d.

(** A stage that is a path on its own: not empty, not ending with [/], no
    [?] or [#], and nothing [urlsplit] deletes. *)
Definition url_stage_ok (s : list Z) : bool :=
  negb (bool_decide (s = [])) && negb (bool_decide (last s = Some 47)) && no_stop [63; 35; 9; 13; 10] s.

Lemma no_stop_app stops s1 s2 : no_stop stops (s1 ++ s2) = no_stop stops s1 && no_stop stops s2.
Proof. apply forallb_app. Qed.

Lemma no_stop_sub stops stops' s :
  (forall c, In c stops -> In c stops') -> no_stop stops' s = true -> no_stop stops s = true.
Proof.
  intros Hsub. unfold no_stop. rewrite !forallb_forall. intros H c Hc.
  specialize (H c Hc). apply negb_true_iff in H. apply negb_true_iff.
  destruct (existsb (Z.eqb c) stops) eqn:E; [|done].
  apply existsb_exists in E as (x & Hx & ->%Z.eqb_eq).
  rewrite <- H. symmetry. apply existsb_exists. exists x. split; [auto | apply Z.eqb_refl].
Qed.

Lemma split_at_any_no_stop stops s r :
  no_stop stops s = true ->
  split_at_any stops (s ++ r) = ((s ++ (split_at_any stops r).1), (split_at_any stops r).2).
Proof.
  induction s as [|c s IH]; [intros _; cbn; by destruct (split_at_any stops r)|].
  cbn [no_stop forallb app split_at_any]. intros [Hc Hs]%andb_prop.
  apply negb_true_iff in Hc. rewrite Hc, IH by done. done.
Qed.

Lemma split_once_none sep s : no_stop [sep] s = true -> split_once sep s = (s, []).
Proof.
  induction s as [|c s IH]; [done|]. cbn [no_stop forallb existsb split_once].
  intros [Hc Hs]%andb_prop. rewrite orb_false_r in Hc. apply negb_true_iff in Hc.
  rewrite Hc. unfold no_stop in IH. by rewrite IH.
Qed.

Lemma remove_unsafe_id s : no_stop [9; 13; 10] s = true -> remove_unsafe s = s.
Proof.
  induction s as [|c s IH]; [done|]. cbn [no_stop forallb]. intros [Hc Hs]%andb_prop.
  cbn [remove_unsafe List.filter]. unfold unsafe_url_byte.
  cbn [existsb] in Hc. specialize (IH Hs). revert Hc. ztest; intros Hc; try discriminate.
  cbn. f_equal. exact IH.
Qed.

Lemma after_last_none sep y acc : no_stop [sep] y = true -> after_last sep y acc = rev acc ++ y.
Proof.
  revert acc. induction y as [|c y IH]; intros acc; [by rewrite app_nil_r|].
  cbn [no_stop forallb existsb]. intros [Hc Hy]%andb_prop. rewrite orb_false_r in Hc.
  apply negb_true_iff in Hc. cbn [after_last]. rewrite Hc, IH by done.
  cbn. by rewrite <- app_assoc.
Qed.

Lemma after_last_tail sep x y acc :
  no_stop [sep] y = true -> after_last sep (x ++ sep :: y) acc = y.
Proof.
  intros Hy. revert acc. induction x as [|c x IH]; intros acc; cbn [app after_last].
  - rewrite Z.eqb_refl. by rewrite after_last_none.
  - destruct (c =? sep); apply IH.
Qed.

Lemma hex_upper_range d : 0 <= d < 16 -> 48 <= hex_upper d <= 57 \/ 65 <= hex_upper d <= 70.
Proof. unfold hex_upper. intros Hd. destruct (Z.ltb_spec d 10); lia. Qed.

Lemma hex_nibbles b :
  is_byte b -> 0 <= Z.shiftr b 4 < 16 /\ 0 <= Z.land b 15 < 16.
Proof.
  unfold is_byte. intros Hb. rewrite Z.shiftr_div_pow2 by lia. change 15 with (Z.ones 4).
  rewrite Z.land_ones by lia. split; [split; [apply Z.div_pos | apply Z.div_lt_upper_bound] | apply Z.mod_pos_bound]; lia.
Qed.

(** The quoted text has no separator of a URL. *)
Lemma quoter_no_stop b : is_byte b -> no_stop [47; 63; 35; 9; 13; 10] (quoter b) = true.
Proof.
  intros Hb. unfold quoter. destruct (always_safe b) eqn:Hs.
  - revert Hs. unfold always_safe. cbn. ztest.
  - destruct (hex_nibbles b Hb) as [Hhi Hlo].
    pose proof (hex_upper_range _ Hhi). pose proof (hex_upper_range _ Hlo).
    cbn. ztest.
Qed.

Lemma quote_no_stop bs :
  Forall is_byte bs -> no_stop [47; 63; 35; 9; 13; 10] (quote_from_bytes bs) = true.
Proof.
  rewrite quote_from_bytes_flat_map. induction 1 as [|b bs Hb _ IH]; [done|].
  cbn [flat_map]. rewrite no_stop_app, IH, quoter_no_stop by done. done.
Qed.

(** Weaken a [no_stop] hypothesis to fewer separators. *)
Local Ltac no_stop_from H := eapply no_stop_sub; [| exact H]; intros ?; cbn; tauto.

Lemma no_stop_cons stops c s :
  no_stop stops (c :: s) = negb (existsb (Z.eqb c) stops) && no_stop stops s.
Proof. reflexivity. Qed.

(** Split a [no_stop] goal over [++] and [::] and close each part by
    computation or from a hypothesis. *)
Local Ltac no_stop_solve :=
  rewrite ?no_stop_app, ?no_stop_cons; repeat (apply andb_true_intro; split);
  first [reflexivity | match goal with H : no_stop _ ?s = true |- no_stop _ ?s = true => no_stop_from H end].

Lemma urlsplit_endpoint d s :
  url_host_ok d = true -> no_stop [63; 35; 9; 13; 10] s = true ->
  urlsplit (endpoint_url d s) = Some (SplitResult (cps "https") d (47 :: s) [] []).
Proof.
  unfold url_host_ok. intros [_ Hd]%andb_prop Hs. unfold urlsplit, endpoint_url.
  rewrite remove_unsafe_id.
  2: no_stop_solve.
  rewrite bool_decide_true by reflexivity. change (drop 8 (cps "https://" ++ ?x)) with x.
  rewrite split_at_any_no_stop by no_stop_from Hd.
  change (cps "/") with [47]. cbn [app split_at_any existsb Z.eqb Pos.eqb orb fst snd].
  rewrite app_nil_r, !split_once_none by no_stop_solve. reflexivity.
Qed.

Lemma urljoin_endpoint d s p :
  url_host_ok d = true -> url_stage_ok s = true -> p <> [] -> p <> [47] ->
  urljoin (endpoint_url d s) p = Some (endpoint_url d s ++ p).
Proof.
  intros Hd Hs Hp1 Hp2. pose proof Hs as Hs'. unfold url_stage_ok in Hs'.
  apply andb_prop in Hs' as [[Hne Hlast]%andb_prop Hns].
  unfold urljoin. rewrite urlsplit_endpoint by done. cbn [sr_path sr_scheme sr_netloc sr_query sr_fragment].
  rewrite !bool_decide_false by done. cbn [orb andb].
  destruct s as [|x s]; [done|]. change (last (47 :: x :: s)) with (last (x :: s)).
  rewrite (bool_decide_false (last (x :: s) = Some 47)) by (intros E; by rewrite E in Hlast).
  cbn [andb]. unfold urlunsplit. cbn [sr_path sr_scheme sr_netloc sr_query sr_fragment].
  unfold url_host_ok in Hd. apply andb_prop in Hd as [Hd _]. rewrite Hd. cbn [negb orb].
  cbn [app Z.eqb Pos.eqb]. unfold endpoint_url.
  cbn. by rewrite <- !app_assoc.
Qed.

Lemma split_at_any_all stops s : no_stop stops s = true -> split_at_any stops s = (s, []).
Proof.
  intros H. pose proof (split_at_any_no_stop stops s [] H) as E. rewrite app_nil_r in E.
  by rewrite E, app_nil_r.
Qed.

Lemma split_at_any_slash r : head r = Some 47 -> split_at_any [47; 63; 35] r = ([], r).
Proof. destruct r as [|c r]; [discriminate|]. by intros [= ->]. Qed.

(** The management API routes a request for the path [sp], either empty
    or starting with [/], to the endpoint [https://{d}{sp}]. *)
Lemma route_path d sp enc bytes id :
  url_host_ok d = true -> no_stop [63; 35; 9; 13; 10] sp = true ->
  head sp = None \/ head sp = Some 47 ->
  no_stop [47; 63; 35; 9; 13; 10] enc = true ->
  unquote enc = Some bytes -> utf8_decode bytes = Some id ->
  route (cps "https://" ++ d ++ sp ++ connections_path ++ enc) = Some (cps "https://" ++ d ++ sp, id).
Proof.
  intros Hd Hs Hh He Hq Hu. unfold url_host_ok in Hd. apply andb_prop in Hd as [_ Hd].
  unfold route.
  rewrite (bool_decide_true (take 8 _ = _)) by reflexivity. change (drop 8 (cps "https://" ++ ?x)) with x.
  rewrite split_at_any_no_stop by no_stop_from Hd.
  rewrite split_at_any_slash by (destruct sp; destruct Hh; done). cbn [fst snd]. rewrite app_nil_r.
  rewrite split_at_any_all by (unfold connections_path; no_stop_solve). cbn [fst].
  replace (sp ++ connections_path ++ enc) with ((sp ++ cps "/@connections") ++ 47 :: enc)
    by (by rewrite <- app_assoc).
  rewrite after_last_tail by no_stop_from He.
  replace (take (length ((sp ++ cps "/@connections") ++ 47 :: enc) - length enc)
                ((sp ++ cps "/@connections") ++ 47 :: enc))
    with (sp ++ connections_path).
  2: { replace ((sp ++ cps "/@connections") ++ 47 :: enc)
         with (((sp ++ cps "/@connections") ++ [47]) ++ enc) by (by rewrite <- !app_assoc).
       rewrite length_app, Nat.add_sub, take_app_length. by rewrite <- app_assoc. }
  rewrite length_app, Nat.add_sub, drop_app_length, bool_decide_true by done.
  rewrite take_app_length, Hq, Hu. reflexivity.
Qed.

Lemma route_endpoint d s enc bytes id :
  url_host_ok d = true -> no_stop [63; 35; 9; 13; 10] s = true ->
  no_stop [47; 63; 35; 9; 13; 10] enc = true ->
  unquote enc = Some bytes -> utf8_decode bytes = Some id ->
  route (endpoint_url d s ++ connections_path ++ enc) = Some (endpoint_url d s, id).
Proof.
  intros Hd Hs He Hq Hu. unfold endpoint_url. rewrite <- !app_assoc.
  apply (route_path d (cps "/" ++ s) enc bytes); try done.
  by right.
Qed.

(** A connection id of scalar values is quoted from bytes that decode back
    to it. *)
Lemma percent_encode_scalars id :
  forallb is_scalar id = true ->
  exists bs, percent_encode id = Ok (quote_from_bytes bs) /\ Forall is_byte bs /\
    utf8_decode bs = Some id.
Proof.
  intros Hid. destruct (encode_utf8_scalars 0 id Hid) as (bs & E & Hb & Hd).
  exists bs. unfold percent_encode, encode_utf8. by rewrite E.
Qed.

Lemma post_request_endpoint c d s data id bs :
  gw_endpoint c = endpoint_url d s -> url_host_ok d = true -> url_stage_ok s = true -> id <> [] ->
  percent_encode id = Ok (quote_from_bytes bs) ->
  post_request c data (PStr id) =
    Ok (HttpRequest (cps "POST") (endpoint_url d s ++ connections_path ++ quote_from_bytes bs) data).
Proof.
  intros Hc Hd Hs Hne He. destruct id as [|x id]; [done|]. unfold post_request.
  rewrite He. cbn [res_bind]. rewrite Hc, urljoin_endpoint by (done || (unfold connections_path; cbn; discriminate)).
  reflexivity.
Qed.

(** For the handler's endpoint and a connection id of scalar values, the
    request botocore builds carries the bytes and is routed back to the
    client's endpoint and to that connection. *)
Lemma post_request_route c d s data id :
  gw_endpoint c = endpoint_url d s -> url_host_ok d = true -> url_stage_ok s = true ->
  forallb is_scalar id = true -> id <> [] ->
  exists req, post_request c data (PStr id) = Ok req /\
    route (req_url req) = Some (gw_endpoint c, id) /\ req_body req = data.
Proof.
  intros Hc Hd Hs Hid Hne. destruct (percent_encode_scalars id Hid) as (bs & He & Hb & Hu).
  rewrite (post_request_endpoint c d s data id bs) by done.
  eexists. split; [reflexivity|]. cbn [req_url req_body]. split; [|done].
  assert (Hs' : no_stop [63; 35; 9; 13; 10] s = true)
    by (unfold url_stage_ok in Hs; apply andb_prop in Hs as [_ Hs]; exact Hs).
  rewrite Hc. apply (route_endpoint d s (quote_from_bytes bs) bs id); try done.
  - by apply quote_no_stop.
  - rewrite quote_from_bytes_flat_map. by apply unquote_quoted.
Qed.

(** C12: for the handler's endpoint [https://{domainName}/{stage}] (a
    domain name and a non-empty stage that [urlsplit] keeps whole) and a
    connection id of Unicode scalar values, botocore sends the bytes with
    [POST] to [https://{domainName}/{stage}/@connections/{id}], the id
    percent-encoded from its UTF-8 bytes. *)
Theorem post_request_url c d s data id :
  gw_endpoint c = endpoint_url d s -> url_host_ok d = true -> url_stage_ok s = true ->
  forallb is_scalar id = true -> id <> [] ->
  exists enc, percent_encode id = Ok enc /\
    post_request c data (PStr id) =
      Ok (HttpRequest (cps "POST") (endpoint_url d s ++ connections_path ++ enc) data).
Proof.
  intros Hc Hd Hs Hid Hne. destruct (percent_encode_scalars id Hid) as (bs & He & _ & _).
  exists (quote_from_bytes bs). split; [done|]. by apply post_request_endpoint.
Qed.

(** C11: the HTTP request botocore sends reaches the connection the abstract
    post addresses: for the handler's endpoint and a connection id of
    scalar values, posting through [post_request] and the management API's
    routing is the same operation on the registry as [gw_post], with the
    same outcome. *)
Theorem http_post_refines c d s data cid st :
  gw_endpoint c = endpoint_url d s -> url_host_ok d = true -> url_stage_ok s = true ->
  (forall id, cid = PStr id -> forallb is_scalar id = true) ->
  http_post c data cid st = gw_post c data cid st.
Proof.
  intros Hc Hd Hs Hid. unfold http_post.
  destruct cid as [| | | |[|x id]| |]; try reflexivity.
  destruct (post_request_route c d s data (x :: id)) as (req & -> & Hr & <-);
    [done | done | done | by apply Hid | done |].
  unfold gw_serve. rewrite Hr. reflexivity.
Qed.

(** With an empty stage, [_urljoin] merges the endpoint's trailing [/]
    with the request path's leading one. *)
Lemma urljoin_empty_stage d p :
  url_host_ok d = true -> head p = Some 47 -> p <> [47] ->
  urljoin (endpoint_url d []) p = Some (cps "https://" ++ d ++ p).
Proof.
  intros Hd Hh Hp. unfold urljoin. rewrite urlsplit_endpoint by done.
  cbn [sr_path sr_scheme sr_netloc sr_query sr_fragment].
  destruct p as [|x p]; [discriminate|]. injection Hh as ->.
  rewrite (bool_decide_false (47 :: p = [])) by done. rewrite (bool_decide_false (47 :: p = [47])) by done.
  rewrite !bool_decide_true by done. cbn [orb andb removelast app].
  unfold urlunsplit. cbn [sr_path sr_scheme sr_netloc sr_query sr_fragment].
  unfold url_host_ok in Hd. apply andb_prop in Hd as [Hd _]. rewrite Hd. cbn [negb orb].
  cbn [Z.eqb Pos.eqb]. reflexivity.
Qed.

(** C14: with an empty stage, the handler's endpoint is [https://{d}/], but
    the request botocore sends is [https://{d}/@connections/{id}], which
    the management API routes to the endpoint [https://{d}]: the post
    does not address the endpoint the client was created for. *)
Theorem post_request_empty_stage c d data id :
  gw_endpoint c = endpoint_url d [] -> url_host_ok d = true ->
  forallb is_scalar id = true -> id <> [] ->
  exists enc,
    post_request c data (PStr id) =
      Ok (HttpRequest (cps "POST") (cps "https://" ++ d ++ connections_path ++ enc) data) /\
    route (cps "https://" ++ d ++ connections_path ++ enc) = Some (cps "https://" ++ d, id).
Proof.
  intros Hc Hd Hid Hne. destruct (percent_encode_scalars id Hid) as (bs & He & Hb & Hu).
  exists (quote_from_bytes bs). split.
  - destruct id as [|x id]; [done|]. unfold post_request. rewrite He. cbn [res_bind].
    rewrite Hc, urljoin_empty_stage by (done || (unfold connections_path; cbn; discriminate)).
    reflexivity.
  - pose proof (route_path d [] (quote_from_bytes bs) bs id) as R. rewrite app_nil_r in R.
    apply R; try done; [by left | by apply quote_no_stop |].
    rewrite quote_from_bytes_flat_map. by apply unquote_quoted.
Qed.

(** ** The handler over the HTTP layer *)

(** The gateway whose posts go through botocore's request and the
    management API's routing. *)
Definition HttpGateway : PushApi registry :=
  {| client := gw_client; make_client := gw_make_client; post_to_connection := http_post |}.

Section HandlerHttp.
Variable float_repr : list Z -> list Z.
Variable repr_container : pyval -> list Z.
Variable dec_depth enc_depth : nat.

(** What [prepare] returns names the client of the event's endpoint and
    the event's connection id. *)
Lemma prepare_endpoint ev d s cid c data cid' :
  request_context ev d s cid ->
  @prepare registry Gateway float_repr repr_container dec_depth enc_depth ev = Ok (c, data, cid') ->
  gw_endpoint c = endpoint_url d s /\ cid' = cid.
Proof.
  intros (rc & Hrc & Hd & Hs & Hcid) Hp. unfold prepare in Hp. py_inv.
  repeat match goal with
  | H : getitem ?e ?k = Ok _, H' : getitem ?e ?k = Ok _ |- _ => rewrite H in H'; injection H' as <-
  end.
  simplify_eq. rewrite endpoint_url_of_str in *. simplify_eq.
  split; [by eapply gw_make_client_endpoint | done].
Qed.

(** C10: the handler's theorems carry over to the HTTP layer: for an event
    whose domain name and stage [urlsplit] keeps whole and whose
    connection id is a string of scalar values, running the handler
    against [HttpGateway] has the same result and the same effect on the
    registry as against [Gateway]. *)
Theorem lambda_handler_http ev d s cid st :
  request_context ev d s cid -> url_host_ok d = true -> url_stage_ok s = true ->
  (forall id, cid = PStr id -> forallb is_scalar id = true) ->
  @lambda_handler registry HttpGateway float_repr repr_container dec_depth enc_depth ev st =
  @lambda_handler registry Gateway float_repr repr_container dec_depth enc_depth ev st.
Proof.
  intros Hrc Hd Hs Hid. rewrite !lambda_handler_prepare.
  change (@prepare registry HttpGateway) with (@prepare registry Gateway).
  destruct (prepare _ _ _ _ ev) as [[[c data] cid']|e] eqn:Hp; [|done].
  destruct (prepare_endpoint _ _ _ _ _ _ _ Hrc Hp) as [Hc ->].
  change (@post_to_connection registry HttpGateway c data cid st) with (http_post c data cid st).
  change (@post_to_connection registry Gateway c data cid st) with (gw_post c data cid st).
  by rewrite (http_post_refines c d s data cid st Hc Hd Hs Hid).
Qed.
End HandlerHttp.

(** ** Witnesses *)

Definition sample_domain : list Z := cps "abc123.execute-api.us-east-1.amazonaws.com".

Definition sample_client (stage : list Z) : gw_client :=
  {| gw_service := cps "apigatewaymanagementapi"; gw_endpoint := endpoint_url sample_domain stage |}.

(** A connection id with a [/], an [=] and an [é], all of which botocore
    quotes. *)
Definition sample_id : list Z := cps "conn/XYZ=" ++ [0xE9].

Lemma quote_canonical_witness :
  Forall is_byte (cps "conn/XYZ=" ++ [0xC3; 0xA9]) /\
  (pct_canonical (cps "conn%2FXYZ%3D%C3%A9") = true /\
   unquote (cps "conn%2FXYZ%3D%C3%A9") = Some (cps "conn/XYZ=" ++ [0xC3; 0xA9]) <->
   cps "conn%2FXYZ%3D%C3%A9" = quote_from_bytes (cps "conn/XYZ=" ++ [0xC3; 0xA9])).
Proof.
  assert (Hb : Forall is_byte (cps "conn/XYZ=" ++ [0xC3; 0xA9])) by (repeat constructor; unfold is_byte; lia).
  split; [exact Hb | apply (quote_canonical _ _ Hb)].
Defined.

Lemma post_request_url_witness :
  exists enc, percent_encode sample_id = Ok enc /\
    post_request (sample_client (cps "prod")) (cps "hi") (PStr sample_id) =
      Ok (HttpRequest (cps "POST") (endpoint_url sample_domain (cps "prod") ++ connections_path ++ enc)
            (cps "hi")).
Proof.
  apply post_request_url; try reflexivity. discriminate.
Defined.

Definition sample_registry : registry :=
  {[ endpoint_url sample_domain (cps "prod") := {[ sample_id := [] ]} ]}.

Lemma http_post_refines_witness :
  http_post (sample_client (cps "prod")) (cps "hi") (PStr sample_id) sample_registry =
    gw_post (sample_client (cps "prod")) (cps "hi") (PStr sample_id) sample_registry.
Proof.
  apply (http_post_refines _ sample_domain (cps "prod")); try reflexivity.
  intros id [= <-]. reflexivity.
Defined.

Lemma post_request_empty_stage_witness :
  exists enc,
    post_request (sample_client []) (cps "hi") (PStr sample_id) =
      Ok (HttpRequest (cps "POST") (cps "https://" ++ sample_domain ++ connections_path ++ enc) (cps "hi")) /\
    route (cps "https://" ++ sample_domain ++ connections_path ++ enc) =
      Some (cps "https://" ++ sample_domain, sample_id).
Proof. apply post_request_empty_stage; try reflexivity. discriminate. Defined.

(** The spec's example event, sent from [sample_id]. *)
Definition sample_event : pyval :=
  PDict [(cps "requestContext",
          PDict [(cps "domainName", PStr sample_domain); (cps "stage", PStr (cps "prod"));
                 (cps "connectionId", PStr sample_id)]);
         (cps "body", PStr ([123; 34] ++ cps "message" ++ [34; 58; 34] ++ cps "hi" ++ [34; 125]))].

Lemma lambda_handler_http_witness :
  @lambda_handler registry HttpGateway (fun _ => []) (fun _ => []) 100 100 sample_event sample_registry =
  @lambda_handler registry Gateway (fun _ => []) (fun _ => []) 100 100 sample_event sample_registry.
Proof.
  apply (lambda_handler_http _ _ _ _ _ sample_domain (cps "prod") (PStr sample_id)); try reflexivity.
  - eexists. split_and!; reflexivity.
  - intros id [= <-]. reflexivity.
Defined.
