(* ===== verification/HandlerSpec.v ===== *)
(** * The handler's properties

    The theorems the spec's section 8 lists, and the error paths of its
    section 7, for [lambda_handler] ([Handler]): against the interface laws
    ([PushApiLaws]) where the property is the contract of the platform,
    and against the reference model [Gateway] where it is a property of
    the whole state (atomicity of a failing run, a single delivery per
    successful run).  Each theorem with a hypothesis has a witness at the
    spec's example event. *)

From S2P Require Import Prelude PyValue Unicode Utf8 JsonEncode JsonDecode JsonRoundTrip Reencode PushApi Handler.
From stdpp Require Import gmap.

Local Open Scope Z_scope.

(** ** The spec's example, as witness data *)

Definition example_domain : list Z := cps "abc123.execute-api.us-east-1.amazonaws.com".
Definition example_stage : list Z := cps "prod".
Definition example_conn : list Z := cps "conn-XYZ".

(** The event of section 8 with a given body (or none). *)
Definition example_event (body : option pyval) : pyval :=
  PDict ([(cps "requestContext",
           PDict [(cps "domainName", PStr example_domain); (cps "stage", PStr example_stage);
                  (cps "connectionId", PStr example_conn)])] ++
         match body with Some b => [(cps "body", b)] | None => [] end).

(** [{"message":"hello"}]. *)
Definition hello_body : list Z := [123; 34] ++ cps "message" ++ [34; 58; 34] ++ cps "hello" ++ [34; 125].

(** A registry where the example connection is open and has received nothing. *)
Definition example_registry : registry :=
  {[ endpoint_url example_domain example_stage := {[ example_conn := [] ]} ]}.

Definition repr_zero (_ : list Z) : list Z := cps "0.0".
Definition repr_none (_ : pyval) : list Z := [].

Lemma repr_zero_printable lx : Forall printable (repr_zero lx).
Proof. unfold repr_zero. auto with printable. Qed.

(** [repr(0.0)] is a JSON number lexeme. *)
Lemma repr_zero_lexeme lx : float_lexeme (repr_zero lx).
Proof.
  exists [48], [46; 48], []. split_and!; [reflexivity | | | left; reflexivity | left; discriminate].
  - exists [], 48, []. split_and!; [reflexivity | left | left]; done.
  - right. exists 48, []. split; [reflexivity | repeat constructor].
Qed.

(** The envelope [{"message": msg}] round-trips when [msg] does. *)
Lemma rt_val_message float_repr msg :
  rt_val float_repr msg = true -> rt_val float_repr (PDict [(cps "message", msg)]) = true.
Proof.
  intros Hm. cbn [rt_val forallb fst snd]. rewrite Hm.
  rewrite bool_decide_eq_true_2 by (cbn; apply NoDup_singleton). vm_compute. reflexivity.
Qed.

(** ** Delivery *)

(** C1: when the event has its request context, its body decodes to a
    value with a message, the client for [https://{domainName}/{stage}] is
    created and the connection is open there, the handler returns status
    200 after delivering exactly the UTF-8 JSON text of
    [{"message": message}] (printable ASCII) to that connection, and no
    other connection's deliveries change. *)
Theorem lambda_handler_delivers {St} `{PushApiLaws St} float_repr repr_container
    dec_depth enc_depth ev d s cid msg text c (st : St) :
  (forall lx, Forall printable (float_repr lx)) ->
  request_context ev d s (PStr cid) -> body_message dec_depth ev msg ->
  make_client (cps "apigatewaymanagementapi") (endpoint_url d s) = Ok c ->
  dumps float_repr enc_depth (PDict [(cps "message", msg)]) = Ok text ->
  is_open st (endpoint_url d s) cid -> cid <> [] ->
  Forall printable text /\
  exists st',
    lambda_handler float_repr repr_container dec_depth enc_depth ev st = (Ok status_200, st') /\
    delivered st' (endpoint_url d s) cid = delivered st (endpoint_url d s) cid ++ [text] /\
    (forall ep cid', (ep, cid') <> (endpoint_url d s, cid) ->
       delivered st' ep cid' = delivered st ep cid').
Proof.
  intros Hfr Hrc Hb Hc Ht Hopen Hne. split; [eapply dumps_printable; eauto|].
  eapply lambda_handler_post_open; eauto.
Qed.

Lemma lambda_handler_delivers_witness :
  Forall printable ([123; 34] ++ cps "message" ++ [34; 58; 32; 34] ++ cps "hello" ++ [34; 125]) /\
  exists st',
    lambda_handler repr_zero repr_none 100 100 (example_event (Some (PStr hello_body)))
      example_registry = (Ok status_200, st') /\
    gw_delivered st' (endpoint_url example_domain example_stage) example_conn =
      gw_delivered example_registry (endpoint_url example_domain example_stage) example_conn
      ++ [[123; 34] ++ cps "message" ++ [34; 58; 32; 34] ++ cps "hello" ++ [34; 125]] /\
    (forall ep cid', (ep, cid') <> (endpoint_url example_domain example_stage, example_conn) ->
       gw_delivered st' ep cid' = gw_delivered example_registry ep cid').
Proof.
  apply (@lambda_handler_delivers registry Gateway GatewayLaws repr_zero repr_none 100 100
    (example_event (Some (PStr hello_body))) example_domain example_stage example_conn
    (PStr (cps "hello")) _ {| gw_service := cps "apigatewaymanagementapi";
                              gw_endpoint := endpoint_url example_domain example_stage |}).
  - exact repr_zero_printable.
  - eexists. split_and!; reflexivity.
  - exists (PStr hello_body), (PDict [(cps "message", PStr (cps "hello"))]).
    split_and!; vm_compute; reflexivity.
  - vm_compute. reflexivity.
  - vm_compute. reflexivity.
  - exists {[example_conn := []]}, []. split; vm_compute; reflexivity.
  - discriminate.
Defined.

(** C2: the message comes back: under the hypotheses of C1, and when the
    message round-trips through JSON (Unicode text, distinct dict keys,
    floats written as their own [repr]), the receiver of the payload
    appended to the connection reads it as UTF-8 ([utf8_decode]) and then
    with [json.loads], with a recursion budget at least the encoder's, and
    gets [{"message": message}]. *)
Theorem lambda_handler_echo {St} `{PushApiLaws St} (float_repr : list Z -> list Z)
    (repr_container : pyval -> list Z) (dec_depth enc_depth dd : nat) (ev : pyval)
    (d s cid : list Z) (msg : pyval) (text : list Z) (c : client St) (st : St) :
  (forall lx, float_lexeme (float_repr lx)) ->
  request_context ev d s (PStr cid) -> body_message dec_depth ev msg ->
  rt_val float_repr msg = true ->
  make_client (cps "apigatewaymanagementapi") (endpoint_url d s) = Ok c ->
  dumps float_repr enc_depth (PDict [(cps "message", msg)]) = Ok text ->
  is_open st (endpoint_url d s) cid -> cid <> [] -> (enc_depth <= dd)%nat ->
  exists st' payload,
    lambda_handler float_repr repr_container dec_depth enc_depth ev st = (Ok status_200, st') /\
    delivered st' (endpoint_url d s) cid = delivered st (endpoint_url d s) cid ++ [payload] /\
    exists received, utf8_decode payload = Some received /\
      loads_str dd received = Ok (PDict [(cps "message", msg)]).
Proof.
  intros Hfl Hrc Hb Hm Hc Ht Hopen Hne Hd.
  pose proof (fun lx => float_lexeme_printable _ (Hfl lx)) as Hfr.
  destruct (lambda_handler_post_open float_repr repr_container dec_depth enc_depth Hfr
              ev d s cid msg text c st Hrc Hb Hc Ht Hopen Hne) as (st' & Hrun & Hdel & _).
  exists st', text. split_and!; [done | done |]. exists text. split.
  - apply utf8_decode_ascii. eapply Forall_impl; [exact (dumps_printable _ Hfr _ _ _ Ht)|].
    intros x Hx. by apply printable_ascii.
  - exact (loads_str_encode_obj float_repr _ text enc_depth dd Hfl (rt_val_message _ _ Hm) Ht Hd).
Qed.

Lemma lambda_handler_echo_witness :
  exists st' payload,
    lambda_handler repr_zero repr_none 100 100 (example_event (Some (PStr hello_body)))
      example_registry = (Ok status_200, st') /\
    gw_delivered st' (endpoint_url example_domain example_stage) example_conn =
      gw_delivered example_registry (endpoint_url example_domain example_stage) example_conn
      ++ [payload] /\
    exists received, utf8_decode payload = Some received /\
      loads_str 100 received = Ok (PDict [(cps "message", PStr (cps "hello"))]).
Proof.
  apply (@lambda_handler_echo registry Gateway GatewayLaws repr_zero repr_none 100 100 100
    (example_event (Some (PStr hello_body))) example_domain example_stage example_conn
    (PStr (cps "hello")) ([123; 34] ++ cps "message" ++ [34; 58; 32; 34] ++ cps "hello" ++ [34; 125])
    {| gw_service := cps "apigatewaymanagementapi";
       gw_endpoint := endpoint_url example_domain example_stage |}).
  - exact repr_zero_lexeme.
  - eexists. split_and!; reflexivity.
  - exists (PStr hello_body), (PDict [(cps "message", PStr (cps "hello"))]).
    split_and!; vm_compute; reflexivity.
  - vm_compute. reflexivity.
  - vm_compute. reflexivity.
  - vm_compute. reflexivity.
  - exists {[example_conn := []]}, []. split; vm_compute; reflexivity.
  - discriminate.
  - lia.
Defined.

(** C3: in the reference model, a run that returns normally returns
    status 200 and has appended exactly one payload, of printable ASCII,
    to exactly one connection; every other connection's deliveries are as
    they were. *)
Theorem lambda_handler_single_delivery (float_repr : list Z -> list Z)
    (repr_container : pyval -> list Z) (dec_depth enc_depth : nat) (ev : pyval) (st st' : registry) (r : pyval) :
  (forall lx, Forall printable (float_repr lx)) ->
  lambda_handler float_repr repr_container dec_depth enc_depth ev st = (Ok r, st') ->
  r = status_200 /\
  exists ep cid data, Forall printable data /\
    gw_delivered st' ep cid = gw_delivered st ep cid ++ [data] /\
    (forall ep' cid', (ep', cid') <> (ep, cid) -> gw_delivered st' ep' cid' = gw_delivered st ep' cid').
Proof.
  intros Hfr Hrun.
  destruct (lambda_handler_inv (St := registry) _ repr_container dec_depth enc_depth Hfr _ _ _ _ Hrun)
    as [[_ [e ?]]|(c & text & cid & r0 & Hpr & Hp & Hr)]; [discriminate|].
  destruct r0 as [resp|e]; [|discriminate]. injection Hr as ->. split; [done|].
  apply gw_post_Ok_inv in Hp as (id & conns & msgs & -> & Hst & Hc & ->).
  exists (gw_endpoint c), id, text. split_and!; [done| |].
  - rewrite gw_delivered_insert, decide_True by done. unfold gw_delivered. by rewrite Hst, Hc.
  - intros ep' cid' Hne. rewrite gw_delivered_insert by done. by rewrite decide_False.
Qed.

(** The example run. *)
Definition example_run : pyres pyval * registry :=
  lambda_handler repr_zero repr_none 100 100 (example_event (Some (PStr hello_body)))
    example_registry.

Lemma example_run_ok : example_run = (Ok status_200, snd example_run).
Proof.
  assert (Hfst : fst example_run = Ok status_200) by (vm_compute; reflexivity).
  rewrite <- Hfst. apply surjective_pairing.
Qed.

Lemma lambda_handler_single_delivery_witness :
  Forall printable (repr_zero []) /\
  lambda_handler repr_zero repr_none 100 100 (example_event (Some (PStr hello_body)))
    example_registry = (Ok status_200, snd example_run) /\
  (status_200 = status_200 /\
   exists ep cid data, Forall printable data /\
     gw_delivered (snd example_run) ep cid = gw_delivered example_registry ep cid ++ [data] /\
     (forall ep' cid', (ep', cid') <> (ep, cid) ->
        gw_delivered (snd example_run) ep' cid' = gw_delivered example_registry ep' cid')).
Proof.
  split; [apply repr_zero_printable|]. split; [exact example_run_ok|].
  exact (lambda_handler_single_delivery repr_zero repr_none 100 100 _ _ _ _
           repr_zero_printable example_run_ok).
Defined.

(** C4: in the reference model, a run that raises leaves the registry as
    it was: every step before the post is pure, and a post that fails
    changes nothing. *)
Theorem lambda_handler_error_atomic (float_repr : list Z -> list Z)
    (repr_container : pyval -> list Z) (dec_depth enc_depth : nat) (ev : pyval) (st st' : registry) (e : exn) :
  (forall lx, Forall printable (float_repr lx)) ->
  lambda_handler float_repr repr_container dec_depth enc_depth ev st = (Err e, st') ->
  st' = st.
Proof.
  intros Hfr Hrun.
  destruct (lambda_handler_inv (St := registry) _ repr_container dec_depth enc_depth Hfr _ _ _ _ Hrun)
    as [[-> _]|(c & text & cid & r0 & _ & Hp & Hr)]; [done|].
  destruct r0 as [resp|e0]; [discriminate|]. by apply gw_post_Err_state in Hp.
Qed.

(** The example run with a body that is not JSON. *)
Definition example_bad_run : pyres pyval * registry :=
  lambda_handler repr_zero repr_none 100 100 (example_event (Some (PStr (cps "not json"))))
    example_registry.

Lemma example_bad_run_err :
  example_bad_run = (Err (JSONDecodeError ExpectingValue 0), snd example_bad_run).
Proof.
  assert (Hfst : fst example_bad_run = Err (JSONDecodeError ExpectingValue 0))
    by (vm_compute; reflexivity).
  rewrite <- Hfst. apply surjective_pairing.
Qed.

Lemma lambda_handler_error_atomic_witness :
  Forall printable (repr_zero []) /\
  lambda_handler repr_zero repr_none 100 100 (example_event (Some (PStr (cps "not json"))))
    example_registry = (Err (JSONDecodeError ExpectingValue 0), snd example_bad_run) /\
  snd example_bad_run = example_registry.
Proof.
  split; [apply repr_zero_printable|]. split; [exact example_bad_run_err|].
  exact (lambda_handler_error_atomic repr_zero repr_none 100 100 _ _ _ _
           repr_zero_printable example_bad_run_err).
Defined.

(** C5: once the body has been parsed as an object, the handler cannot
    fail before the post: with an encoder recursion budget at least the
    decoder's, [json.dumps] of the envelope succeeds (every integer the
    decoder accepts is within [int.__repr__]'s digit limit, and the
    nesting fits), its ASCII text encodes to itself, and the handler's
    outcome is exactly the outcome of the post. *)
Theorem lambda_handler_reaches_post {St} `{PushApiLaws St} (float_repr : list Z -> list Z)
    (repr_container : pyval -> list Z) (dec_depth enc_depth : nat) (ev : pyval)
    (d s : list Z) (cid : pyval) (c : client St) (b : pyval) (bd : list (list Z * pyval)) (st : St) :
  (forall lx, Forall printable (float_repr lx)) -> (dec_depth <= enc_depth)%nat ->
  request_context ev d s cid ->
  make_client (cps "apigatewaymanagementapi") (endpoint_url d s) = Ok c ->
  dict_get ev (cps "body") (PStr (cps "{}")) = Ok b ->
  loads dec_depth b = Ok (PDict bd) ->
  exists text,
    dumps float_repr enc_depth
      (PDict [(cps "message", default (PStr []) (dict_lookup bd (cps "message")))]) = Ok text /\
    lambda_handler float_repr repr_container dec_depth enc_depth ev st =
      match post_to_connection c text cid st with
      | (Ok _, st') => (Ok status_200, st')
      | (Err e, st') => (Err e, st')
      end.
Proof.
  intros Hfr Hd Hrc Hc Hb Hl.
  assert (Hm : dict_get (PDict bd) (cps "message") (PStr []) =
                 Ok (default (PStr []) (dict_lookup bd (cps "message"))))
    by (simpl; by destruct (dict_lookup bd _)).
  destruct (envelope_encodes _ _ _ _ _ Hl Hm Hd float_repr) as [text Ht].
  exists text. split; [done|].
  apply (lambda_handler_post _ _ _ _ Hfr ev d s cid
    (default (PStr []) (dict_lookup bd (cps "message"))) text c st);
    [done | by exists b, (PDict bd) | done | done].
Qed.

(** [{"message": [1, {"a": null}]}]. *)
Definition nested_body : list Z :=
  [123; 34] ++ cps "message" ++ [34; 58; 32; 91; 49; 44; 32; 123; 34; 97; 34; 58; 32] ++
  cps "null" ++ [125; 93; 125].

Lemma lambda_handler_reaches_post_witness :
  exists text,
    dumps repr_zero 10
      (PDict [(cps "message", PList [PInt 1; PDict [(cps "a", PNone)]])]) = Ok text /\
    lambda_handler repr_zero repr_none 10 10 (example_event (Some (PStr nested_body)))
      example_registry =
      match gw_post {| gw_service := cps "apigatewaymanagementapi";
                       gw_endpoint := endpoint_url example_domain example_stage |}
              text (PStr example_conn) example_registry with
      | (Ok _, st') => (Ok status_200, st')
      | (Err e, st') => (Err e, st')
      end.
Proof.
  apply (@lambda_handler_reaches_post registry Gateway GatewayLaws repr_zero repr_none 10 10
    (example_event (Some (PStr nested_body))) example_domain example_stage (PStr example_conn)
    {| gw_service := cps "apigatewaymanagementapi";
       gw_endpoint := endpoint_url example_domain example_stage |} (PStr nested_body)
    [(cps "message", PList [PInt 1; PDict [(cps "a", PNone)]])] example_registry).
  - exact repr_zero_printable.
  - lia.
  - eexists. split_and!; reflexivity.
  - vm_compute. reflexivity.
  - vm_compute. reflexivity.
  - vm_compute. reflexivity.
Defined.

(** ** Defaults *)

(** C20: an event without a ["body"] key is handled as the body ["{}"]:
    the connection receives the object mapping ["message"] to the empty
    string. *)
Theorem lambda_handler_no_body {St} `{PushApiLaws St} (float_repr : list Z -> list Z)
    (repr_container : pyval -> list Z) (dec_depth enc_depth : nat)
    (evd : list (list Z * pyval)) (d s cid : list Z) (c : client St) (st : St) :
  (forall lx, Forall printable (float_repr lx)) ->
  (0 < dec_depth)%nat -> (0 < enc_depth)%nat ->
  request_context (PDict evd) d s (PStr cid) -> dict_lookup evd (cps "body") = None ->
  make_client (cps "apigatewaymanagementapi") (endpoint_url d s) = Ok c ->
  is_open st (endpoint_url d s) cid -> cid <> [] ->
  exists st',
    lambda_handler float_repr repr_container dec_depth enc_depth (PDict evd) st = (Ok status_200, st') /\
    delivered st' (endpoint_url d s) cid = delivered st (endpoint_url d s) cid ++ [empty_message_payload].
Proof.
  intros Hfr Hdd Hed Hrc Hnb Hc Hopen Hne.
  destruct (lambda_handler_post_open float_repr repr_container dec_depth enc_depth Hfr
              (PDict evd) d s cid (PStr []) empty_message_payload c st)
    as (st' & Hrun & Hd & _); eauto using dumps_empty_message.
  apply (body_message_default _ _ (PStr (cps "{}")) []); [by simpl; rewrite Hnb | | done].
  destruct dec_depth; [lia | reflexivity].
Qed.

Lemma lambda_handler_no_body_witness :
  exists st',
    lambda_handler repr_zero repr_none 100 100 (example_event None) example_registry =
      (Ok status_200, st') /\
    gw_delivered st' (endpoint_url example_domain example_stage) example_conn =
      gw_delivered example_registry (endpoint_url example_domain example_stage) example_conn
      ++ [empty_message_payload].
Proof.
  apply (@lambda_handler_no_body registry Gateway GatewayLaws repr_zero repr_none 100 100 _
    example_domain example_stage example_conn
    {| gw_service := cps "apigatewaymanagementapi";
       gw_endpoint := endpoint_url example_domain example_stage |}).
  - exact repr_zero_printable.
  - lia.
  - lia.
  - exists (PDict [(cps "domainName", PStr example_domain); (cps "stage", PStr example_stage);
                   (cps "connectionId", PStr example_conn)]).
    split_and!; vm_compute; reflexivity.
  - vm_compute. reflexivity.
  - vm_compute. reflexivity.
  - exists {[example_conn := []]}, []. split; vm_compute; reflexivity.
  - discriminate.
Defined.

(** C21: a body that is an object without ["message"] is handled as the
    empty message: the connection receives the object mapping ["message"]
    to the empty string. *)
Theorem lambda_handler_no_message {St} `{PushApiLaws St} (float_repr : list Z -> list Z)
    (repr_container : pyval -> list Z) (dec_depth enc_depth : nat)
    (ev b : pyval) (bd : list (list Z * pyval)) (d s cid : list Z) (c : client St) (st : St) :
  (forall lx, Forall printable (float_repr lx)) -> (0 < enc_depth)%nat ->
  request_context ev d s (PStr cid) ->
  dict_get ev (cps "body") (PStr (cps "{}")) = Ok b -> loads dec_depth b = Ok (PDict bd) ->
  dict_lookup bd (cps "message") = None ->
  make_client (cps "apigatewaymanagementapi") (endpoint_url d s) = Ok c ->
  is_open st (endpoint_url d s) cid -> cid <> [] ->
  exists st',
    lambda_handler float_repr repr_container dec_depth enc_depth ev st = (Ok status_200, st') /\
    delivered st' (endpoint_url d s) cid = delivered st (endpoint_url d s) cid ++ [empty_message_payload].
Proof.
  intros Hfr Hed Hrc Hb Hl Hm Hc Hopen Hne.
  destruct (lambda_handler_post_open float_repr repr_container dec_depth enc_depth Hfr
              ev d s cid (PStr []) empty_message_payload c st)
    as (st' & Hrun & Hd & _); eauto using dumps_empty_message, body_message_default.
Qed.

Lemma lambda_handler_no_message_witness :
  exists st',
    lambda_handler repr_zero repr_none 100 100 (example_event (Some (PStr (cps "{}"))))
      example_registry = (Ok status_200, st') /\
    gw_delivered st' (endpoint_url example_domain example_stage) example_conn =
      gw_delivered example_registry (endpoint_url example_domain example_stage) example_conn
      ++ [empty_message_payload].
Proof.
  apply (@lambda_handler_no_message registry Gateway GatewayLaws repr_zero repr_none 100 100
    _ (PStr (cps "{}")) [] example_domain example_stage example_conn
    {| gw_service := cps "apigatewaymanagementapi";
       gw_endpoint := endpoint_url example_domain example_stage |}).
  - exact repr_zero_printable.
  - lia.
  - exists (PDict [(cps "domainName", PStr example_domain); (cps "stage", PStr example_stage);
                   (cps "connectionId", PStr example_conn)]).
    split_and!; vm_compute; reflexivity.
  - vm_compute. reflexivity.
  - vm_compute. reflexivity.
  - reflexivity.
  - vm_compute. reflexivity.
  - exists {[example_conn := []]}, []. split; vm_compute; reflexivity.
  - discriminate.
Defined.

(** ** Error paths *)

(** C22: when the body is not valid JSON, the handler raises what
    [json.loads] raises, after creating the client and before any post:
    the platform state is unchanged. *)
Theorem lambda_handler_malformed_body {St} `{PushApi St} (float_repr : list Z -> list Z)
    (repr_container : pyval -> list Z) (dec_depth enc_depth : nat)
    (ev b : pyval) (d s : list Z) (cid : pyval) (c : client St) (e : exn) (st : St) :
  request_context ev d s cid ->
  make_client (cps "apigatewaymanagementapi") (endpoint_url d s) = Ok c ->
  dict_get ev (cps "body") (PStr (cps "{}")) = Ok b -> loads dec_depth b = Err e ->
  lambda_handler float_repr repr_container dec_depth enc_depth ev st = (Err e, st).
Proof.
  intros (rc & Hrc & Hd & Hs & Hcid) Hc Hb Hl.
  unfold lambda_handler, st_bind, st_lift.
  by rewrite Hrc, Hd, Hs, endpoint_url_of_str, Hc, Hcid, Hb, Hl.
Qed.

Lemma lambda_handler_malformed_body_witness :
  lambda_handler repr_zero repr_none 100 100 (example_event (Some (PStr (cps "not json"))))
    example_registry = (Err (JSONDecodeError ExpectingValue 0), example_registry).
Proof.
  apply (@lambda_handler_malformed_body registry Gateway repr_zero repr_none 100 100 _
    (PStr (cps "not json")) example_domain example_stage (PStr example_conn)
    {| gw_service := cps "apigatewaymanagementapi";
       gw_endpoint := endpoint_url example_domain example_stage |}).
  - exists (PDict [(cps "domainName", PStr example_domain); (cps "stage", PStr example_stage);
                   (cps "connectionId", PStr example_conn)]).
    split_and!; vm_compute; reflexivity.
  - vm_compute. reflexivity.
  - vm_compute. reflexivity.
  - vm_compute. reflexivity.
Defined.

(** C23: when the body is valid JSON but not an object (an array, a
    string, a number, [null], ...), [body.get] raises [AttributeError] and
    nothing is posted. *)
Theorem lambda_handler_body_not_object {St} `{PushApi St} (float_repr : list Z -> list Z)
    (repr_container : pyval -> list Z) (dec_depth enc_depth : nat)
    (ev b body : pyval) (d s : list Z) (cid : pyval) (c : client St) (st : St) :
  request_context ev d s cid ->
  make_client (cps "apigatewaymanagementapi") (endpoint_url d s) = Ok c ->
  dict_get ev (cps "body") (PStr (cps "{}")) = Ok b -> loads dec_depth b = Ok body ->
  type_of body <> TDict ->
  lambda_handler float_repr repr_container dec_depth enc_depth ev st =
    (Err (AttributeError (type_of body) (cps "get")), st).
Proof.
  intros (rc & Hrc & Hd & Hs & Hcid) Hc Hb Hl Ht.
  unfold lambda_handler, st_bind, st_lift.
  rewrite Hrc, Hd, Hs, endpoint_url_of_str, Hc, Hcid, Hb, Hl. by destruct body.
Qed.

Lemma lambda_handler_body_not_object_witness :
  lambda_handler repr_zero repr_none 100 100 (example_event (Some (PStr (cps "[1, 2]"))))
    example_registry = (Err (AttributeError TList (cps "get")), example_registry).
Proof.
  apply (@lambda_handler_body_not_object registry Gateway repr_zero repr_none 100 100 _
    (PStr (cps "[1, 2]")) (PList [PInt 1; PInt 2]) example_domain example_stage (PStr example_conn)
    {| gw_service := cps "apigatewaymanagementapi";
       gw_endpoint := endpoint_url example_domain example_stage |}).
  - exists (PDict [(cps "domainName", PStr example_domain); (cps "stage", PStr example_stage);
                   (cps "connectionId", PStr example_conn)]).
    split_and!; vm_compute; reflexivity.
  - vm_compute. reflexivity.
  - vm_compute. reflexivity.
  - vm_compute. reflexivity.
  - discriminate.
Defined.

(** C24: a body that is present but not a [str] (JSON [null] in the
    invocation, for instance) makes [json.loads] raise [TypeError]. *)
Theorem lambda_handler_body_not_str {St} `{PushApi St} (float_repr : list Z -> list Z)
    (repr_container : pyval -> list Z) (dec_depth enc_depth : nat)
    (ev b : pyval) (d s : list Z) (cid : pyval) (c : client St) (st : St) :
  request_context ev d s cid ->
  make_client (cps "apigatewaymanagementapi") (endpoint_url d s) = Ok c ->
  dict_get ev (cps "body") (PStr (cps "{}")) = Ok b -> type_of b <> TStr ->
  lambda_handler float_repr repr_container dec_depth enc_depth ev st =
    (Err (TypeError (JsonInputType (type_of b))), st).
Proof.
  intros (rc & Hrc & Hd & Hs & Hcid) Hc Hb Ht.
  unfold lambda_handler, st_bind, st_lift.
  rewrite Hrc, Hd, Hs, endpoint_url_of_str, Hc, Hcid, Hb. by destruct b.
Qed.

Lemma lambda_handler_body_not_str_witness :
  lambda_handler repr_zero repr_none 100 100 (example_event (Some PNone))
    example_registry = (Err (TypeError (JsonInputType TNone)), example_registry).
Proof.
  apply (@lambda_handler_body_not_str registry Gateway repr_zero repr_none 100 100 _
    PNone example_domain example_stage (PStr example_conn)
    {| gw_service := cps "apigatewaymanagementapi";
       gw_endpoint := endpoint_url example_domain example_stage |}).
  - exists (PDict [(cps "domainName", PStr example_domain); (cps "stage", PStr example_stage);
                   (cps "connectionId", PStr example_conn)]).
    split_and!; vm_compute; reflexivity.
  - vm_compute. reflexivity.
  - vm_compute. reflexivity.
  - discriminate.
Defined.

(** C25: when the connection is not open where the client points, the post
    fails and the handler raises that error with the platform state
    unchanged. *)
Theorem lambda_handler_gone {St} `{PushApiLaws St} (float_repr : list Z -> list Z)
    (repr_container : pyval -> list Z) (dec_depth enc_depth : nat)
    (ev msg : pyval) (d s cid text : list Z) (c : client St) (st : St) :
  (forall lx, Forall printable (float_repr lx)) ->
  request_context ev d s (PStr cid) -> body_message dec_depth ev msg ->
  make_client (cps "apigatewaymanagementapi") (endpoint_url d s) = Ok c ->
  dumps float_repr enc_depth (PDict [(cps "message", msg)]) = Ok text ->
  ~ is_open st (endpoint_url d s) cid -> cid <> [] ->
  exists e, lambda_handler float_repr repr_container dec_depth enc_depth ev st = (Err e, st).
Proof.
  intros Hfr Hrc Hb Hc Ht Hclosed Hne.
  pose proof (make_client_endpoint _ _ _ Hc) as He. rewrite <- He in Hclosed.
  destruct (post_closed c text cid st Hclosed Hne) as [e Hp].
  exists e. erewrite lambda_handler_post by eauto. by rewrite Hp.
Qed.

(** The example endpoint with no open connection. *)
Definition gone_registry : registry := {[ endpoint_url example_domain example_stage := ∅ ]}.

Lemma lambda_handler_gone_witness :
  exists e,
    lambda_handler repr_zero repr_none 100 100 (example_event (Some (PStr hello_body)))
      gone_registry = (Err e, gone_registry).
Proof.
  apply (@lambda_handler_gone registry Gateway GatewayLaws repr_zero repr_none 100 100
    _ (PStr (cps "hello")) example_domain example_stage example_conn
    ([123; 34] ++ cps "message" ++ [34; 58; 32; 34] ++ cps "hello" ++ [34; 125])
    {| gw_service := cps "apigatewaymanagementapi";
       gw_endpoint := endpoint_url example_domain example_stage |}).
  - exact repr_zero_printable.
  - exists (PDict [(cps "domainName", PStr example_domain); (cps "stage", PStr example_stage);
                   (cps "connectionId", PStr example_conn)]).
    split_and!; vm_compute; reflexivity.
  - exists (PStr hello_body), (PDict [(cps "message", PStr (cps "hello"))]).
    split_and!; vm_compute; reflexivity.
  - vm_compute. reflexivity.
  - vm_compute. reflexivity.
  - intros (cs & m & H1 & H2). vm_compute in H1. injection H1 as <-.
    vm_compute in H2. discriminate.
  - discriminate.
Defined.

(** C26: the connection id is read after the client is created and before
    the body is parsed: a request context without ["connectionId"] raises
    [KeyError('connectionId')] whatever the body is, and nothing is
    posted. *)
Theorem lambda_handler_missing_connection_id {St} `{PushApi St} (float_repr : list Z -> list Z)
    (repr_container : pyval -> list Z) (dec_depth enc_depth : nat)
    (ev : pyval) (rcd : list (list Z * pyval)) (d s : list Z) (c : client St) (st : St) :
  getitem ev (cps "requestContext") = Ok (PDict rcd) ->
  dict_lookup rcd (cps "domainName") = Some (PStr d) ->
  dict_lookup rcd (cps "stage") = Some (PStr s) ->
  dict_lookup rcd (cps "connectionId") = None ->
  make_client (cps "apigatewaymanagementapi") (endpoint_url d s) = Ok c ->
  lambda_handler float_repr repr_container dec_depth enc_depth ev st =
    (Err (KeyError (cps "connectionId")), st).
Proof.
  intros Hrc Hd Hs Hcid Hc. unfold lambda_handler, st_bind, st_lift. rewrite Hrc.
  simpl getitem. rewrite Hd, Hs, endpoint_url_of_str, Hc, Hcid. reflexivity.
Qed.

Lemma lambda_handler_missing_connection_id_witness :
  lambda_handler repr_zero repr_none 100 100
    (PDict [(cps "requestContext",
             PDict [(cps "domainName", PStr example_domain); (cps "stage", PStr example_stage)]);
            (cps "body", PStr (cps "not json"))]) example_registry =
    (Err (KeyError (cps "connectionId")), example_registry).
Proof.
  apply (@lambda_handler_missing_connection_id registry Gateway repr_zero repr_none 100 100 _
    [(cps "domainName", PStr example_domain); (cps "stage", PStr example_stage)]
    example_domain example_stage
    {| gw_service := cps "apigatewaymanagementapi";
       gw_endpoint := endpoint_url example_domain example_stage |});
    vm_compute; reflexivity.
Defined.

(** ** The payload *)

(** C27: the payload is [{"message": ] followed by [json.dumps] of the
    message value, whatever its type, and [}]: a message that is not a
    string is sent as its JSON text (a number as digits, [NaN] as [NaN]),
    not as a string. *)
Theorem lambda_handler_payload_shape {St} `{PushApiLaws St} (float_repr : list Z -> list Z)
    (repr_container : pyval -> list Z) (dec_depth enc_depth : nat)
    (ev msg : pyval) (d s cid t : list Z) (c : client St) (st : St) :
  (forall lx, Forall printable (float_repr lx)) ->
  request_context ev d s (PStr cid) -> body_message dec_depth ev msg ->
  make_client (cps "apigatewaymanagementapi") (endpoint_url d s) = Ok c ->
  encode_obj float_repr enc_depth msg = Ok t ->
  is_open st (endpoint_url d s) cid -> cid <> [] ->
  exists st',
    lambda_handler float_repr repr_container dec_depth (S enc_depth) ev st = (Ok status_200, st') /\
    delivered st' (endpoint_url d s) cid =
      delivered st (endpoint_url d s) cid ++
        [[123] ++ encode_basestring_ascii (cps "message") ++ key_separator ++ t ++ [125]].
Proof.
  intros Hfr Hrc Hb Hc Ht Hopen Hne.
  destruct (lambda_handler_post_open float_repr repr_container dec_depth (S enc_depth) Hfr
              ev d s cid msg ([123] ++ encode_basestring_ascii (cps "message") ++ key_separator
                              ++ t ++ [125]) c st)
    as (st' & Hrun & Hd & _); eauto.
  simpl. rewrite Ht. reflexivity.
Qed.

Lemma lambda_handler_payload_shape_witness :
  exists st',
    lambda_handler repr_zero repr_none 100 101
      (example_event (Some (PStr ([123; 34] ++ cps "message" ++ [34; 58; 32] ++ cps "NaN" ++ [125]))))
      example_registry = (Ok status_200, st') /\
    gw_delivered st' (endpoint_url example_domain example_stage) example_conn =
      gw_delivered example_registry (endpoint_url example_domain example_stage) example_conn ++
        [[123] ++ encode_basestring_ascii (cps "message") ++ key_separator ++ cps "NaN" ++ [125]].
Proof.
  apply (@lambda_handler_payload_shape registry Gateway GatewayLaws repr_zero repr_none 100 100
    _ (PFloat FNaN) example_domain example_stage example_conn (cps "NaN")
    {| gw_service := cps "apigatewaymanagementapi";
       gw_endpoint := endpoint_url example_domain example_stage |}).
  - exact repr_zero_printable.
  - exists (PDict [(cps "domainName", PStr example_domain); (cps "stage", PStr example_stage);
                   (cps "connectionId", PStr example_conn)]).
    split_and!; vm_compute; reflexivity.
  - exists (PStr ([123; 34] ++ cps "message" ++ [34; 58; 32] ++ cps "NaN" ++ [125])),
      (PDict [(cps "message", PFloat FNaN)]).
    split_and!; vm_compute; reflexivity.
  - vm_compute. reflexivity.
  - vm_compute. reflexivity.
  - exists {[example_conn := []]}, []. split; vm_compute; reflexivity.
  - discriminate.
Defined.

(** C28: with an empty domain name the endpoint [https:///{stage}] has no
    host, so creating the client raises [ValueError('Invalid endpoint')]
    before the body is read or anything is posted. *)
Theorem lambda_handler_invalid_endpoint (float_repr : list Z -> list Z)
    (repr_container : pyval -> list Z) (dec_depth enc_depth : nat)
    (ev : pyval) (s : list Z) (cid : pyval) (st : registry) :
  request_context ev [] s cid ->
  lambda_handler float_repr repr_container dec_depth enc_depth ev st =
    (Err (ValueError (InvalidEndpoint (endpoint_url [] s))), st).
Proof.
  intros (rc & Hrc & Hd & Hs & Hcid). unfold lambda_handler, st_bind, st_lift.
  assert (Hv : is_valid_endpoint_url (endpoint_url [] s) = false)
    by (unfold is_valid_endpoint_url; destruct (existsb _ _); reflexivity).
  rewrite Hrc, Hd, Hs, endpoint_url_of_str. cbn [make_client Gateway].
  unfold gw_make_client. rewrite Hv. reflexivity.
Qed.

Lemma lambda_handler_invalid_endpoint_witness :
  lambda_handler repr_zero repr_none 100 100
    (PDict [(cps "requestContext",
             PDict [(cps "domainName", PStr []); (cps "stage", PStr example_stage);
                    (cps "connectionId", PStr example_conn)])]) example_registry =
    (Err (ValueError (InvalidEndpoint (endpoint_url [] example_stage))), example_registry).
Proof.
  apply (lambda_handler_invalid_endpoint repr_zero repr_none 100 100 _ example_stage
           (PStr example_conn)).
  exists (PDict [(cps "domainName", PStr []); (cps "stage", PStr example_stage);
                 (cps "connectionId", PStr example_conn)]).
  split_and!; vm_compute; reflexivity.
Defined.
