(* ===== verification/Platform.v ===== *)
(** * The platform around the handler

    The handler is one of the operations the platform performs on its
    connection registry: API Gateway opens a connection when a client
    connects ([$connect]) and forgets it when the client disconnects
    ([$disconnect]); neither route is in [src/], so both are modelled from
    the spec (section 4.1: the handler neither creates nor destroys
    connections) as updates of the registry of [PushApi.Gateway].  Every
    invocation of [lambda_handler] is a third kind of step.  [pstep] is the
    step relation and [reachable] its reflexive-transitive closure from the
    empty registry.

    The results: every payload a connection has received in a reachable
    state is the JSON text of an envelope [{"message": m}] (an invariant,
    by induction on the steps); two invocations whose posts target
    different connections commute, and two from the same connection
    deliver in the order they run (the spec's section 5 says invocations
    are independent); after a disconnect, the handler raises
    [GoneException] for that connection (section 7). *)

From S2P Require Import Prelude PyValue Unicode JsonEncode JsonDecode PushApi Handler HandlerSpec.
From stdpp Require Import gmap.

Local Open Scope Z_scope.

(** ** Connection lifecycle *)

(** [$connect]: the connection is opened with nothing delivered, unless it
    is open already. *)
Definition gw_connect (st : registry) (ep cid : list Z) : registry :=
  let conns := default ∅ (st !! ep) in
  match conns !! cid with
  | Some _ => st
  | None => <[ep := <[cid := []]> conns]> st
  end.

(** [$disconnect]: the connection is forgotten with its deliveries. *)
Definition gw_disconnect (st : registry) (ep cid : list Z) : registry :=
  match st !! ep with
  | Some conns => <[ep := delete cid conns]> st
  | None => st
  end.

Section Platform.
Variable float_repr : list Z -> list Z.
Variable repr_container : pyval -> list Z.
Variable dec_depth enc_depth : nat.

(** A step of the platform: a client connects, a client disconnects, or
    the handler is invoked on an event. *)
Inductive pstep : registry -> registry -> Prop :=
| PConnect st ep cid : pstep st (gw_connect st ep cid)
| PDisconnect st ep cid : pstep st (gw_disconnect st ep cid)
| PInvoke st ev r st' :
    lambda_handler float_repr repr_container dec_depth enc_depth ev st = (r, st') -> pstep st st'.

(** The registries the platform can reach from the empty one. *)
Definition reachable (st : registry) : Prop := rtc pstep ∅ st.

(** [p] is the text [json.dumps] writes for some envelope. *)
Definition envelope_text (p : list Z) : Prop :=
  exists m, dumps float_repr enc_depth (PDict [(cps "message", m)]) = Ok p.

(** Every payload delivered in [st] is an envelope's text. *)
Definition payloads_ok (st : registry) : Prop :=
  forall ep cid p, p ∈ gw_delivered st ep cid -> envelope_text p.

(** The connection an invocation posts to, if it gets that far. *)
Definition target (ev : pyval) : option (list Z * list Z) :=
  match prepare float_repr repr_container dec_depth enc_depth ev with
  | Ok (c, _, PStr id) => Some (gw_endpoint c, id)
  | _ => None
  end.

(** ** Lemmas *)

Lemma gw_delivered_set st ep cid msgs ep' cid' :
  gw_delivered (<[ep := <[cid := msgs]> (default ∅ (st !! ep))]> st) ep' cid' =
    if decide ((ep', cid') = (ep, cid)) then msgs else gw_delivered st ep' cid'.
Proof.
  unfold gw_delivered. destruct (decide (ep' = ep)) as [->|Hne].
  - rewrite lookup_insert_eq. destruct (decide (cid' = cid)) as [->|Hc].
    + by rewrite lookup_insert_eq, decide_True.
    + rewrite lookup_insert_ne by done. rewrite decide_False by congruence.
      by destruct (st !! ep).
  - rewrite lookup_insert_ne by done. by rewrite decide_False by congruence.
Qed.

Hypothesis float_repr_printable : forall lx, Forall printable (float_repr lx).

Lemma gw_delivered_disconnect st ep cid ep' cid' :
  gw_delivered (gw_disconnect st ep cid) ep' cid' =
    if decide ((ep', cid') = (ep, cid)) then [] else gw_delivered st ep' cid'.
Proof.
  unfold gw_disconnect, gw_delivered. destruct (st !! ep) as [conns|] eqn:E.
  - destruct (decide (ep' = ep)) as [->|Hne].
    + rewrite lookup_insert_eq, E. destruct (decide (cid' = cid)) as [->|Hc].
      * by rewrite lookup_delete_eq, decide_True.
      * rewrite lookup_delete_ne by done. by rewrite decide_False by congruence.
    + rewrite lookup_insert_ne by done. by rewrite decide_False by congruence.
  - case_decide as Hc; [|done]. injection Hc as -> ->. by rewrite E.
Qed.

Lemma invoke_effect ev st r st' :
  lambda_handler float_repr repr_container dec_depth enc_depth ev st = (r, st') ->
  st' = st \/
  exists c data id conns msgs,
    prepare float_repr repr_container dec_depth enc_depth ev = Ok (c, data, PStr id) /\
    st !! gw_endpoint c = Some conns /\ conns !! id = Some msgs /\
    st' = <[gw_endpoint c := <[id := msgs ++ [data]]> conns]> st.
Proof.
  rewrite lambda_handler_prepare.
  destruct (prepare _ _ _ _ ev) as [[[c data] cid]|e] eqn:Hp; [|intros [= _ <-]; by left].
  change (post_to_connection c data cid st) with (gw_post c data cid st).
  destruct (gw_post c data cid st) as [[resp|e] st1] eqn:Hg; intros [= _ <-].
  - apply gw_post_Ok_inv in Hg as (id & conns & msgs & -> & Hc & Hm & ->).
    right. eexists _, _, _, _, _. eauto.
  - apply gw_post_Err_state in Hg as ->. by left.
Qed.

Lemma pstep_payloads st st' : pstep st st' -> payloads_ok st -> payloads_ok st'.
Proof.
  intros Hs Hok ep' cid' p. destruct Hs as [st ep cid | st ep cid | st ev r st' Hrun].
  - unfold gw_connect. destruct (default ∅ (st !! ep) !! cid); [apply Hok|].
    rewrite gw_delivered_set. case_decide; [set_solver | apply Hok].
  - rewrite gw_delivered_disconnect. case_decide; [set_solver | apply Hok].
  - destruct (invoke_effect _ _ _ _ Hrun) as [-> | (c & data & id & conns & msgs & Hp & Hc & Hm & ->)];
      [apply Hok|].
    rewrite (gw_delivered_insert _ _ _ _ _ _ _ Hc). case_decide as Heq; [|apply Hok].
    injection Heq as -> ->. rewrite elem_of_app, list_elem_of_singleton.
    intros [Hin | ->].
    + apply (Hok (gw_endpoint c) id). unfold gw_delivered. by rewrite Hc, Hm.
    + destruct (prepare_Ok _ _ _ _ float_repr_printable _ _ _ _ Hp) as [m Hm']. by exists m.
Qed.

(** C6: in every state the platform can reach, every payload any
    connection has received is the JSON text of an envelope
    [{"message": m}]: connections start with nothing delivered, and the
    handler only ever appends the text of an envelope. *)
Theorem reachable_payloads st : reachable st -> payloads_ok st.
Proof.
  unfold reachable. intros Hr. apply (rtc_ind_r (R := pstep) payloads_ok ∅); [| | exact Hr].
  - intros ep cid p. unfold gw_delivered. rewrite lookup_empty. set_solver.
  - intros y z _ Hs IH. exact (pstep_payloads _ _ Hs IH).
Qed.

Lemma post_outcome (p : pyres pyval * registry) :
  match p with (Ok _, s) => (Ok status_200, s) | (Err e, s) => (Err e, s) end =
    (res_map (fun _ => status_200) p.1, p.2).
Proof. by destruct p as [[] ?]. Qed.

(** C7: two invocations whose posts target different connections commute:
    run in either order from the same registry, each returns the same
    result and the final registry is the same. *)
Theorem lambda_handler_commute ev1 ev2 st r1 st1 r2 st12 r2' st2 r1' st21 :
  (forall t1 t2, target ev1 = Some t1 -> target ev2 = Some t2 -> t1 <> t2) ->
  lambda_handler float_repr repr_container dec_depth enc_depth ev1 st = (r1, st1) ->
  lambda_handler float_repr repr_container dec_depth enc_depth ev2 st1 = (r2, st12) ->
  lambda_handler float_repr repr_container dec_depth enc_depth ev2 st = (r2', st2) ->
  lambda_handler float_repr repr_container dec_depth enc_depth ev1 st2 = (r1', st21) ->
  r1 = r1' /\ r2 = r2' /\ st12 = st21.
Proof.
  intros Ht. unfold target in Ht. rewrite !lambda_handler_prepare.
  change (@post_to_connection registry Gateway) with gw_post.
  destruct (prepare _ _ _ _ ev1) as [[[c1 d1] v1]|e1], (prepare _ _ _ _ ev2) as [[[c2 d2] v2]|e2];
    rewrite ?post_outcome; intros [= <- <-] [= <- <-] [= <- <-] [= <- <-]; [|done..].
  destruct (gw_post_commute c1 d1 v1 c2 d2 v2 st) as (H1 & H2 & H3).
  { intros id1 id2 -> ->. by apply Ht. }
  by rewrite H1, H2, H3.
Qed.

(** The invocation whose [target] is [(ep, cid)] posts to [cid] through a
    client bound to [ep]. *)
Lemma target_prepare ev ep cid :
  target ev = Some (ep, cid) ->
  exists c data, prepare float_repr repr_container dec_depth enc_depth ev = Ok (c, data, PStr cid) /\
    gw_endpoint c = ep.
Proof.
  unfold target. destruct (prepare _ _ _ _ ev) as [[[c data] [| | | |id| |]]|]; try discriminate.
  intros [= <- <-]. eauto.
Qed.

(** C8: once a client has disconnected, an invocation that would post to
    its connection raises [GoneException], and the registry stays as the
    disconnection left it. *)
Theorem disconnect_then_gone ev st ep cid :
  target ev = Some (ep, cid) -> cid <> [] -> is_Some (st !! ep) ->
  lambda_handler float_repr repr_container dec_depth enc_depth ev (gw_disconnect st ep cid) =
    (Err (ClientError (cps "GoneException")), gw_disconnect st ep cid).
Proof.
  intros Ht Hne [conns Hep]. destruct (target_prepare _ _ _ Ht) as (c & data & Hp & <-).
  rewrite lambda_handler_prepare, Hp.
  change (@post_to_connection registry Gateway) with gw_post.
  unfold gw_post, gw_disconnect. destruct cid as [|x id]; [done|].
  by rewrite Hep, lookup_insert_eq, lookup_delete_eq.
Qed.

(** C9: two invocations from the same open connection deliver in the order
    they run: each returns 200, and the connection's deliveries grow by
    the first invocation's bytes and then the second's. *)
Theorem lambda_handler_in_order ev1 ev2 st r1 st1 r2 st2 ep cid :
  target ev1 = Some (ep, cid) -> target ev2 = Some (ep, cid) ->
  gw_is_open st ep cid -> cid <> [] ->
  lambda_handler float_repr repr_container dec_depth enc_depth ev1 st = (r1, st1) ->
  lambda_handler float_repr repr_container dec_depth enc_depth ev2 st1 = (r2, st2) ->
  exists c1 d1 c2 d2,
    prepare float_repr repr_container dec_depth enc_depth ev1 = Ok (c1, d1, PStr cid) /\
    prepare float_repr repr_container dec_depth enc_depth ev2 = Ok (c2, d2, PStr cid) /\
    r1 = Ok status_200 /\ r2 = Ok status_200 /\
    gw_delivered st2 ep cid = gw_delivered st ep cid ++ [d1; d2].
Proof.
  intros Ht1 Ht2 Hopen Hne Hrun1 Hrun2.
  destruct (target_prepare _ _ _ Ht1) as (c1 & d1 & Hp1 & <-).
  destruct (target_prepare _ _ _ Ht2) as (c2 & d2 & Hp2 & He).
  rewrite lambda_handler_prepare, Hp1 in Hrun1. rewrite lambda_handler_prepare, Hp2 in Hrun2.
  change (@post_to_connection registry Gateway) with gw_post in Hrun1, Hrun2.
  destruct (gw_post_open_law c1 d1 cid st Hopen Hne) as (resp1 & st1' & Hg1 & Hd1 & _ & Ho1).
  rewrite Hg1 in Hrun1. injection Hrun1 as <- <-.
  rewrite <- He in Hopen |- *. apply Ho1 in Hopen.
  destruct (gw_post_open_law c2 d2 cid st1' Hopen Hne) as (resp2 & st2' & Hg2 & Hd2 & _ & _).
  rewrite Hg2 in Hrun2. injection Hrun2 as <- <-.
  exists c1, d1, c2, d2. split_and!; try done.
  rewrite Hd2, He, Hd1. by rewrite <- app_assoc.
Qed.
End Platform.

(** ** Witnesses *)

(** The spec's example event, for a given connection. *)
Definition event_to (cid : list Z) (body : pyval) : pyval :=
  PDict [(cps "requestContext",
          PDict [(cps "domainName", PStr example_domain); (cps "stage", PStr example_stage);
                 (cps "connectionId", PStr cid)]); (cps "body", body)].

(** A client connects, then sends [{"message":"hello"}]. *)
Definition hello_run : pyres pyval * registry :=
  lambda_handler repr_zero repr_none 100 100 (event_to example_conn (PStr hello_body))
    (gw_connect ∅ (endpoint_url example_domain example_stage) example_conn).

Lemma reachable_payloads_witness :
  reachable repr_zero repr_none 100 100 hello_run.2 /\ payloads_ok repr_zero 100 hello_run.2.
Proof.
  assert (Hr : reachable repr_zero repr_none 100 100 hello_run.2).
  { eapply rtc_l; [apply PConnect|]. eapply rtc_l; [|apply rtc_refl].
    apply (PInvoke _ _ _ _ _ (event_to example_conn (PStr hello_body)) hello_run.1).
    apply surjective_pairing. }
  split; [exact Hr|]. exact (reachable_payloads _ _ _ _ repr_zero_printable _ Hr).
Defined.

(** Two clients of the same endpoint, both connected. *)
Definition two_clients : registry :=
  {[ endpoint_url example_domain example_stage := {[ cps "conn-A" := []; cps "conn-B" := [] ]} ]}.

Definition run_on (ev : pyval) (st : registry) : pyres pyval * registry :=
  lambda_handler repr_zero repr_none 100 100 ev st.

Definition ev_a : pyval := event_to (cps "conn-A") (PStr hello_body).
Definition ev_b : pyval := event_to (cps "conn-B") (PStr hello_body).

Lemma lambda_handler_commute_witness :
  (forall t1 t2, target repr_zero repr_none 100 100 ev_a = Some t1 ->
     target repr_zero repr_none 100 100 ev_b = Some t2 -> t1 <> t2) /\
  (run_on ev_a two_clients).1 = (run_on ev_a (run_on ev_b two_clients).2).1 /\
  (run_on ev_b (run_on ev_a two_clients).2).1 = (run_on ev_b two_clients).1 /\
  (run_on ev_b (run_on ev_a two_clients).2).2 = (run_on ev_a (run_on ev_b two_clients).2).2.
Proof.
  assert (Ht : forall t1 t2, target repr_zero repr_none 100 100 ev_a = Some t1 ->
     target repr_zero repr_none 100 100 ev_b = Some t2 -> t1 <> t2).
  { intros t1 t2 H1 H2. vm_compute in H1, H2. injection H1 as <-. injection H2 as <-.
    vm_compute. discriminate. }
  split; [exact Ht|].
  exact (lambda_handler_commute _ _ _ _ ev_a ev_b two_clients _ _ _ _ _ _ _ _ Ht
           (surjective_pairing _) (surjective_pairing _) (surjective_pairing _) (surjective_pairing _)).
Defined.

(** A client connects and disconnects; then an event from it arrives. *)
Definition after_disconnect : registry :=
  gw_disconnect (gw_connect ∅ (endpoint_url example_domain example_stage) example_conn)
    (endpoint_url example_domain example_stage) example_conn.


Lemma disconnect_then_gone_witness :
  run_on (event_to example_conn (PStr hello_body)) after_disconnect =
    (Err (ClientError (cps "GoneException")), after_disconnect).
Proof.
  apply (disconnect_then_gone repr_zero repr_none 100 100 _
           (gw_connect ∅ (endpoint_url example_domain example_stage) example_conn)
           (endpoint_url example_domain example_stage) example_conn).
  - vm_compute. reflexivity.
  - discriminate.
  - vm_compute. eexists. reflexivity.
Defined.

Definition ev_a2 : pyval :=
  event_to (cps "conn-A") (PStr ([123; 34] ++ cps "message" ++ [34; 58; 34] ++ cps "again" ++ [34; 125])).

Lemma lambda_handler_in_order_witness :
  exists c1 d1 c2 d2,
    prepare repr_zero repr_none 100 100 ev_a = Ok (c1, d1, PStr (cps "conn-A")) /\
    prepare repr_zero repr_none 100 100 ev_a2 = Ok (c2, d2, PStr (cps "conn-A")) /\
    (run_on ev_a two_clients).1 = Ok status_200 /\
    (run_on ev_a2 (run_on ev_a two_clients).2).1 = Ok status_200 /\
    gw_delivered (run_on ev_a2 (run_on ev_a two_clients).2).2
      (endpoint_url example_domain example_stage) (cps "conn-A") =
    gw_delivered two_clients (endpoint_url example_domain example_stage) (cps "conn-A") ++ [d1; d2].
Proof.
  apply (lambda_handler_in_order repr_zero repr_none 100 100 ev_a ev_a2 two_clients
           (run_on ev_a two_clients).1 (run_on ev_a two_clients).2
           (run_on ev_a2 (run_on ev_a two_clients).2).1 (run_on ev_a2 (run_on ev_a two_clients).2).2
           (endpoint_url example_domain example_stage) (cps "conn-A")).
  - vm_compute. reflexivity.
  - vm_compute. reflexivity.
  - exists {[ cps "conn-A" := []; cps "conn-B" := [] ]}, []. split; vm_compute; reflexivity.
  - discriminate.
  - apply surjective_pairing.
  - apply surjective_pairing.
Defined.
