(* ===== verification/Retry.v ===== *)
(** * botocore's retries of [post_to_connection]

    The client of line 9 is created with botocore's default retry
    configuration, the "legacy" mode: the [needs-retry] handler built by
    [botocore.retryhandler.create_retry_handler] from the general policies
    of [botocore/data/_retry.json], with [max_attempts] 5 and an
    exponential delay of base ["rand"] and growth factor 2.  The call of
    lines 16-19 therefore sends the request of [HttpPost.post_request] up
    to five times: [Endpoint._send_request] loops while [_needs_retry]
    says so, sleeping [delay_exponential] seconds before each new attempt.

    What the network does to each attempt is an input: the list of
    [fault]s the state carries, one per attempt (an exhausted list carries
    every further request).  A request may fail to connect, reach the
    management API and lose its response, be answered by the front end
    with an error status without being handled, or be carried.  The
    registry is [PushApi]'s.

    The results: a post sends between one and five requests, sleeping at
    most 15 times [random.random()] seconds; over a network that carries
    every request it is [HttpPost.http_post]; to an open connection it
    delivers the payload between zero and five times, at least once when
    it returns; a lost response delivers it twice; and the handler
    returns status 200 whenever the network carries one of the first five
    requests after faults the checker retries. *)

From S2P Require Import Prelude PyValue Unicode Utf8 JsonEncode PushApi Handler HttpPost.
From stdpp Require Import gmap.
From Equations Require Import Equations.

Local Open Scope Z_scope.

(** ** The network and the outcome of one attempt *)

Inductive fault : Type :=
| Carried                             (** request and response get through *)
| ConnectFailed                       (** no connection: [EndpointConnectionError] *)
| ResponseLost                        (** handled, the read times out: [ReadTimeoutError] *)
| Rejected (status : Z) (code : list Z). (** an error response from the front end *)

(** What [_get_response] gives the checker: an HTTP status with the
    parsed response, or the exception it caught. *)
Inductive outcome : Type :=
| Response (status : Z) (r : pyres pyval)
| Caught (e : exn).

(** The [httpStatusCode] of the error shapes of
    [apigatewaymanagementapi]'s service model; other client errors are
    400. *)
Definition error_status (code : list Z) : Z :=
  if bool_decide (code = cps "GoneException") then 410
  else if bool_decide (code = cps "ForbiddenException") then 403
  else if bool_decide (code = cps "LimitExceededException") then 429
  else if bool_decide (code = cps "PayloadTooLargeException") then 413
  else 400.

(** The parsed answer of the management API as the checker sees it. *)
Definition to_outcome (r : pyres pyval) : outcome :=
  match r with
  | Ok v => Response 200 (Ok v)
  | Err (ClientError code) => Response (error_status code) r
  | Err e => Caught e
  end.

(** One attempt: [create_request] and [_get_response] of the request. *)
Definition http_attempt (f : fault) (req : http_request) (st : registry) : outcome * registry :=
  match f with
  | Carried => let '(r, st') := gw_serve req st in (to_outcome r, st')
  | ConnectFailed => (Caught (EndpointConnectionError (req_url req)), st)
  | ResponseLost => (Caught (ReadTimeoutError (req_url req)), (gw_serve req st).2)
  | Rejected s code => (Response s (Err (ClientError code)), st)
  end.

(** ** The checker: [_retry.json]'s general policies *)

Definition max_attempts : nat := 5.

(** The [service_error_code]s retried with status 400. *)
Definition throttling_codes : list (list Z) :=
  [cps "Throttling"; cps "ThrottlingException"; cps "ThrottledException";
   cps "RequestThrottledException"].

(** Any policy applies: [too_many_requests] (429), [general_server_error]
    (500), [bad_gateway] (502), [service_unavailable] (503),
    [gateway_timeout] (504), [limit_exceeded] (509), the throttling codes
    with 400, and [general_socket_errors] ([GENERAL_CONNECTION_ERROR]:
    [ConnectionError], [ReadTimeoutError] and the like). *)
Definition retryable (o : outcome) : bool :=
  match o with
  | Response s r =>
      bool_decide (s ∈ [429; 500; 502; 503; 504; 509]) ||
      (s =? 400) && match r with
                    | Err (ClientError code) => bool_decide (code ∈ throttling_codes)
                    | _ => false
                    end
  | Caught (EndpointConnectionError _) | Caught (ReadTimeoutError _) => true
  | Caught _ => false
  end.

(** [MaxAttemptsDecorator]: a retry only before the last attempt. *)
Definition needs_retry (attempts : nat) (o : outcome) : bool :=
  retryable o && (attempts <? max_attempts)%nat.

(** [delay_exponential('rand', 2, attempts)] is [random.random() * 2 **
    (attempts - 1)]; the model keeps the power of two. *)
Definition delay_exponential (attempts : nat) : Z := 2 ^ (Z.of_nat attempts - 1).

(** ** The loop of [Endpoint._send_request] *)

Record send_result := SendResult {
  rs_outcome : outcome; rs_attempts : nat; rs_sleeps : list Z; rs_faults : list fault;
  rs_state : registry
}.

Definition next_fault (fs : list fault) : fault * list fault :=
  match fs with [] => (Carried, []) | f :: fs' => (f, fs') end.

(** The inspect method: match on a value and keep its equation. *)
Definition inspect {A} (a : A) : {b | a = b} := exist _ a eq_refl.
Local Notation "x 'eqn' ':' p" := (exist _ x p) (only parsing, at level 20).

Lemma needs_retry_lt a o : needs_retry a o = true -> (a < max_attempts)%nat.
Proof. unfold needs_retry. intros [_ H]%andb_prop. by apply Nat.ltb_lt. Qed.

(** Attempt number [attempts], then [while self._needs_retry(...)]:
    sleep, count the attempt and send again.  The loop has no bound of its
    own; it terminates because [needs_retry] refuses a retry from attempt
    [max_attempts] on ([MaxAttemptsDecorator]), which is the measure's
    obligation. *)
Equations send_from (attempts : nat) (sleeps : list Z) (req : http_request)
    (fs : list fault) (st : registry) : send_result by wf (max_attempts - attempts)%nat lt :=
  send_from attempts sleeps req fs st with http_attempt (next_fault fs).1 req st := {
  | (o, st') with inspect (needs_retry attempts o) := {
    | true eqn: H =>
        send_from (S attempts) (sleeps ++ [delay_exponential attempts]) req (next_fault fs).2 st'
    | false eqn: _ => SendResult o attempts sleeps (next_fault fs).2 st' } }.
Next Obligation. apply needs_retry_lt in H. cbv [max_attempts] in *. lia. Qed.

Definition send_request (req : http_request) (fs : list fault) (st : registry) : send_result :=
  send_from 1 [] req fs st.

(** [_make_api_call]: the parsed response, or the error class raised for
    an error status, or the exception caught on the last attempt. *)
Definition outcome_result (o : outcome) : pyres pyval :=
  match o with Response _ r => r | Caught e => Err e end.

(** ** The client with retries *)

Record net := Net { net_registry : registry; net_faults : list fault }.

(** [post_to_connection]: serialization and validation once, then the
    retried send. *)
Definition post_retry (c : gw_client) (data : list Z) (cid : pyval) : stexn net exn pyval :=
  fun ns =>
    match post_request c data cid with
    | Err e => (Err e, ns)
    | Ok req =>
        let r := send_request req (net_faults ns) (net_registry ns) in
        (outcome_result (rs_outcome r), Net (rs_state r) (rs_faults r))
    end.

Definition RetryGateway : PushApi net :=
  {| client := gw_client; make_client := gw_make_client; post_to_connection := post_retry |}.

(** A fault the checker retries. *)
Definition transient (f : fault) : bool :=
  match f with
  | Carried => false
  | ConnectFailed | ResponseLost => true
  | Rejected s code => retryable (Response s (Err (ClientError code)))
  end.

(** The network carries one of the first [n] requests, and fails the
    ones before it with faults the checker retries. *)
Definition carried_within (n : nat) (fs : list fault) : Prop :=
  exists j, (j < n)%nat /\ Forall (fun f => transient f = true) (take j fs) /\
    nth j fs Carried = Carried.

(** ** The loop's bounds *)

Lemma next_fault_drop fs : (next_fault fs).2 = drop 1 fs.
Proof. by destruct fs. Qed.

(** One turn of the loop. *)
Lemma send_from_step a sl req fs st :
  send_from a sl req fs st =
    let '(o, st') := http_attempt (next_fault fs).1 req st in
    if needs_retry a o then send_from (S a) (sl ++ [delay_exponential a]) req (next_fault fs).2 st'
    else SendResult o a sl (next_fault fs).2 st'.
Proof.
  rewrite send_from_equation_1. destruct (http_attempt _ _ _) as [o st']. cbn.
  destruct (inspect (needs_retry a o)) as [[] E]; rewrite E; reflexivity.
Qed.

Lemma seq_snoc_sleeps a n :
  map delay_exponential (seq a (S n)) = delay_exponential a :: map delay_exponential (seq (S a) n).
Proof. reflexivity. Qed.

(** The loop stops at the attempt it is in. *)
Local Ltac stop_here :=
  cbn [rs_attempts rs_faults rs_sleeps]; rewrite ?Nat.sub_diag; cbn [seq map];
  rewrite ?app_nil_r; split_and!; first [lia | done].

(** From attempt [a], the loop stops at an attempt [n] with [a <= n <=
    max_attempts], having used [n - a + 1] faults and slept once for each
    attempt from [a] to [n - 1]. *)
Lemma send_from_bounds k : forall a sl req fs st,
  (max_attempts - a <= k)%nat -> (1 <= a <= max_attempts)%nat ->
  let r := send_from a sl req fs st in
  (a <= rs_attempts r <= max_attempts)%nat /\ rs_faults r = drop (S (rs_attempts r - a)) fs /\
  rs_sleeps r = sl ++ map delay_exponential (seq a (rs_attempts r - a)).
Proof.
  induction k as [|k IH]; intros a sl req fs st Hk Ha; cbv zeta; rewrite send_from_step;
    destruct (http_attempt _ req st) as [o st']; rewrite next_fault_drop;
    destruct (needs_retry a o) eqn:Hn; try by stop_here.
  all: pose proof (needs_retry_lt _ _ Hn).
  1: lia.
  destruct (IH (S a) (sl ++ [delay_exponential a]) req (drop 1 fs) st') as (Hb & Hf & Hs); [lia | lia |].
  split; [lia|]. split.
  - rewrite Hf, drop_drop. f_equal. lia.
  - rewrite Hs, <- app_assoc. f_equal. set (n := rs_attempts _) in *.
    replace (n - a)%nat with (S (n - S a)) by lia. by rewrite seq_snoc_sleeps.
Qed.

(** ** Attempts on an open connection *)

Section OpenConnection.
Variable req : http_request.
Variable st : registry.
Variable ep id : list Z.
Variable conns : gmap (list Z) (list (list Z)).
Hypothesis Hroute : route (req_url req) = Some (ep, id).

(** The registry with [m] as the deliveries of the connection. *)
Local Abbreviation at_conn m := (<[ep := <[id := m]> conns]> st).

Lemma gw_serve_at m :
  gw_serve req (at_conn m) = (Ok post_response, at_conn (m ++ [req_body req])).
Proof.
  unfold gw_serve. rewrite Hroute, lookup_insert_eq, lookup_insert_eq.
  by rewrite insert_insert_eq, insert_insert_eq.
Qed.

Lemma http_attempt_at f m :
  http_attempt f req (at_conn m) =
    match f with
    | Carried => (Response 200 (Ok post_response), at_conn (m ++ [req_body req]))
    | ConnectFailed => (Caught (EndpointConnectionError (req_url req)), at_conn m)
    | ResponseLost => (Caught (ReadTimeoutError (req_url req)), at_conn (m ++ [req_body req]))
    | Rejected s code => (Response s (Err (ClientError code)), at_conn m)
    end.
Proof. destruct f; cbn [http_attempt]; rewrite ?gw_serve_at; reflexivity. Qed.

(** An attempt delivers the payload at most once, and once if it
    answers. *)
Lemma http_attempt_open f m :
  exists j o, http_attempt f req (at_conn m) = (o, at_conn (m ++ replicate j (req_body req))) /\
    (j <= 1)%nat /\ (forall v, outcome_result o = Ok v -> j = 1%nat).
Proof.
  rewrite http_attempt_at.
  destruct f; [exists 1%nat | exists 0%nat | exists 1%nat | exists 0%nat];
    eexists; rewrite ?app_nil_r; (split; [reflexivity|]); split; try lia; done.
Qed.

(** From attempt [a], the loop delivers the payload at most once per
    attempt it makes, and at least once if it answers. *)
Lemma send_from_open k : forall a sl fs m,
  (max_attempts - a <= k)%nat ->
  let r := send_from a sl req fs (at_conn m) in
  exists n, rs_state r = at_conn (m ++ replicate n (req_body req)) /\
    (a <= rs_attempts r)%nat /\ (n <= S (rs_attempts r - a))%nat /\
    (forall v, outcome_result (rs_outcome r) = Ok v -> 1 <= n)%nat.
Proof.
  induction k as [|k IH]; intros a sl fs m Hk; cbv zeta; rewrite send_from_step;
    destruct (http_attempt_open (next_fault fs).1 m) as (j & o & -> & Hj & Hok); cbv beta iota;
    destruct (needs_retry a o) eqn:Hn.
  1: apply needs_retry_lt in Hn; lia.
  1,3: exists j; split_and!; cbn [rs_state rs_attempts rs_outcome]; [done | lia | lia |];
       intros v Hv; rewrite (Hok v Hv); lia.
  apply needs_retry_lt in Hn.
  destruct (IH (S a) (sl ++ [delay_exponential a]) (next_fault fs).2 (m ++ replicate j (req_body req)))
    as (n & Hs & Ha & Hn' & Hok'); [lia|].
  exists (j + n)%nat. rewrite Hs, replicate_add, app_assoc. split_and!; [done | lia | lia |].
  intros v Hv. specialize (Hok' v Hv). lia.
Qed.

(** A carried request answers, and the loop stops there. *)
Lemma send_from_first_carried a sl fs m :
  (next_fault fs).1 = Carried ->
  outcome_result (rs_outcome (send_from a sl req fs (at_conn m))) = Ok post_response.
Proof. intros Hn. rewrite send_from_step, Hn, http_attempt_at. reflexivity. Qed.

(** When the network carries one of the requests left after faults the
    checker retries, the loop answers. *)
Lemma send_from_carried j : forall a sl fs m,
  (a + j <= max_attempts)%nat ->
  Forall (fun f => transient f = true) (take j fs) -> nth j fs Carried = Carried ->
  outcome_result (rs_outcome (send_from a sl req fs (at_conn m))) = Ok post_response.
Proof.
  induction j as [|j IH]; intros a sl fs m Hj Ht Hc.
  - apply send_from_first_carried. by destruct fs.
  - destruct fs as [|f fs]; [by apply send_from_first_carried|].
    cbn [take] in Ht. apply Forall_cons in Ht as [Hf1 Ht]. cbn [nth] in Hc.
    rewrite send_from_step. cbn [next_fault fst snd]. rewrite http_attempt_at.
    destruct f; try discriminate; cbv beta iota;
      (replace (needs_retry a _) with true
         by (unfold needs_retry; symmetry; apply andb_true_intro; split;
             [done | apply Nat.ltb_lt; lia]));
      apply IH; lia || done.
Qed.
End OpenConnection.

(** ** Over a reliable network *)

Lemma gw_serve_Err_state req st e st' : gw_serve req st = (Err e, st') -> st' = st.
Proof.
  unfold gw_serve. destruct (route (req_url req)) as [[ep id]|]; [|by intros [= _ <-]].
  destruct (st !! ep) as [conns|]; [|by intros [= _ <-]].
  destruct (conns !! id); [discriminate | by intros [= _ <-]].
Qed.

Lemma outcome_result_to_outcome r : outcome_result (to_outcome r) = r.
Proof. by destruct r as [v|[]]. Qed.

(** When every request is carried, each attempt is [gw_serve] of the same
    request on the same registry until one answers without a retry. *)
Lemma send_from_reliable k : forall a sl req fs st,
  (max_attempts - a <= k)%nat -> Forall (eq Carried) fs ->
  let r := send_from a sl req fs st in
  rs_outcome r = to_outcome (gw_serve req st).1 /\ rs_state r = (gw_serve req st).2.
Proof.
  induction k as [|k IH]; intros a sl req fs st Hk Hfs; cbv zeta; rewrite send_from_step.
  all: assert (Hn : (next_fault fs).1 = Carried /\ Forall (eq Carried) (next_fault fs).2)
         by (destruct Hfs; [done | by split]).
  all: destruct Hn as [-> Hfs']; cbn [http_attempt].
  all: destruct (gw_serve req st) as [r st'] eqn:Hg; cbv beta iota.
  all: destruct (needs_retry a (to_outcome r)) eqn:Hr; [|by split].
  all: pose proof (needs_retry_lt _ _ Hr).
  1: lia.
  destruct r as [v|e]; [discriminate|].
  pose proof (gw_serve_Err_state _ _ _ _ Hg) as ->.
  destruct (IH (S a) (sl ++ [delay_exponential a]) req _ st ltac:(lia) Hfs') as [-> ->].
  by rewrite Hg.
Qed.

(** ** The post *)

(** For the handler's endpoint and an open connection, the post is the
    retried send of a request routed to that connection. *)
Lemma post_retry_send c d s data id st fs conns msgs :
  gw_endpoint c = endpoint_url d s -> url_host_ok d = true -> url_stage_ok s = true ->
  forallb is_scalar id = true -> id <> [] ->
  st !! gw_endpoint c = Some conns -> conns !! id = Some msgs ->
  exists req, route (req_url req) = Some (gw_endpoint c, id) /\ req_body req = data /\
    post_retry c data (PStr id) (Net st fs) =
      (outcome_result (rs_outcome (send_request req fs (<[gw_endpoint c := <[id := msgs]> conns]> st))),
       Net (rs_state (send_request req fs (<[gw_endpoint c := <[id := msgs]> conns]> st)))
           (rs_faults (send_request req fs (<[gw_endpoint c := <[id := msgs]> conns]> st)))).
Proof.
  intros Hc Hd Hs Hid Hne Hst Hconn.
  destruct (post_request_route c d s data id Hc Hd Hs Hid Hne) as (req & Hp & Hr & Hb).
  exists req. split_and!; [done | done |].
  rewrite (insert_id conns), (insert_id st) by done.
  unfold post_retry. by rewrite Hp.
Qed.

(** C18: one call of [post_to_connection] sends between one and
    [max_attempts] = 5 requests, one per fault it takes from the network,
    and sleeps [random.random()] times 1, 2, 4, ... seconds before each
    retry: less than 15 seconds in all. *)
Theorem send_request_bounds req fs st :
  let r := send_request req fs st in
  (1 <= rs_attempts r <= max_attempts)%nat /\ rs_faults r = drop (rs_attempts r) fs /\
  rs_sleeps r = map delay_exponential (seq 1 (rs_attempts r - 1)) /\
  fold_right Z.add 0 (rs_sleeps r) <= 2 ^ (Z.of_nat max_attempts - 1) - 1.
Proof.
  cbv zeta. unfold send_request.
  destruct (send_from_bounds (max_attempts - 1) 1 [] req fs st) as (Hb & Hf & Hs); [lia | cbv; lia |].
  set (n := rs_attempts _) in *. rewrite Hs, Hf. split_and!; [lia | lia | f_equal; lia | done |].
  cbv [max_attempts] in Hb. destruct n as [|[|[|[|[|[|n]]]]]]; cbv; try lia; discriminate.
Qed.

(** C19: over a network that carries every request, the post with retries
    is [HttpPost.http_post]: the same result and the same registry (a
    request the management API answers with a retryable error is sent
    again and answered the same way). *)
Theorem post_retry_reliable c data cid st fs :
  Forall (eq Carried) fs ->
  exists fs', post_retry c data cid (Net st fs) =
    ((http_post c data cid st).1, Net (http_post c data cid st).2 fs').
Proof.
  intros Hfs. unfold post_retry, http_post. destruct (post_request c data cid) as [req|e]; [|by eexists].
  cbn [net_faults net_registry]. unfold send_request.
  destruct (send_from_reliable (max_attempts - 1) 1 [] req fs st ltac:(lia) Hfs) as [-> ->].
  rewrite outcome_result_to_outcome. by eexists.
Qed.

(** C15: a post to an open connection at the handler's endpoint delivers
    the payload to it between zero and five times, at least once when
    the call returns, and touches no other connection: delivery is at
    least once and at most [max_attempts] times, not exactly once. *)
Theorem post_retry_open c d s data id st fs r ns' :
  gw_endpoint c = endpoint_url d s -> url_host_ok d = true -> url_stage_ok s = true ->
  forallb is_scalar id = true -> id <> [] -> gw_is_open st (endpoint_url d s) id ->
  post_retry c data (PStr id) (Net st fs) = (r, ns') ->
  exists k, (k <= max_attempts)%nat /\ (forall v, r = Ok v -> 1 <= k)%nat /\
    gw_delivered (net_registry ns') (endpoint_url d s) id =
      gw_delivered st (endpoint_url d s) id ++ replicate k data /\
    (forall ep' id', (ep', id') <> (endpoint_url d s, id) ->
       gw_delivered (net_registry ns') ep' id' = gw_delivered st ep' id') /\
    (forall ep' id', gw_is_open (net_registry ns') ep' id' <-> gw_is_open st ep' id').
Proof.
  intros Hc Hd Hs Hid Hne (conns & msgs & Hst & Hconn) Hp. rewrite <- Hc in *.
  destruct (post_retry_send c d s data id st fs conns msgs) as (req & Hr & Hb & E); try done.
  rewrite E in Hp. injection Hp as <- <-. unfold send_request. cbn [net_registry].
  destruct (send_from_open req st _ _ conns Hr (max_attempts - 1) 1 [] fs msgs ltac:(lia))
    as (k & -> & Ha & Hk & Hok).
  destruct (send_from_bounds (max_attempts - 1) 1 [] req fs (<[gw_endpoint c := <[id := msgs]> conns]> st))
    as ((_ & Hn) & _); [lia | cbv; lia |].
  exists k. rewrite Hb. split_and!.
  - lia.
  - intros v Hv. by apply (Hok v); rewrite Hv.
  - rewrite gw_delivered_insert, decide_True by done. unfold gw_delivered. by rewrite Hst, Hconn.
  - intros ep' id' Hne'. rewrite gw_delivered_insert by done. by rewrite decide_False.
  - intros ep' id'. by apply gw_is_open_update with msgs.
Qed.

(** C17: when the response to the first request is lost and the second
    is carried, the call returns normally and the connection has received
    the payload twice. *)
Theorem post_retry_lost_response c d s data id st fs :
  gw_endpoint c = endpoint_url d s -> url_host_ok d = true -> url_stage_ok s = true ->
  forallb is_scalar id = true -> id <> [] -> gw_is_open st (endpoint_url d s) id ->
  exists ns', post_retry c data (PStr id) (Net st (ResponseLost :: Carried :: fs)) = (Ok post_response, ns') /\
    net_faults ns' = fs /\
    gw_delivered (net_registry ns') (endpoint_url d s) id =
      gw_delivered st (endpoint_url d s) id ++ [data; data].
Proof.
  intros Hc Hd Hs Hid Hne (conns & msgs & Hst & Hconn). rewrite <- Hc in *.
  destruct (post_retry_send c d s data id st (ResponseLost :: Carried :: fs) conns msgs)
    as (req & Hr & <- & ->); try done.
  unfold send_request. rewrite send_from_step. cbn [next_fault fst snd].
  rewrite (http_attempt_at req st _ _ conns Hr ResponseLost).
  replace (needs_retry 1 _) with true by reflexivity. rewrite send_from_step. cbn [next_fault fst snd].
  rewrite (http_attempt_at req st _ _ conns Hr Carried).
  replace (needs_retry 2 _) with false by reflexivity.
  cbn [rs_state rs_faults rs_outcome outcome_result net_registry net_faults].
  eexists. split_and!; [reflexivity | reflexivity |]. cbn [net_registry].
  rewrite gw_delivered_insert, decide_True by done. unfold gw_delivered. rewrite Hst, Hconn.
  cbn [default]. by rewrite <- app_assoc.
Qed.

(** ** The handler over the retrying client *)

Section HandlerRetry.
Variable float_repr : list Z -> list Z.
Variable repr_container : pyval -> list Z.
Variable dec_depth enc_depth : nat.
Hypothesis float_repr_printable : forall lx, Forall printable (float_repr lx).

(** C16: for an event whose body carries a message, sent from a connection
    that is open at the handler's endpoint, the handler returns status
    200 as soon as the network carries one of the first five requests
    after faults botocore retries, and the connection has then received
    the payload between once and five times. *)
Theorem lambda_handler_retry ev d s cid msg text st fs :
  request_context ev d s (PStr cid) -> body_message dec_depth ev msg ->
  dumps float_repr enc_depth (PDict [(cps "message", msg)]) = Ok text ->
  is_valid_endpoint_url (endpoint_url d s) = true -> url_host_ok d = true -> url_stage_ok s = true ->
  forallb is_scalar cid = true -> cid <> [] -> gw_is_open st (endpoint_url d s) cid ->
  carried_within max_attempts fs ->
  exists k ns',
    @lambda_handler net RetryGateway float_repr repr_container dec_depth enc_depth ev (Net st fs) =
      (Ok status_200, ns') /\ (1 <= k <= max_attempts)%nat /\
    gw_delivered (net_registry ns') (endpoint_url d s) cid =
      gw_delivered st (endpoint_url d s) cid ++ replicate k text.
Proof.
  intros Hrc Hb Ht Hv Hd Hs Hid Hne (conns & msgs & Hst & Hconn) (j & Hj & Htr & Hcar).
  set (c := {| gw_service := cps "apigatewaymanagementapi"; gw_endpoint := endpoint_url d s |}).
  assert (Hc : @make_client net RetryGateway (cps "apigatewaymanagementapi") (endpoint_url d s) = Ok c)
    by (cbn; unfold gw_make_client; by rewrite Hv).
  rewrite (@lambda_handler_prepare net RetryGateway), (@prepare_event net RetryGateway _ _ _ _
    float_repr_printable ev d s (PStr cid) msg text c Hrc Hb Hc Ht).
  change (@post_to_connection net RetryGateway c text (PStr cid) (Net st fs))
    with (post_retry c text (PStr cid) (Net st fs)).
  destruct (post_retry_send c d s text cid st fs conns msgs) as (req & Hr & Hbody & ->); try done.
  unfold send_request.
  pose proof (send_from_carried req st _ _ conns Hr j 1 [] fs msgs) as Hlive.
  rewrite Hlive by (cbv [max_attempts] in *; lia || done).
  destruct (send_from_open req st _ _ conns Hr (max_attempts - 1) 1 [] fs msgs ltac:(lia))
    as (k & Hst' & Ha & Hk & Hok).
  destruct (send_from_bounds (max_attempts - 1) 1 [] req fs (<[gw_endpoint c := <[cid := msgs]> conns]> st))
    as ((_ & Hn) & _); [lia | cbv; lia |].
  eexists k, _. split; [reflexivity|]. cbn [net_registry]. rewrite Hst', Hbody. split.
  - split; [apply (Hok post_response); apply Hlive; cbv [max_attempts] in *; lia || done | lia].
  - rewrite gw_delivered_insert, decide_True by done. unfold gw_delivered. by rewrite Hst, Hconn.
Qed.
End HandlerRetry.

(** ** Witnesses *)

Lemma sample_open : gw_is_open sample_registry (endpoint_url sample_domain (cps "prod")) sample_id.
Proof. eexists _, _. split; reflexivity. Qed.

Lemma post_retry_reliable_witness :
  Forall (eq Carried) [Carried; Carried] /\
  exists fs', post_retry (sample_client (cps "prod")) (cps "hi") (PStr sample_id)
      (Net sample_registry [Carried; Carried]) =
    ((http_post (sample_client (cps "prod")) (cps "hi") (PStr sample_id) sample_registry).1,
     Net (http_post (sample_client (cps "prod")) (cps "hi") (PStr sample_id) sample_registry).2 fs').
Proof.
  assert (H : Forall (eq Carried) [Carried; Carried]) by (repeat constructor).
  split; [exact H | exact (post_retry_reliable _ _ _ _ _ H)].
Defined.

Lemma post_retry_open_witness :
  exists k, (k <= max_attempts)%nat /\
    (forall v, (post_retry (sample_client (cps "prod")) (cps "hi") (PStr sample_id)
                  (Net sample_registry [ResponseLost; ConnectFailed])).1 = Ok v -> 1 <= k)%nat /\
    gw_delivered (net_registry (post_retry (sample_client (cps "prod")) (cps "hi") (PStr sample_id)
                  (Net sample_registry [ResponseLost; ConnectFailed])).2)
      (endpoint_url sample_domain (cps "prod")) sample_id =
      gw_delivered sample_registry (endpoint_url sample_domain (cps "prod")) sample_id ++
        replicate k (cps "hi") /\
    (forall ep' id', (ep', id') <> (endpoint_url sample_domain (cps "prod"), sample_id) ->
       gw_delivered (net_registry (post_retry (sample_client (cps "prod")) (cps "hi") (PStr sample_id)
                  (Net sample_registry [ResponseLost; ConnectFailed])).2) ep' id' =
       gw_delivered sample_registry ep' id') /\
    (forall ep' id', gw_is_open (net_registry (post_retry (sample_client (cps "prod")) (cps "hi")
                  (PStr sample_id) (Net sample_registry [ResponseLost; ConnectFailed])).2) ep' id' <->
       gw_is_open sample_registry ep' id').
Proof.
  apply (post_retry_open (sample_client (cps "prod")) sample_domain (cps "prod") (cps "hi") sample_id
    sample_registry [ResponseLost; ConnectFailed]); try reflexivity.
  - discriminate.
  - exact sample_open.
Defined.

Lemma post_retry_lost_response_witness :
  exists ns', post_retry (sample_client (cps "prod")) (cps "hi") (PStr sample_id)
      (Net sample_registry [ResponseLost; Carried]) = (Ok post_response, ns') /\
    net_faults ns' = [] /\
    gw_delivered (net_registry ns') (endpoint_url sample_domain (cps "prod")) sample_id =
      gw_delivered sample_registry (endpoint_url sample_domain (cps "prod")) sample_id ++
        [cps "hi"; cps "hi"].
Proof.
  apply (post_retry_lost_response _ sample_domain (cps "prod")); try reflexivity.
  - discriminate.
  - exact sample_open.
Defined.

Lemma lambda_handler_retry_witness :
  exists k ns',
    @lambda_handler net RetryGateway (fun _ => []) (fun _ => []) 100 100 sample_event
      (Net sample_registry [ResponseLost; Rejected 503 (cps "ServiceUnavailable")]) =
      (Ok status_200, ns') /\ (1 <= k <= max_attempts)%nat /\
    gw_delivered (net_registry ns') (endpoint_url sample_domain (cps "prod")) sample_id =
      gw_delivered sample_registry (endpoint_url sample_domain (cps "prod")) sample_id ++
        replicate k ([123; 34] ++ cps "message" ++ [34; 58; 32; 34] ++ cps "hi" ++ [34; 125]).
Proof.
  apply (lambda_handler_retry (fun _ => []) (fun _ => []) 100 100 (fun _ => Forall_nil_2 _) _ _ _ _
    (PStr (cps "hi"))); try reflexivity.
  - eexists. split_and!; reflexivity.
  - eexists _, _. split_and!; reflexivity.
  - discriminate.
  - exact sample_open.
  - exists 2%nat. split; [cbv; lia|]. split; [repeat constructor | reflexivity].
Defined.
